(** * AITradingMate market-data core: a shallow embedding and its properties

    The development follows the Python sources of the backend:
    - [core/cache.py]                      -> [Module Cache]
    - [services/data_source_manager.py]    -> [Module Manager]
    - [services/akshare_service.py]        -> [Module Akshare]
    - [services/kline_storage.py] and
      [routers/data_sources.py]            -> [Module Storage]
    - [services/fin_agent_service.py]      -> [Module Indicators]

    Python dictionaries are insertion-ordered association lists with unique
    keys, exceptions are an explicit [Raise] outcome, and [async] functions
    are state-passing computations over the process state. *)

From Stdlib Require Import String Ascii List ZArith Arith Bool Lia DecimalString.
From Stdlib Require Import Reals Lra.
From Stdlib Require Import Sorted Permutation.
Import ListNotations.

Set Implicit Arguments.

(** ** Outcomes of Python calls *)

Inductive Exn : Type :=
| Exception (msg : string)
| HTTPException (status_code : nat) (detail : string).

Inductive Outcome (A : Type) : Type :=
| Ret (a : A)
| Raise (e : Exn).

Arguments Ret {A} a.
Arguments Raise {A} e.

(** ** Insertion-ordered dictionaries ([dict]) *)

Module PyDict.

Section Dict.
Context {V : Type}.

Definition t := list (string * V).

(** [d.get(k)] *)
Fixpoint get (d : t) (k : string) : option V :=
  match d with
  | [] => None
  | (k', v) :: r => if String.eqb k' k then Some v else get r k
  end.

(** [k in d] *)
Definition contains (d : t) (k : string) : bool :=
  match get d k with Some _ => true | None => false end.

(** [d[k] = v]: an existing key keeps its position, a new one goes last. *)
Fixpoint set (d : t) (k : string) (v : V) : t :=
  match d with
  | [] => [(k, v)]
  | (k', v') :: r =>
      if String.eqb k' k then (k', v) :: r else (k', v') :: set r k v
  end.

(** [del d[k]]; every use in the sources is on a key known to be present. *)
Fixpoint del (d : t) (k : string) : t :=
  match d with
  | [] => []
  | (k', v') :: r => if String.eqb k' k then r else (k', v') :: del r k
  end.

Definition keys (d : t) : list string := map fst d.

Definition len (d : t) : nat := length d.

Definition wf (d : t) : Prop := NoDup (keys d).

Lemma get_In_keys d k v : get d k = Some v -> In k (keys d).
Proof.
  induction d as [|[k' v'] r IH]; simpl; [discriminate|].
  destruct (String.eqb k' k) eqn:E.
  - apply String.eqb_eq in E. auto.
  - intros H. right. apply IH, H.
Qed.

Lemma get_None_keys d k : get d k = None -> ~ In k (keys d).
Proof.
  induction d as [|[k' v'] r IH]; simpl; [tauto|].
  destruct (String.eqb k' k) eqn:E; [discriminate|].
  apply String.eqb_neq in E. intros H [H1|H1]; [contradiction|].
  exact (IH H H1).
Qed.

Lemma contains_true d k : contains d k = true <-> In k (keys d).
Proof.
  unfold contains. destruct (get d k) eqn:E.
  - split; [intros _; eapply get_In_keys; eauto | reflexivity].
  - split; [discriminate | intros H; exfalso; eapply get_None_keys; eauto].
Qed.

Lemma get_set_eq d k v : get (set d k v) k = Some v.
Proof.
  induction d as [|[k' v'] r IH]; simpl.
  - now rewrite String.eqb_refl.
  - destruct (String.eqb k' k) eqn:E; simpl; now rewrite E.
Qed.

Lemma get_set_ne d k k' v : k <> k' -> get (set d k v) k' = get d k'.
Proof.
  intros Hne. induction d as [|[k0 v0] r IH]; simpl.
  - apply String.eqb_neq in Hne. now rewrite Hne.
  - destruct (String.eqb k0 k) eqn:E; simpl.
    + apply String.eqb_eq in E. subst k0.
      apply String.eqb_neq in Hne. now rewrite Hne.
    + now rewrite IH.
Qed.

Lemma keys_set d k v :
  keys (set d k v) = if contains d k then keys d else keys d ++ [k].
Proof.
  unfold contains. induction d as [|[k' v'] r IH]; simpl; [reflexivity|].
  destruct (String.eqb k' k) eqn:E; simpl; [reflexivity|].
  rewrite IH. now destruct (get r k).
Qed.

Lemma len_set d k v :
  len (set d k v) = if contains d k then len d else S (len d).
Proof.
  unfold len. rewrite <- !(length_map fst). fold (keys (set d k v)) (keys d).
  rewrite keys_set. destruct (contains d k); [reflexivity|].
  rewrite length_app. simpl. lia.
Qed.

Lemma wf_set d k v : wf d -> wf (set d k v).
Proof.
  unfold wf. rewrite keys_set. intros H.
  destruct (contains d k) eqn:E; [assumption|].
  assert (Hn : ~ In k (keys d)).
  { intros Hin. apply contains_true in Hin. congruence. }
  clear E. induction (keys d) as [|a l IH]; simpl.
  - constructor; [tauto | constructor].
  - inversion H; subst. constructor.
    + rewrite in_app_iff. simpl. intros [?|[?|[]]]; [tauto|].
      subst. apply Hn. now left.
    + apply IH; [assumption|]. intros ?. apply Hn. now right.
Qed.

Lemma keys_del_incl d k x : In x (keys (del d k)) -> In x (keys d).
Proof.
  induction d as [|[k' v'] r IH]; simpl; [tauto|].
  destruct (String.eqb k' k); simpl; intuition.
Qed.

Lemma wf_del d k : wf d -> wf (del d k).
Proof.
  unfold wf. induction d as [|[k' v'] r IH]; simpl; [auto|].
  intros H. inversion H; subst.
  destruct (String.eqb k' k); simpl; [assumption|].
  constructor; [|auto]. intros Hin. apply keys_del_incl in Hin. tauto.
Qed.

Lemma len_del_le d k : len (del d k) <= len d.
Proof.
  unfold len. induction d as [|[k' v'] r IH]; simpl; [lia|].
  destruct (String.eqb k' k); simpl; lia.
Qed.

Lemma get_del_eq d k : wf d -> get (del d k) k = None.
Proof.
  unfold wf. induction d as [|[k' v'] r IH]; simpl; [reflexivity|].
  intros H. inversion H; subst.
  destruct (String.eqb k' k) eqn:E; simpl.
  - apply String.eqb_eq in E. subst k'.
    destruct (get r k) eqn:G; [|reflexivity].
    exfalso. apply get_In_keys in G. tauto.
  - rewrite E. auto.
Qed.

Lemma get_del_ne d k k' : k <> k' -> get (del d k) k' = get d k'.
Proof.
  intros Hne. induction d as [|[k0 v0] r IH]; simpl; [reflexivity|].
  destruct (String.eqb k0 k) eqn:E; simpl.
  - apply String.eqb_eq in E. subst k0.
    apply String.eqb_neq in Hne. now rewrite Hne.
  - now rewrite IH.
Qed.

(** Deleting the first [n] keys one by one leaves the dictionary without
    its [n] oldest entries. *)
Lemma del_firstn_keys (d : t) n :
  wf d -> fold_left del (firstn n (keys d)) d = skipn n d.
Proof.
  unfold wf. revert d. induction n as [|n IH]; intros d H; [reflexivity|].
  destruct d as [|[k v] r]; [reflexivity|].
  simpl. rewrite String.eqb_refl. inversion H; subst. now apply IH.
Qed.

End Dict.

Arguments t V : clear implicits.

End PyDict.


(** ** [core/cache.py]: the in-process fallback store *)

Module Cache.

Section InMemory.
Variable V : Type.

(** [class InMemoryCache]: [_cache] and [_expiry] are dicts, [_max_size] the
    configured capacity.  Instants are seconds on the integer line; one clock
    reading [now] serves a whole call. *)
Record InMemoryCache : Type := {
  _cache : PyDict.t V;
  _expiry : PyDict.t Z;
  _max_size : nat
}.

(** [InMemoryCache(max_size)] *)
Definition init (max_size : nat) : InMemoryCache :=
  {| _cache := []; _expiry := []; _max_size := max_size |}.

(** [int(self._max_size * 0.2)]: for every capacity below 2^50 the double
    product truncates to the integer quotient by five. *)
Definition to_remove (max_size : nat) : nat := max_size / 5.

(** [[k for k, v in self._expiry.items() if v < now]] *)
Definition expired_keys (c : InMemoryCache) (now : Z) : list string :=
  map fst (filter (fun kv => (snd kv <? now)%Z) (_expiry c)).

(** First loop of [_cleanup]. *)
Definition purge_step (c : InMemoryCache) (key : string) : InMemoryCache :=
  {| _cache := if PyDict.contains (_cache c) key
               then PyDict.del (_cache c) key else _cache c;
     _expiry := PyDict.del (_expiry c) key;
     _max_size := _max_size c |}.

Definition purge_expired (c : InMemoryCache) (now : Z) : InMemoryCache :=
  fold_left purge_step (expired_keys c now) c.

(** Second loop of [_cleanup]. *)
Definition evict_step (c : InMemoryCache) (key : string) : InMemoryCache :=
  {| _cache := PyDict.del (_cache c) key;
     _expiry := if PyDict.contains (_expiry c) key
                then PyDict.del (_expiry c) key else _expiry c;
     _max_size := _max_size c |}.

(** [async def _cleanup(self)] *)
Definition _cleanup (c : InMemoryCache) (now : Z) : InMemoryCache :=
  let c1 := purge_expired c now in
  if _max_size c1 <=? PyDict.len (_cache c1) then
    let keys_to_remove :=
      firstn (to_remove (_max_size c1)) (PyDict.keys (_cache c1)) in
    fold_left evict_step keys_to_remove c1
  else c1.

(** [async def get(self, key)] *)
Definition get (c : InMemoryCache) (now : Z) (key : string)
  : option V * InMemoryCache :=
  match PyDict.get (_cache c) key with
  | Some v =>
      match PyDict.get (_expiry c) key with
      | Some expiry =>
          if (expiry <? now)%Z then
            (None, {| _cache := PyDict.del (_cache c) key;
                      _expiry := PyDict.del (_expiry c) key;
                      _max_size := _max_size c |})
          else (Some v, c)
      | None => (Some v, c)
      end
  | None => (None, c)
  end.

(** [if ex:] holds for an integer other than [None] and [0]. *)
Definition truthy_ex (ex : option Z) : option Z :=
  match ex with
  | Some e => if (e =? 0)%Z then None else Some e
  | None => None
  end.

(** [async def set(self, key, value, ex=None)] *)
Definition set (c : InMemoryCache) (now : Z) (key : string) (value : V)
  (ex : option Z) : bool * InMemoryCache :=
  let c1 := if _max_size c <=? PyDict.len (_cache c)
            then _cleanup c now else c in
  (true,
   {| _cache := PyDict.set (_cache c1) key value;
      _expiry := match truthy_ex ex with
                 | Some e => PyDict.set (_expiry c1) key (now + e)%Z
                 | None => _expiry c1
                 end;
      _max_size := _max_size c1 |}).

(** [async def delete(self, key)] *)
Definition delete (c : InMemoryCache) (key : string) : bool * InMemoryCache :=
  if PyDict.contains (_cache c) key then
    (true, {| _cache := PyDict.del (_cache c) key;
              _expiry := if PyDict.contains (_expiry c) key
                         then PyDict.del (_expiry c) key else _expiry c;
              _max_size := _max_size c |})
  else (false, c).

(** [async def exists(self, key)] *)
Definition exists_ (c : InMemoryCache) (now : Z) (key : string)
  : bool * InMemoryCache :=
  match get c now key with
  | (Some _, c') => (true, c')
  | (None, c') => (false, c')
  end.

(** [async def flushdb(self)] *)
Definition flushdb (c : InMemoryCache) : InMemoryCache :=
  {| _cache := []; _expiry := []; _max_size := _max_size c |}.

(** Calls a client can make on the store, each with the clock reading at
    which it runs. *)
Inductive op : Type :=
| OpGet (key : string)
| OpSet (key : string) (value : V) (ex : option Z)
| OpDelete (key : string)
| OpExists (key : string)
| OpFlush.

Definition step (c : InMemoryCache) (call : Z * op) : InMemoryCache :=
  match call with
  | (now, OpGet key) => snd (get c now key)
  | (now, OpSet key value ex) => snd (set c now key value ex)
  | (_, OpDelete key) => snd (delete c key)
  | (now, OpExists key) => snd (exists_ c now key)
  | (_, OpFlush) => flushdb c
  end.

Definition run (c : InMemoryCache) (calls : list (Z * op)) : InMemoryCache :=
  fold_left step calls c.

(** An entry is expired at [now] when it has an expiry that lies before it. *)
Definition expired (c : InMemoryCache) (now : Z) (key : string) : bool :=
  match PyDict.get (_expiry c) key with
  | Some e => (e <? now)%Z
  | None => false
  end.

(** The eviction policy in the words of the specification: when the store is
    at capacity, drop the expired entries; if that leaves it at capacity, drop
    the oldest fifth of the capacity in insertion order; then insert. *)
Definition live_entries (c : InMemoryCache) (now : Z) : PyDict.t V :=
  filter (fun kv => negb (expired c now (fst kv))) (_cache c).

Definition spec_evict (c : InMemoryCache) (now : Z) : PyDict.t V :=
  let live := live_entries c now in
  if _max_size c <=? PyDict.len live
  then skipn (to_remove (_max_size c)) live
  else live.

Definition spec_set (c : InMemoryCache) (now : Z) (key : string) (value : V)
  : PyDict.t V :=
  if _max_size c <=? PyDict.len (_cache c)
  then PyDict.set (spec_evict c now) key value
  else PyDict.set (_cache c) key value.

(** Both dicts hold each key once. *)
Definition wf (c : InMemoryCache) : Prop :=
  PyDict.wf (_cache c) /\ PyDict.wf (_expiry c).

End InMemory.

Arguments init {V} max_size.
Arguments OpGet {V} key.
Arguments OpDelete {V} key.
Arguments OpExists {V} key.
Arguments OpFlush {V}.

Section Facts.
Context {V : Type}.
Implicit Types (c : InMemoryCache V) (d : PyDict.t V).

Lemma filter_absent_key {A} (d : PyDict.t A) k :
  ~ In k (PyDict.keys d) ->
  filter (fun kv => negb (String.eqb (fst kv) k)) d = d.
Proof.
  induction d as [|[k' v'] r IH]; simpl; [reflexivity|].
  intros H. destruct (String.eqb k' k) eqn:E.
  - apply String.eqb_eq in E. tauto.
  - simpl. f_equal. apply IH. tauto.
Qed.

Lemma del_as_filter {A} (d : PyDict.t A) k :
  PyDict.wf d ->
  PyDict.del d k = filter (fun kv => negb (String.eqb (fst kv) k)) d.
Proof.
  unfold PyDict.wf. induction d as [|[k' v'] r IH]; simpl; [reflexivity|].
  intros H. inversion H; subst.
  destruct (String.eqb k' k) eqn:E; simpl.
  - apply String.eqb_eq in E. subst k'. symmetry. now apply filter_absent_key.
  - f_equal. now apply IH.
Qed.

Lemma guarded_del_as_filter {A} (d : PyDict.t A) k :
  PyDict.wf d ->
  (if PyDict.contains d k then PyDict.del d k else d)
  = filter (fun kv => negb (String.eqb (fst kv) k)) d.
Proof.
  intros H. destruct (PyDict.contains d k) eqn:E.
  - now apply del_as_filter.
  - symmetry. apply filter_absent_key. intros Hin.
    apply PyDict.contains_true in Hin. congruence.
Qed.

Lemma wf_filter {A} (f : string * A -> bool) (d : PyDict.t A) :
  PyDict.wf d -> PyDict.wf (filter f d).
Proof.
  unfold PyDict.wf, PyDict.keys. induction d as [|kv r IH]; simpl; [auto|].
  intros H. inversion H; subst. destruct (f kv); simpl; [|auto].
  constructor; [|auto]. intros Hin. apply H2.
  apply in_map_iff in Hin. destruct Hin as [x [Hx Hf]].
  apply filter_In in Hf. apply in_map_iff. exists x. tauto.
Qed.

Lemma wf_skipn {A} n (d : PyDict.t A) : PyDict.wf d -> PyDict.wf (skipn n d).
Proof.
  unfold PyDict.wf, PyDict.keys. revert d.
  induction n as [|n IH]; intros d H; [assumption|].
  destruct d as [|kv r]; [assumption|]. simpl. inversion H; subst. auto.
Qed.

Lemma filter_twice {A} (f g : A -> bool) (l : list A) :
  filter f (filter g l) = filter (fun x => g x && f x) l.
Proof.
  induction l as [|a l IH]; simpl; [reflexivity|].
  destruct (g a); simpl; [|assumption].
  destruct (f a); [f_equal|]; assumption.
Qed.

Lemma purge_max_size c ks : _max_size (fold_left (@purge_step V) ks c) = _max_size c.
Proof. revert c. induction ks as [|k ks IH]; intros c; simpl; [reflexivity|]. now rewrite IH. Qed.

Lemma evict_max_size c ks : _max_size (fold_left (@evict_step V) ks c) = _max_size c.
Proof. revert c. induction ks as [|k ks IH]; intros c; simpl; [reflexivity|]. now rewrite IH. Qed.

Lemma purge_cache c ks :
  PyDict.wf (_cache c) ->
  _cache (fold_left (@purge_step V) ks c)
  = filter (fun kv => negb (existsb (String.eqb (fst kv)) ks)) (_cache c).
Proof.
  revert c. induction ks as [|k ks IH]; intros c H; simpl.
  - symmetry. apply forallb_filter_id. now apply forallb_forall.
  - rewrite IH; simpl; rewrite guarded_del_as_filter by assumption.
    + rewrite filter_twice. apply filter_ext. intros [k' v']. simpl.
      now destruct (String.eqb k' k).
    + now apply wf_filter.
Qed.

Lemma purge_wf c ks : wf c -> wf (fold_left (@purge_step V) ks c).
Proof.
  revert c. induction ks as [|k ks IH]; intros c [H1 H2]; simpl; [now split|].
  apply IH. split; simpl.
  - rewrite guarded_del_as_filter by assumption. now apply wf_filter.
  - now apply PyDict.wf_del.
Qed.

Lemma evict_cache c ks :
  _cache (fold_left (@evict_step V) ks c) = fold_left PyDict.del ks (_cache c).
Proof. revert c. induction ks as [|k ks IH]; intros c; simpl; [reflexivity|]. now rewrite IH. Qed.

Lemma evict_wf c ks : wf c -> wf (fold_left (@evict_step V) ks c).
Proof.
  revert c. induction ks as [|k ks IH]; intros c [H1 H2]; simpl; [now split|].
  apply IH. split; simpl.
  - now apply PyDict.wf_del.
  - rewrite guarded_del_as_filter by assumption. now apply wf_filter.
Qed.

Lemma expired_keys_spec c now k :
  PyDict.wf (_expiry c) ->
  existsb (String.eqb k) (expired_keys c now) = expired c now k.
Proof.
  unfold expired_keys, expired, PyDict.wf.
  induction (_expiry c) as [|[k' e] r IH]; simpl; [reflexivity|].
  intros H. inversion H; subst.
  destruct (String.eqb k' k) eqn:E.
  - apply String.eqb_eq in E. subst k'.
    destruct (e <? now)%Z; simpl.
    + now rewrite String.eqb_refl.
    + destruct (existsb _ _) eqn:X; [|reflexivity].
      apply existsb_exists in X. destruct X as [x [Hx Hk]].
      apply String.eqb_eq in Hk. subst x. exfalso. apply H2.
      apply in_map_iff in Hx. destruct Hx as [y [Hy Hf]].
      apply filter_In in Hf. apply in_map_iff. exists y. tauto.
  - rewrite <- IH by assumption.
    destruct (e <? now)%Z; simpl; [|reflexivity].
    rewrite String.eqb_sym, E. reflexivity.
Qed.

Lemma purge_expired_cache c now :
  wf c -> _cache (purge_expired c now) = live_entries c now.
Proof.
  intros [H1 H2]. unfold purge_expired, live_entries.
  rewrite purge_cache by assumption. apply filter_ext. intros [k v]. simpl.
  now rewrite expired_keys_spec.
Qed.

Lemma cleanup_cache c now : wf c -> _cache (_cleanup c now) = spec_evict c now.
Proof.
  intros H. unfold _cleanup, spec_evict.
  pose proof (purge_expired_cache now H) as Hp.
  unfold purge_expired at 1. rewrite purge_max_size. rewrite Hp.
  destruct (_max_size c <=? PyDict.len (live_entries c now)); [|assumption].
  rewrite evict_cache. unfold purge_expired at 1. rewrite purge_max_size.
  rewrite Hp. apply PyDict.del_firstn_keys.
  rewrite <- Hp. apply purge_wf, H.
Qed.

Lemma cleanup_wf c now : wf c -> wf (_cleanup c now).
Proof.
  intros H. unfold _cleanup.
  destruct (_ <=? _); [apply evict_wf|]; apply purge_wf, H.
Qed.

Lemma cleanup_max_size c now : _max_size (_cleanup c now) = _max_size c.
Proof.
  unfold _cleanup. destruct (_ <=? _).
  - rewrite evict_max_size. apply purge_max_size.
  - apply purge_max_size.
Qed.

Lemma set_cache c now key value ex :
  wf c -> _cache (snd (set c now key value ex)) = spec_set c now key value.
Proof.
  intros H. unfold set, spec_set. simpl.
  destruct (_max_size c <=? PyDict.len (_cache c)); [|reflexivity].
  now rewrite cleanup_cache.
Qed.

Lemma set_max_size c now key value ex :
  _max_size (snd (set c now key value ex)) = _max_size c.
Proof.
  unfold set. simpl. destruct (_ <=? _); [apply cleanup_max_size | reflexivity].
Qed.

Lemma set_wf c now key value ex : wf c -> wf (snd (set c now key value ex)).
Proof.
  intros H. unfold set. simpl.
  assert (H1 : wf (if _max_size c <=? PyDict.len (_cache c)
                   then _cleanup c now else c)).
  { destruct (_ <=? _); [now apply cleanup_wf | assumption]. }
  destruct H1 as [Ha Hb]. split; simpl.
  - now apply PyDict.wf_set.
  - destruct (truthy_ex ex); [now apply PyDict.wf_set | assumption].
Qed.

Lemma live_entries_len c now : PyDict.len (live_entries c now) <= PyDict.len (_cache c).
Proof. apply filter_length_le. Qed.

Lemma len_set_le d k v : PyDict.len (PyDict.set d k v) <= S (PyDict.len d).
Proof. rewrite PyDict.len_set. destruct (PyDict.contains d k); lia. Qed.

Lemma to_remove_pos n : 5 <= n -> 1 <= to_remove n.
Proof.
  intros H. unfold to_remove.
  change 1 with (5 / 5). apply Nat.Div0.div_le_mono. exact H.
Qed.

(** One write keeps a store of capacity at least five within its capacity. *)
Lemma spec_set_len c now key value :
  5 <= _max_size c ->
  PyDict.len (_cache c) <= _max_size c ->
  PyDict.len (spec_set c now key value) <= _max_size c.
Proof.
  intros H5 Hle. unfold spec_set, spec_evict.
  pose proof (live_entries_len c now) as Hl.
  destruct (_max_size c <=? PyDict.len (_cache c)) eqn:E1.
  - apply Nat.leb_le in E1.
    destruct (_max_size c <=? PyDict.len (live_entries c now)) eqn:E2.
    + apply Nat.leb_le in E2.
      pose proof (to_remove_pos H5) as Hr.
      pose proof (len_set_le (skipn (to_remove (_max_size c)) (live_entries c now)) key value) as Hs.
      unfold PyDict.len in *. rewrite length_skipn in Hs. lia.
    + apply Nat.leb_gt in E2.
      pose proof (len_set_le (live_entries c now) key value). lia.
  - apply Nat.leb_gt in E1.
    pose proof (len_set_le (_cache c) key value). lia.
Qed.

Lemma get_state c now key :
  snd (get c now key) = c \/
  snd (get c now key) = {| _cache := PyDict.del (_cache c) key;
                           _expiry := PyDict.del (_expiry c) key;
                           _max_size := _max_size c |}.
Proof.
  unfold get. destruct (PyDict.get (_cache c) key); [|now left].
  destruct (PyDict.get (_expiry c) key); [|now left].
  destruct (_ <? _)%Z; [now right | now left].
Qed.

Definition bounded c : Prop :=
  wf c /\ PyDict.len (_cache c) <= _max_size c.

Lemma step_bounded c call :
  5 <= _max_size c -> bounded c ->
  bounded (step c call) /\ _max_size (step c call) = _max_size c.
Proof.
  intros H5 [[Hw1 Hw2] Hb].
  assert (Hdel : forall key,
    bounded {| _cache := PyDict.del (_cache c) key;
               _expiry := PyDict.del (_expiry c) key;
               _max_size := _max_size c |}).
  { intros key. repeat split; simpl; try now apply PyDict.wf_del.
    pose proof (PyDict.len_del_le (_cache c) key). lia. }
  destruct call as [now [key|key value ex|key|key|]]; unfold step.
  - destruct (get_state c now key) as [->| ->]; [repeat split; assumption|].
    split; [apply Hdel | reflexivity].
  - split; [split|].
    + apply set_wf. now split.
    + rewrite set_cache, set_max_size by now split. now apply spec_set_len.
    + apply set_max_size.
  - unfold delete. destruct (PyDict.contains (_cache c) key); unfold snd;
      [|repeat split; assumption].
    repeat split; simpl.
    + now apply PyDict.wf_del.
    + rewrite guarded_del_as_filter by assumption. now apply wf_filter.
    + pose proof (PyDict.len_del_le (_cache c) key). lia.
  - unfold exists_. pose proof (get_state c now key) as Hg.
    destruct (get c now key) as [[v|] c']; unfold snd in *;
      (destruct Hg as [->| ->]; [repeat split; assumption|];
       split; [apply Hdel | reflexivity]).
  - repeat split; simpl; try constructor. lia.
Qed.

Lemma run_bounded calls c :
  5 <= _max_size c -> bounded c ->
  bounded (run c calls) /\ _max_size (run c calls) = _max_size c.
Proof.
  revert c. induction calls as [|call calls IH]; intros c H5 Hb; simpl; [now split|].
  destruct (step_bounded call H5 Hb) as [Hb' Hm].
  destruct (IH (step c call)) as [Hb'' Hm'']; [lia | assumption |].
  split; [assumption | congruence].
Qed.

End Facts.

End Cache.

Open Scope string_scope.
Open Scope list_scope.

(** ** The canonical bar and the result dictionaries *)

Module Kline.

(** The dictionary built by [normalize_kline_data].  Python floats are read
    as real numbers. *)
Record Bar : Type := {
  trade_date : string;
  date : string;
  open : R;
  high : R;
  low : R;
  close : R;
  vol : R;
  volume : R;
  amount : R;
  pct_chg : R;
  source : string
}.

(** The dictionary returned by [DataSourceManager.get_kline] and by
    [KlineStorageService.get_kline_with_storage]; a key that is not set is
    [None]. *)
Record Result : Type := {
  r_ts_code : string;
  r_source : string;
  r_period : string;
  r_data : list Bar;
  r_error : option string;
  r_from_cache : option bool
}.

(** Truth value of a list: [if klines:] *)
Definition nonempty {A} (l : list A) : bool :=
  match l with [] => false | _ :: _ => true end.

End Kline.

(** ** [services/data_source_manager.py] *)

Module Manager.

Import Kline.

(** [class DataSource(str, Enum)] *)
Inductive DataSource : Type := EASTMONEY | SINA | TUSHARE.

Definition value (s : DataSource) : string :=
  match s with
  | EASTMONEY => "eastmoney"
  | SINA => "sina"
  | TUSHARE => "tushare"
  end.

Definition DataSource_eqb (a b : DataSource) : bool :=
  match a, b with
  | EASTMONEY, EASTMONEY | SINA, SINA | TUSHARE, TUSHARE => true
  | _, _ => false
  end.

(** [SOURCE_PRIORITY] *)
Definition SOURCE_PRIORITY : list DataSource := [EASTMONEY; SINA; TUSHARE].

(** [_get_fallback_sources] *)
Definition _get_fallback_sources (current_source : DataSource) : list DataSource :=
  filter (fun s => negb (DataSource_eqb s current_source)) SOURCE_PRIORITY.

(** [period in ("1", "5", "15", "30", "60")] *)
Definition minute_periods : list string := ["1"; "5"; "15"; "30"; "60"].

Definition is_minute_period (period : string) : bool :=
  existsb (String.eqb period) minute_periods.

(** What the three adapter calls of [_fetch_kline_from_source] yield for
    their arguments: a list of bars or an exception. *)
Record Adapters : Type := {
  get_kline_eastmoney :
    string -> string -> option string -> option string -> Z -> Outcome (list Bar);
  get_kline_sina : string -> string -> Z -> Outcome (list Bar);
  get_daily_kline :
    string -> string -> option string -> option string -> Outcome (list Bar)
}.

(** The state of the process: the manager's [_default_source], the shared
    in-process cache with the clock it reads, and the adapter calls made so
    far, oldest first. *)
Record World : Type := {
  _default_source : DataSource;
  store : Cache.InMemoryCache (list Bar);
  clock : Z;
  calls : list DataSource
}.

(** An [async] function: it runs on the process state and returns or raises. *)
Definition M (A : Type) : Type := World -> Outcome A * World.

Definition ret {A} (a : A) : M A := fun w => (Ret a, w).

Definition raise {A} (e : Exn) : M A := fun w => (Raise e, w).

Definition bind {A B} (m : M A) (k : A -> M B) : M B :=
  fun w => match m w with
           | (Ret a, w') => k a w'
           | (Raise e, w') => (Raise e, w')
           end.

(** [try: m except Exception as e: h e] *)
Definition try_except {A} (m : M A) (h : Exn -> M A) : M A :=
  fun w => match m w with
           | (Ret a, w') => (Ret a, w')
           | (Raise e, w') => h e w'
           end.

Notation "x <- m ;; k" := (bind m (fun x => k))
  (at level 61, m at next level, right associativity).

Definition record_call (s : DataSource) : M unit :=
  fun w => (Ret tt, {| _default_source := _default_source w;
                       store := store w;
                       clock := clock w;
                       calls := calls w ++ [s] |}).

(** [set_default_source] *)
Definition set_default_source (s : DataSource) : M unit :=
  fun w => (Ret tt, {| _default_source := s;
                       store := store w;
                       clock := clock w;
                       calls := calls w |}).

Section WithAdapters.
Variable adapters : Adapters.

(** [_fetch_kline_from_source].  A provider is given by its answers.  The
    entries a provider keeps for itself in the cache service (it reads them,
    which drops an expired one, and writes them after a success) are not
    part of [store]: what the storage service does around a manager that
    changes the cache is stated for any manager, see
    [StorageExtra.get_kline_with_storage_over]. *)
Definition _fetch_kline_from_source (source : DataSource)
  (ts_code period : string) (start_date end_date : option string) (limit : Z)
  : M (list Bar) :=
  _ <- record_call source ;;
  fun w =>
    (match source with
     | EASTMONEY =>
         get_kline_eastmoney adapters ts_code period start_date end_date limit
     | SINA => get_kline_sina adapters ts_code period limit
     | TUSHARE => get_daily_kline adapters ts_code period start_date end_date
     end, w).

Definition make_result (ts_code : string) (s : DataSource) (period : string)
  (klines : list Bar) : Result :=
  {| r_ts_code := ts_code; r_source := value s; r_period := period;
     r_data := klines; r_error := None; r_from_cache := None |}.

(** One guarded attempt: [Some] is the early [return], [None] falls through
    (the list was empty, or the call raised and the handler logged it). *)
Definition attempt (s : DataSource) (ts_code period : string)
  (start_date end_date : option string) (limit : Z) : M (option Result) :=
  try_except
    (klines <- _fetch_kline_from_source s ts_code period start_date end_date limit ;;
     if nonempty klines
     then ret (Some (make_result ts_code s period klines))
     else ret None)
    (fun _ => ret None).

(** [for fallback in fallback_sources: ...] *)
Fixpoint try_fallbacks (fallback_sources : list DataSource)
  (ts_code period : string) (start_date end_date : option string) (limit : Z)
  : M (option Result) :=
  match fallback_sources with
  | [] => ret None
  | fallback :: rest =>
      r <- attempt fallback ts_code period start_date end_date limit ;;
      match r with
      | Some res => ret (Some res)
      | None => try_fallbacks rest ts_code period start_date end_date limit
      end
  end.

(** The provider the request is first sent to: [source or
    self._default_source], overridden for the minute periods. *)
Definition resolve_source (default : DataSource) (source : option DataSource)
  (period : string) : DataSource :=
  let source := match source with Some s => s | None => default end in
  if is_minute_period period then EASTMONEY else source.

Definition all_failed_message : string := "所有数据源都无法获取数据".

(** [async def get_kline] *)
Definition get_kline (ts_code period : string)
  (start_date end_date : option string) (source : option DataSource)
  (limit : Z) : M Result :=
  fun w0 =>
  let source := resolve_source (_default_source w0) source period in
  let fallback_sources := _get_fallback_sources source in
  (r <- attempt source ts_code period start_date end_date limit ;;
   match r with
   | Some res => ret res
   | None =>
       r <- try_fallbacks fallback_sources ts_code period start_date end_date limit ;;
       match r with
       | Some res => ret res
       | None =>
           ret {| r_ts_code := ts_code; r_source := value source;
                  r_period := period; r_data := [];
                  r_error := Some all_failed_message;
                  r_from_cache := None |}
       end
   end) w0.

(** The outcome a provider gives for a request, as the manager sees it. *)
Definition provider_outcome (s : DataSource) (ts_code period : string)
  (start_date end_date : option string) (limit : Z) : Outcome (list Bar) :=
  match s with
  | EASTMONEY =>
      get_kline_eastmoney adapters ts_code period start_date end_date limit
  | SINA => get_kline_sina adapters ts_code period limit
  | TUSHARE => get_daily_kline adapters ts_code period start_date end_date
  end.

(** A provider fails when its call raises or returns no bar. *)
Definition failed (o : Outcome (list Bar)) : bool :=
  match o with
  | Ret klines => negb (nonempty klines)
  | Raise _ => true
  end.

End WithAdapters.

(** The same adapters with every exception replaced by an empty list. *)
Definition quiet (o : Outcome (list Bar)) : Outcome (list Bar) :=
  match o with Ret l => Ret l | Raise _ => Ret [] end.

Definition quiet_adapters (a : Adapters) : Adapters :=
  {| get_kline_eastmoney := fun c p s e l => quiet (get_kline_eastmoney a c p s e l);
     get_kline_sina := fun c p l => quiet (get_kline_sina a c p l);
     get_daily_kline := fun c p s e => quiet (get_daily_kline a c p s e) |}.

End Manager.

Module ManagerFacts.

Import Kline Manager.

(** The process state after further adapter calls. *)
Definition logged (w : World) (l : list DataSource) : World :=
  {| _default_source := _default_source w;
     store := store w;
     clock := clock w;
     calls := calls w ++ l |}.

(** The failover chain in the words of the specification: walk the providers
    in order and stop at the first non-empty answer; the second component is
    the list of providers asked. *)
Fixpoint first_success (outcome : DataSource -> Outcome (list Bar))
  (l : list DataSource) : option (DataSource * list Bar) * list DataSource :=
  match l with
  | [] => (None, [])
  | s :: rest =>
      match outcome s with
      | Ret (b :: klines) => (Some (s, b :: klines), [s])
      | _ => let (r, tried) := first_success outcome rest in (r, s :: tried)
      end
  end.

Lemma logged_nil w : logged w [] = w.
Proof. destruct w. unfold logged. simpl. now rewrite app_nil_r. Qed.

Lemma logged_app w l1 l2 : logged (logged w l1) l2 = logged w (l1 ++ l2).
Proof. unfold logged. simpl. now rewrite app_assoc. Qed.

Section Runs.
Variable adapters : Adapters.
Variables (ts_code period : string) (start_date end_date : option string).
Variable limit : Z.

Let outcome (s : DataSource) : Outcome (list Bar) :=
  provider_outcome adapters s ts_code period start_date end_date limit.

Lemma attempt_run s w :
  attempt adapters s ts_code period start_date end_date limit w
  = (Ret (match outcome s with
          | Ret (b :: klines) => Some (make_result ts_code s period (b :: klines))
          | _ => None
          end), logged w [s]).
Proof.
  unfold attempt, try_except, _fetch_kline_from_source, bind, record_call, ret.
  unfold outcome, provider_outcome. fold (logged w [s]).
  destruct s; simpl;
    match goal with |- context [match ?o with Ret _ => _ | Raise _ => _ end] =>
      destruct o as [[|b l]|e]; reflexivity end.
Qed.

Lemma try_fallbacks_run l w :
  try_fallbacks adapters l ts_code period start_date end_date limit w
  = (Ret (option_map (fun sb => make_result ts_code (fst sb) period (snd sb))
                     (fst (first_success outcome l))),
     logged w (snd (first_success outcome l))).
Proof.
  revert w. induction l as [|s rest IH]; intros w; simpl.
  - unfold ret. now rewrite logged_nil.
  - unfold bind at 1. rewrite attempt_run.
    destruct (outcome s) as [[|b klines]|e]; simpl;
      try (rewrite IH, logged_app; destruct (first_success outcome rest);
           reflexivity).
    reflexivity.
Qed.

(** [get_kline] walks the chain that starts at the resolved provider. *)
Lemma get_kline_run source w :
  let primary := resolve_source (_default_source w) source period in
  let chain := primary :: _get_fallback_sources primary in
  get_kline adapters ts_code period start_date end_date source limit w
  = (Ret (match fst (first_success outcome chain) with
          | Some (s, klines) => make_result ts_code s period klines
          | None =>
              {| r_ts_code := ts_code; r_source := value primary;
                 r_period := period; r_data := [];
                 r_error := Some all_failed_message; r_from_cache := None |}
          end),
     logged w (snd (first_success outcome chain))).
Proof.
  intros primary chain. unfold get_kline. fold primary.
  unfold bind at 1. rewrite attempt_run. unfold chain. simpl.
  destruct (outcome primary) as [[|b klines]|e]; simpl;
    try (unfold bind; rewrite try_fallbacks_run, logged_app;
         destruct (first_success outcome (_get_fallback_sources primary))
           as [[[s l]|] tried]; reflexivity).
  reflexivity.
Qed.

Lemma first_success_all_failed l :
  (forall s, In s l -> failed (outcome s) = true) ->
  first_success outcome l = (None, l).
Proof.
  induction l as [|s rest IH]; intros H; simpl; [reflexivity|].
  pose proof (H s (or_introl eq_refl)) as Hs.
  rewrite IH by (intros; apply H; now right).
  destruct (outcome s) as [[|b klines]|e]; try reflexivity. discriminate.
Qed.

Lemma first_success_found pre s klines post :
  (forall t, In t pre -> failed (outcome t) = true) ->
  outcome s = Ret klines -> nonempty klines = true ->
  first_success outcome (pre ++ s :: post) = (Some (s, klines), pre ++ [s]).
Proof.
  intros Hpre Hs Hne. induction pre as [|t pre IH]; simpl.
  - rewrite Hs. destruct klines; [discriminate | reflexivity].
  - pose proof (Hpre t (or_introl eq_refl)) as Ht.
    rewrite IH by (intros; apply Hpre; now right).
    destruct (outcome t) as [[|b l]|e]; try reflexivity. discriminate.
Qed.

End Runs.

Lemma first_success_ext f g l :
  (forall s, f s = g s) -> first_success f l = first_success g l.
Proof.
  intros H. induction l as [|s rest IH]; simpl; [reflexivity|].
  now rewrite H, IH.
Qed.

Lemma first_success_quiet f l :
  first_success (fun s => quiet (f s)) l = first_success f l.
Proof.
  induction l as [|s rest IH]; simpl; [reflexivity|].
  rewrite IH. now destruct (f s) as [[|b k]|e].
Qed.

Lemma provider_outcome_quiet a s c p sd ed lim :
  provider_outcome (quiet_adapters a) s c p sd ed lim
  = quiet (provider_outcome a s c p sd ed lim).
Proof. now destruct s. Qed.

End ManagerFacts.

(** ** Python string operations used by the adapters and routers *)

Module PyStr.

(** [s.split(sep)] for a one-character separator *)
Fixpoint split (sep : ascii) (s : string) : list string :=
  match s with
  | EmptyString => [EmptyString]
  | String c r =>
      if Ascii.eqb c sep then EmptyString :: split sep r
      else match split sep r with
           | p :: ps => String c p :: ps
           | [] => [String c EmptyString]
           end
  end.

(** [s.replace(c, "")] *)
Fixpoint remove_char (c : ascii) (s : string) : string :=
  match s with
  | EmptyString => EmptyString
  | String a r => if Ascii.eqb a c then remove_char c r else String a (remove_char c r)
  end.

(** [c in s] *)
Fixpoint contains_char (c : ascii) (s : string) : bool :=
  match s with
  | EmptyString => false
  | String a r => Ascii.eqb a c || contains_char c r
  end.

Definition is_digit (a : ascii) : bool :=
  let n := nat_of_ascii a in ((48 <=? n) && (n <=? 57))%nat.

(** The string consists of the digits 0 to 9 only. *)
Fixpoint only_digits (s : string) : bool :=
  match s with
  | EmptyString => true
  | String a r => is_digit a && only_digits r
  end.

(** A [str] is held as its UTF-8 bytes.  The white space of [str.strip()]
    is that of [str.isspace]: U+0009 to U+000D, U+001C to U+0020, U+0085,
    U+00A0, U+1680, U+2000 to U+200A, U+2028, U+2029, U+202F, U+205F and
    U+3000.  [is_space] is the white space of one byte, [is_space2] and
    [is_space3] are the characters of two and of three bytes. *)
Definition is_space (a : ascii) : bool :=
  let n := nat_of_ascii a in
  (((9 <=? n) && (n <=? 13)) || ((28 <=? n) && (n <=? 32)))%nat.

(** U+0085 is C2 85 and U+00A0 is C2 A0. *)
Definition is_space2 (a b : ascii) : bool :=
  let m := nat_of_ascii b in
  ((nat_of_ascii a =? 194) && ((m =? 133) || (m =? 160)))%nat.

(** U+1680 is E1 9A 80; U+2000 to U+200A are E2 80 80 to E2 80 8A;
    U+2028, U+2029 and U+202F are E2 80 A8, E2 80 A9 and E2 80 AF;
    U+205F is E2 81 9F; U+3000 is E3 80 80. *)
Definition is_space3 (a b c : ascii) : bool :=
  let l := nat_of_ascii a in
  let m := nat_of_ascii b in
  let n := nat_of_ascii c in
  (((l =? 225) && (m =? 154) && (n =? 128))
   || ((l =? 226) && (m =? 128)
       && (((128 <=? n) && (n <=? 138)) || (n =? 168) || (n =? 169)
           || (n =? 175)))
   || ((l =? 226) && (m =? 129) && (n =? 159))
   || ((l =? 227) && (m =? 128) && (n =? 128)))%nat.

(** The string is one white-space character. *)
Definition is_space_char (s : string) : bool :=
  match s with
  | String a EmptyString => is_space a
  | String a (String b EmptyString) => is_space2 a b
  | String a (String b (String c EmptyString)) => is_space3 a b c
  | _ => false
  end.

Fixpoint lstrip (s : string) : string :=
  match s with
  | EmptyString => EmptyString
  | String a r =>
      if is_space a then lstrip r
      else
        match r with
        | String b r1 =>
            if is_space2 a b then lstrip r1
            else
              match r1 with
              | String c r2 => if is_space3 a b c then lstrip r2 else s
              | EmptyString => s
              end
        | EmptyString => s
        end
  end.

Fixpoint rstrip (s : string) : string :=
  match s with
  | EmptyString => EmptyString
  | String a r =>
      let kept := String a (rstrip r) in
      if is_space_char kept then EmptyString else kept
  end.

(** [s.strip()] *)
Definition strip (s : string) : string := rstrip (lstrip s).

(** Truth value of a string *)
Definition truthy (s : string) : bool :=
  match s with EmptyString => false | _ => true end.

(** [s or ''] for an optional string *)
Definition or_empty (s : option string) : string :=
  match s with Some x => x | None => EmptyString end.

(** [f"{z}"] for an integer *)
Definition of_Z (z : Z) : string := NilZero.string_of_int (Z.to_int z).

(** A reading of [float(s)] on plain decimal literals: an optional sign,
    digits, and an optional fraction.  [None] stands for [ValueError]. *)
Fixpoint digits_value (s : string) (acc : Z) : option Z :=
  match s with
  | EmptyString => Some acc
  | String a r =>
      if is_digit a
      then digits_value r (10 * acc + Z.of_nat (nat_of_ascii a - 48))%Z
      else None
  end.

Definition unsigned_decimal (s : string) : option R :=
  match split "." s with
  | [i] =>
      if truthy i then option_map IZR (digits_value i 0%Z) else None
  | [i; f] =>
      if truthy i || truthy f then
        match digits_value i 0%Z, digits_value f 0%Z with
        | Some n, Some m =>
            Some (IZR n + IZR m / IZR (10 ^ Z.of_nat (String.length f)))%R
        | _, _ => None
        end
      else None
  | _ => None
  end.

Definition decimal_float (s : string) : option R :=
  match s with
  | String "-" r => option_map Ropp (unsigned_decimal r)
  | String "+" r => unsigned_decimal r
  | _ => unsigned_decimal s
  end.

End PyStr.

(** ** [services/akshare_service.py]: normalisation of bars *)

Module Akshare.

Import Kline.

(** The raw dictionary handed to [normalize_kline_data]: a key that is
    missing or holds [None] is [None]. *)
Record RawKline : Type := {
  raw_trade_date : option string;
  raw_date : option string;
  raw_open : option R;
  raw_high : option R;
  raw_low : option R;
  raw_close : option R;
  raw_vol : option R;
  raw_volume : option R;
  raw_amount : option R;
  raw_pct_chg : option R
}.

(** [a or b] on an optional string and on an optional number *)
Definition str_or (a : option string) (b : string) : string :=
  match a with
  | Some s => if PyStr.truthy s then s else b
  | None => b
  end.

Definition num_or (a : option R) (b : R) : R :=
  match a with
  | Some x => if Req_dec_T x 0 then b else x
  | None => b
  end.

(** [def normalize_kline_data(kline, source)] *)
Definition normalize_kline_data (kline : RawKline) (source : string) : Bar :=
  let date_value := str_or (raw_trade_date kline) (str_or (raw_date kline) "") in
  let date_value :=
    if PyStr.contains_char "-" date_value
    then PyStr.remove_char "-" date_value
    else date_value in
  let vol_value := num_or (raw_vol kline) (num_or (raw_volume kline) 0) in
  {| trade_date := date_value;
     date := date_value;
     open := num_or (raw_open kline) 0;
     high := num_or (raw_high kline) 0;
     low := num_or (raw_low kline) 0;
     close := num_or (raw_close kline) 0;
     vol := vol_value;
     volume := vol_value;
     amount := num_or (raw_amount kline) 0;
     pct_chg := num_or (raw_pct_chg kline) 0;
     source := source |}.

Section Eastmoney.
(** [float(s)] on a string; [None] is [ValueError]. *)
Variable py_float : string -> option R.

Definition float_of (s : string) : Outcome R :=
  match py_float s with
  | Some x => Ret x
  | None => Raise (Exception "could not convert string to float")
  end.

Definition obind {A B} (o : Outcome A) (k : A -> Outcome B) : Outcome B :=
  match o with Ret a => k a | Raise e => Raise e end.

(** The body of the loop over [data["data"]["klines"]] up to the date
    filter: [None] when the line has fewer than seven fields. *)
Definition raw_of_line (line : string) : Outcome (option RawKline) :=
  let parts := PyStr.split "," line in
  if (7 <=? List.length parts)%nat then
    obind (float_of (nth 1 parts "")) (fun o =>
    obind (float_of (nth 2 parts "")) (fun c =>
    obind (float_of (nth 3 parts "")) (fun h =>
    obind (float_of (nth 4 parts "")) (fun l =>
    obind (float_of (nth 5 parts "")) (fun v =>
    obind (float_of (nth 6 parts "")) (fun a =>
    obind (if (8 <? List.length parts)%nat then float_of (nth 8 parts "") else Ret 0%R)
      (fun p =>
    Ret (Some {| raw_trade_date := None;
                 raw_date := Some (PyStr.remove_char "-" (nth 0 parts ""));
                 raw_open := Some o;
                 raw_high := Some h;
                 raw_low := Some l;
                 raw_close := Some c;
                 raw_vol := None;
                 raw_volume := Some v;
                 raw_amount := Some a;
                 raw_pct_chg := Some p |}))))))))
  else Ret None.

(** [start_date and raw_kline["date"] < start_date], and the same for the
    end of the range. *)
Definition before_start (start_date : option string) (d : string) : bool :=
  match start_date with
  | Some s => PyStr.truthy s && String.ltb d s
  | None => false
  end.

Definition after_end (end_date : option string) (d : string) : bool :=
  match end_date with
  | Some e => PyStr.truthy e && String.ltb e d
  | None => false
  end.

Fixpoint collect_klines (lines : list string)
  (start_date end_date : option string) (klines : list Bar)
  : Outcome (list Bar) :=
  match lines with
  | [] => Ret klines
  | line :: rest =>
      obind (raw_of_line line) (fun raw =>
        match raw with
        | Some raw_kline =>
            let d := PyStr.or_empty (raw_date raw_kline) in
            if before_start start_date d then
              collect_klines rest start_date end_date klines
            else if after_end end_date d then
              collect_klines rest start_date end_date klines
            else
              collect_klines rest start_date end_date
                (klines ++ [normalize_kline_data raw_kline "eastmoney"])
        | None => collect_klines rest start_date end_date klines
        end)
  end.

(** The bars [get_kline_eastmoney] returns for the lines of an upstream
    response ([data["data"]["klines"]]); an exception in the loop is caught
    by the adapter and gives the empty list. *)
Definition eastmoney_bars (lines : list string)
  (start_date end_date : option string) : list Bar :=
  match lines with
  | [] => []
  | _ =>
      match collect_klines lines start_date end_date [] with
      | Ret klines => klines
      | Raise _ => []
      end
  end.

End Eastmoney.

End Akshare.

(** ** [services/kline_storage.py] and the batch route of
       [routers/data_sources.py] *)

Module Storage.

Import Kline Manager.

Definition with_store (w : World) (st : Cache.InMemoryCache (list Bar)) : World :=
  {| _default_source := _default_source w;
     store := st;
     clock := clock w;
     calls := calls w |}.

(** [CacheService.get_json] on the in-process backend.  The stored text is
    the JSON of a list of bars; [json.loads(json.dumps(v))] is read as [v]. *)
Definition get_json (key : string) : M (option (list Bar)) :=
  fun w =>
    let (v, st) := Cache.get (store w) (clock w) key in
    (Ret v, with_store w st).

(** [CacheService.set_json] on the in-process backend *)
Definition set_json (key : string) (value : list Bar) (ttl : Z) : M bool :=
  fun w =>
    let (b, st) := Cache.set (store w) (clock w) key value (Some ttl) in
    (Ret b, with_store w st).

(** [KlineStorageService._get_from_cache]; [self.cache] is the cache
    service of [core/cache.py]. *)
Definition _get_from_cache (cache_key : string) : M (option (list Bar)) :=
  try_except
    (cached <- get_json cache_key ;;
     match cached with
     | Some l => if nonempty l then ret (Some l) else ret None
     | None => ret None
     end)
    (fun _ => ret None).

(** [KlineStorageService._set_to_cache] *)
Definition _set_to_cache (cache_key : string) (data : list Bar) (ttl : Z)
  : M bool :=
  if negb (nonempty data) then ret false
  else try_except (_ <- set_json cache_key data ttl ;; ret true)
                  (fun _ => ret false).

Definition STALE_HOURS_DAILY : Z := 6.
Definition STALE_HOURS_WEEKLY : Z := 24.
Definition STALE_HOURS_MONTHLY : Z := 48.

(** [KlineStorageService._get_cache_ttl] *)
Definition _get_cache_ttl (period : string) : Z :=
  if is_minute_period period then 60%Z
  else if String.eqb period "weekly" then (STALE_HOURS_WEEKLY * 3600)%Z
  else if String.eqb period "monthly" then (STALE_HOURS_MONTHLY * 3600)%Z
  else (STALE_HOURS_DAILY * 3600)%Z.

(** The f-string that names a cache entry. *)
Definition cache_key (ts_code period source : string)
  (start_date end_date : option string) (limit : Z) : string :=
  ("kline_storage:" ++ ts_code ++ ":" ++ period ++ ":" ++ source ++ ":"
   ++ PyStr.or_empty start_date ++ ":" ++ PyStr.or_empty end_date ++ ":"
   ++ PyStr.of_Z limit)%string.

Definition source_enum (source : string) : option DataSource :=
  if String.eqb source "eastmoney" then Some EASTMONEY
  else if String.eqb source "sina" then Some SINA
  else if String.eqb source "tushare" then Some TUSHARE
  else None.

Section WithAdapters.
Variable adapters : Adapters.

(** [async def get_kline_with_storage] *)
Definition get_kline_with_storage (ts_code period : string)
  (start_date end_date : option string) (source : string) (limit : Z)
  : M Result :=
  let key := cache_key ts_code period source start_date end_date limit in
  cached <- _get_from_cache key ;;
  match cached with
  | Some l =>
      ret {| r_ts_code := ts_code; r_source := source; r_period := period;
             r_data := l; r_error := None; r_from_cache := Some true |}
  | None =>
      result <- get_kline adapters ts_code period start_date end_date
                  (source_enum source) limit ;;
      if nonempty (r_data result) then
        _ <- _set_to_cache key (r_data result) (_get_cache_ttl period) ;;
        ret {| r_ts_code := r_ts_code result; r_source := r_source result;
               r_period := r_period result; r_data := r_data result;
               r_error := r_error result; r_from_cache := Some false |}
      else ret result
  end.

End WithAdapters.

Section Batch.
(** The per-symbol fetch, [self.get_kline_with_storage]; the batch loop is
    stated for any such method, also one that raises. *)
Variable fetch :
  string -> string -> option string -> option string -> string -> Z -> M Result.

(** [for ts_code in ts_codes: try: ... except Exception: ...] *)
Fixpoint batch_loop (ts_codes : list string) (period source : string)
  (limit : Z) (results : PyDict.t (list Bar)) : M (PyDict.t (list Bar)) :=
  match ts_codes with
  | [] => ret results
  | ts_code :: rest =>
      data <- try_except
                (result <- fetch ts_code period None None source limit ;;
                 ret (r_data result))
                (fun _ => ret []) ;;
      batch_loop rest period source limit (PyDict.set results ts_code data)
  end.

(** [async def batch_get_kline] of the storage service *)
Definition batch_get_kline_with (ts_codes : list string) (period source : string)
  (limit : Z) : M (PyDict.t (list Bar)) :=
  batch_loop ts_codes period source limit [].

(** The body of the route's response *)
Record BatchResponse : Type := {
  b_source : string;
  b_period : string;
  b_data : PyDict.t (list Bar)
}.

(** [[c.strip() for c in ts_codes.split(",") if c.strip()]] *)
Definition parse_codes (ts_codes : string) : list string :=
  filter PyStr.truthy (map PyStr.strip (PyStr.split "," ts_codes)).

Definition no_codes_detail : string := "请提供股票代码".
Definition too_many_detail : string := "最多支持20只股票".

(** [source or data_source_manager._default_source.value] *)
Definition source_or_default (source : option string) (w : World) : string :=
  match source with
  | Some s => if PyStr.truthy s then s else value (_default_source w)
  | None => value (_default_source w)
  end.

(** [@router.get("/batch/kline")] *)
Definition batch_get_kline_route (ts_codes period : string)
  (source : option string) (limit : Z) : M BatchResponse :=
  try_except
    (let codes := parse_codes ts_codes in
     if negb (nonempty codes) then raise (HTTPException 400 no_codes_detail)
     else if (20 <? List.length codes)%nat
     then raise (HTTPException 400 too_many_detail)
     else
       fun w =>
         (results <- batch_get_kline_with codes period
                       (source_or_default source w) limit ;;
          fun w' =>
            (Ret {| b_source := source_or_default source w';
                    b_period := period;
                    b_data := results |}, w')) w)
    (fun e =>
       match e with
       | HTTPException _ _ => raise e
       | Exception msg => raise (HTTPException 500 msg)
       end).

(** The fetches of a batch in the order they run, each with its outcome. *)
Fixpoint fetch_outcomes (ts_codes : list string) (period source : string)
  (limit : Z) (w : World) : list (string * Outcome Result) * World :=
  match ts_codes with
  | [] => ([], w)
  | ts_code :: rest =>
      let (o, w') := fetch ts_code period None None source limit w in
      let (os, w'') := fetch_outcomes rest period source limit w' in
      ((ts_code, o) :: os, w'')
  end.

(** What the batch stores for a fetch. *)
Definition entry (o : Outcome Result) : list Bar :=
  match o with
  | Ret result => r_data result
  | Raise _ => []
  end.

End Batch.

(** [KlineStorageService.batch_get_kline] *)
Definition batch_get_kline (adapters : Adapters) :=
  batch_get_kline_with (get_kline_with_storage adapters).

End Storage.

Module StorageFacts.

Import Kline Manager Storage.

Definition store_entry (d : PyDict.t (list Bar)) (co : string * Outcome Result)
  : PyDict.t (list Bar) :=
  PyDict.set d (fst co) (entry (snd co)).

Lemma fold_store_keys pairs d c :
  In c (PyDict.keys (fold_left store_entry pairs d))
  <-> In c (PyDict.keys d) \/ In c (map fst pairs).
Proof.
  revert d. induction pairs as [|[k o] pairs IH]; intros d; simpl; [tauto|].
  rewrite IH. unfold store_entry. simpl. rewrite PyDict.keys_set.
  destruct (PyDict.contains d k) eqn:E.
  - apply PyDict.contains_true in E. intuition (subst; auto).
  - rewrite in_app_iff. simpl. intuition.
Qed.

Lemma fold_store_wf pairs d :
  PyDict.wf d -> PyDict.wf (fold_left store_entry pairs d).
Proof.
  revert d. induction pairs as [|[k o] pairs IH]; intros d H; simpl; [assumption|].
  apply IH. now apply PyDict.wf_set.
Qed.

Lemma fold_store_untouched pairs d c :
  ~ In c (map fst pairs) ->
  PyDict.get (fold_left store_entry pairs d) c = PyDict.get d c.
Proof.
  revert d. induction pairs as [|[k o] pairs IH]; intros d H; simpl; [reflexivity|].
  simpl in H. rewrite IH by tauto. unfold store_entry. simpl.
  apply PyDict.get_set_ne. tauto.
Qed.

Lemma fold_store_last pre c o post d :
  ~ In c (map fst post) ->
  PyDict.get (fold_left store_entry (pre ++ (c, o) :: post) d) c = Some (entry o).
Proof.
  intros H. rewrite fold_left_app. simpl.
  rewrite fold_store_untouched by assumption.
  unfold store_entry at 1. simpl. apply PyDict.get_set_eq.
Qed.

Section BatchFacts.
Variable fetch :
  string -> string -> option string -> option string -> string -> Z -> M Result.
Variables (period source : string) (limit : Z).

Lemma batch_loop_run ts_codes results w :
  batch_loop fetch ts_codes period source limit results w
  = (Ret (fold_left store_entry
            (fst (fetch_outcomes fetch ts_codes period source limit w)) results),
     snd (fetch_outcomes fetch ts_codes period source limit w)).
Proof.
  revert results w. induction ts_codes as [|c rest IH]; intros results w; simpl.
  - reflexivity.
  - unfold bind at 1. unfold try_except, bind at 1, ret.
    destruct (fetch c period None None source limit w) as [[r|e] w'];
      rewrite IH;
      destruct (fetch_outcomes fetch rest period source limit w') as [os w''];
      reflexivity.
Qed.

Lemma fetch_outcomes_codes ts_codes w :
  map fst (fst (fetch_outcomes fetch ts_codes period source limit w)) = ts_codes.
Proof.
  revert w. induction ts_codes as [|c rest IH]; intros w; simpl; [reflexivity|].
  destruct (fetch c period None None source limit w) as [o w'].
  specialize (IH w').
  destruct (fetch_outcomes fetch rest period source limit w') as [os w''].
  simpl in *. now rewrite IH.
Qed.

End BatchFacts.

Lemma get_from_cache_hit w key l st :
  Cache.get (store w) (clock w) key = (Some l, st) ->
  nonempty l = true ->
  _get_from_cache key w = (Ret (Some l), with_store w st).
Proof.
  intros H Hne. unfold _get_from_cache, try_except, bind, get_json.
  rewrite H. now rewrite Hne.
Qed.

(** White space of any width is stripped: an item that is one ideographic
    space (U+3000) is no symbol. *)
Example parse_codes_unicode_space :
  Storage.parse_codes " A ,　,B　, " = ["A"; "B"].
Proof. reflexivity. Qed.

End StorageFacts.

(** ** [services/fin_agent_service.py]: the indicator functions

    Prices are real numbers; a period is a non-negative integer.
    [ZeroDivisionError], [ValueError] and [TypeError] are [Raise]. *)

Module Indicators.

Open Scope R_scope.

Definition obind {A B} (o : Outcome A) (k : A -> Outcome B) : Outcome B :=
  match o with Ret a => k a | Raise e => Raise e end.

(** [for x in xs: result.append(body(x))] with a body that may raise *)
Fixpoint for_each {A B} (body : A -> Outcome B) (xs : list A) : Outcome (list B) :=
  match xs with
  | [] => Ret []
  | x :: rest =>
      obind (body x) (fun y =>
      obind (for_each body rest) (fun ys => Ret (y :: ys)))
  end.

(** [sum(xs)] *)
Definition sum (xs : list R) : R := fold_left Rplus xs 0.

(** [xs[a:b]] for [0 <= a <= b] *)
Definition slice {A} (a b : nat) (xs : list A) : list A :=
  firstn (b - a) (skipn a xs).

(** [x / n] for an integer [n] *)
Definition div_int (x : R) (n : nat) : Outcome R :=
  if (n =? 0)%nat then Raise (Exception "division by zero")
  else Ret (x / INR n).

(** [max(xs)] and [min(xs)] *)
Definition py_max (xs : list R) : Outcome R :=
  match xs with
  | [] => Raise (Exception "max() arg is an empty sequence")
  | x :: rest => Ret (fold_left Rmax rest x)
  end.

Definition py_min (xs : list R) : Outcome R :=
  match xs with
  | [] => Raise (Exception "min() arg is an empty sequence")
  | x :: rest => Ret (fold_left Rmin rest x)
  end.

(** Nearest integer, ties to the even one. *)
Definition round_half_even (y : R) : Z :=
  let f := Zfloor y in
  let r := y - IZR f in
  if Rlt_dec r (1 / 2) then f
  else if Rlt_dec (1 / 2) r then (f + 1)%Z
  else if Z.even f then f else (f + 1)%Z.

(** [round(x, ndigits)] *)
Definition py_round (x : R) (ndigits : nat) : R :=
  IZR (round_half_even (x * 10 ^ ndigits)) / 10 ^ ndigits.

(** [def calculate_ma(prices, period)] *)
Definition calculate_ma (prices : list R) (period : nat)
  : Outcome (list (option R)) :=
  for_each
    (fun i =>
       if (i + 1 <? period)%nat then Ret None
       else obind (div_int (sum (slice (i + 1 - period) (i + 1) prices)) period)
                  (fun m => Ret (Some m)))
    (seq 0 (List.length prices)).

(** The loop of [calculate_ema]; [prev] is [ema[-1]]. *)
Fixpoint ema_loop (multiplier prev : R) (rest : list R) : list R :=
  match rest with
  | [] => []
  | p :: rest' =>
      let e := (p - prev) * multiplier + prev in
      e :: ema_loop multiplier e rest'
  end.

(** [def calculate_ema(prices, period)] *)
Definition calculate_ema (prices : list R) (period : nat) : list R :=
  match prices with
  | [] => []
  | p0 :: rest => p0 :: ema_loop (2 / INR (period + 1)) p0 rest
  end.

Record MACD : Type := {
  macd : list R;
  signal : list R;
  histogram : list R
}.

(** [[a - b for a, b in zip(xs, ys)]] *)
Definition zip_sub (xs ys : list R) : list R :=
  map (fun ab => fst ab - snd ab) (combine xs ys).

(** [def calculate_macd(prices, fast=12, slow=26, signal=9)] *)
Definition calculate_macd (prices : list R) (fast slow signal_period : nat) : MACD :=
  if (List.length prices <? slow)%nat then
    {| macd := []; signal := []; histogram := [] |}
  else
    let ema_fast := calculate_ema prices fast in
    let ema_slow := calculate_ema prices slow in
    let macd_line := zip_sub ema_fast ema_slow in
    let signal_line := calculate_ema macd_line signal_period in
    {| macd := macd_line;
       signal := signal_line;
       histogram := zip_sub macd_line signal_line |}.

(** [prices[i] - prices[i - 1]] for [i] from 1 *)
Fixpoint changes (prices : list R) : list R :=
  match prices with
  | a :: (b :: _) as rest => (b - a) :: changes rest
  | _ => []
  end.

Definition gain_of (change : R) : R := if Rlt_dec 0 change then change else 0.
Definition loss_of (change : R) : R := if Rlt_dec 0 change then 0 else Rabs change.

Definition rsi_value (avg_gain avg_loss : R) : R :=
  if Req_dec_T avg_loss 0 then 100
  else 100 - 100 / (1 + avg_gain / avg_loss).

(** The smoothing loop of [calculate_rsi] over the later gains and losses. *)
Fixpoint rsi_loop (period : nat) (avg_gain avg_loss : R) (gl : list (R * R))
  : list (option R) :=
  match gl with
  | [] => []
  | (g, l) :: rest =>
      let avg_gain' := (avg_gain * INR (period - 1) + g) / INR period in
      let avg_loss' := (avg_loss * INR (period - 1) + l) / INR period in
      Some (rsi_value avg_gain' avg_loss') :: rsi_loop period avg_gain' avg_loss' rest
  end.

(** [def calculate_rsi(prices, period=14)] *)
Definition calculate_rsi (prices : list R) (period : nat)
  : Outcome (list (option R)) :=
  if (List.length prices <? period + 1)%nat then
    Ret (repeat None (List.length prices))
  else
    let gains := map gain_of (changes prices) in
    let losses := map loss_of (changes prices) in
    obind (div_int (sum (firstn period gains)) period) (fun avg_gain =>
    obind (div_int (sum (firstn period losses)) period) (fun avg_loss =>
    Ret (repeat None period
         ++ [Some (rsi_value avg_gain avg_loss)]
         ++ rsi_loop period avg_gain avg_loss
              (combine (skipn period gains) (skipn period losses))))).

Record KDJ : Type := {
  k : list (option R);
  d : list (option R);
  j : list (option R)
}.

(** [xs[-1]] used as a number: the last element, which must be a float. *)
Definition last_number (xs : list (option R)) : Outcome R :=
  match last xs None with
  | Some x => Ret x
  | None => Raise (Exception "unsupported operand type")
  end.

(** One round of the loop of [calculate_kdj]. *)
Definition kdj_step (high low close : list R) (period : nat) (acc : KDJ) (i : nat)
  : Outcome KDJ :=
  if (i + 1 <? period)%nat then
    Ret {| k := k acc ++ [None]; d := d acc ++ [None]; j := j acc ++ [None] |}
  else
    obind (py_max (slice (i + 1 - period) (i + 1) high)) (fun highest =>
    obind (py_min (slice (i + 1 - period) (i + 1) low)) (fun lowest =>
    let rsv := if Req_dec_T highest lowest then 50
               else (nth i close 0 - lowest) / (highest - lowest) * 100 in
    obind (if (i + 1 =? period)%nat then Ret (rsv, rsv)
           else obind (last_number (k acc)) (fun k_prev =>
                obind (last_number (d acc)) (fun d_prev =>
                let kv := 2 / 3 * k_prev + 1 / 3 * rsv in
                Ret (kv, 2 / 3 * d_prev + 1 / 3 * kv))))
      (fun kd =>
         let kv := fst kd in
         let dv := snd kd in
         let jv := 3 * kv - 2 * dv in
         Ret {| k := k acc ++ [Some (py_round kv 2)];
                d := d acc ++ [Some (py_round dv 2)];
                j := j acc ++ [Some (py_round jv 2)] |}))).

Fixpoint kdj_loop (high low close : list R) (period : nat) (acc : KDJ)
  (idx : list nat) : Outcome KDJ :=
  match idx with
  | [] => Ret acc
  | i :: rest =>
      obind (kdj_step high low close period acc i) (fun acc' =>
      kdj_loop high low close period acc' rest)
  end.

(** [def calculate_kdj(high, low, close, period=9)] *)
Definition calculate_kdj (high low close : list R) (period : nat) : Outcome KDJ :=
  if (List.length close <? period)%nat then
    Ret {| k := []; d := []; j := [] |}
  else
    kdj_loop high low close period {| k := []; d := []; j := [] |}
      (seq 0 (List.length close)).

Record Bands : Type := {
  upper : list (option R);
  middle : list (option R);
  lower : list (option R)
}.

(** The population variance of a window around its mean [ma]. *)
Definition variance_of (window : list R) (ma : R) (period : nat) : Outcome R :=
  div_int (sum (map (fun x => (x - ma) ^ 2) window)) period.

(** One round of the loop of [calculate_bollinger_bands]:
    the values appended to [upper], [middle] and [lower]. *)
Definition band_at (prices : list R) (period : nat) (std_dev : R) (i : nat)
  : Outcome (option R * option R * option R) :=
  if (i + 1 <? period)%nat then Ret (None, None, None)
  else
    let window := slice (i + 1 - period) (i + 1) prices in
    obind (div_int (sum window) period) (fun ma =>
    obind (variance_of window ma period) (fun variance =>
    let std := sqrt variance in
    Ret (Some (py_round (ma + std_dev * std) 2),
         Some (py_round ma 2),
         Some (py_round (ma - std_dev * std) 2)))).

(** [def calculate_bollinger_bands(prices, period=20, std_dev=2)] *)
Definition calculate_bollinger_bands (prices : list R) (period : nat)
  (std_dev : R) : Outcome Bands :=
  if (List.length prices <? period)%nat then
    Ret {| upper := []; middle := []; lower := [] |}
  else
    obind (for_each (band_at prices period std_dev) (seq 0 (List.length prices)))
      (fun rows =>
         Ret {| upper := map (fun r => fst (fst r)) rows;
                middle := map (fun r => snd (fst r)) rows;
                lower := map snd rows |}).

End Indicators.

Module IndicatorFacts.

Import Indicators.
Open Scope nat_scope.

Lemma for_each_map {A B} (body : A -> Outcome B) (f : A -> B) xs :
  (forall x, In x xs -> body x = Ret (f x)) -> for_each body xs = Ret (map f xs).
Proof.
  induction xs as [|x rest IH]; intros H; simpl; [reflexivity|].
  rewrite (H x (or_introl eq_refl)). simpl.
  rewrite IH by (intros; apply H; now right). reflexivity.
Qed.

Lemma nth_error_map_seq {B} (f : nat -> B) n i :
  i < n -> nth_error (map f (seq 0 n)) i = Some (f i).
Proof.
  intros H. rewrite nth_error_map, nth_error_seq.
  apply Nat.ltb_lt in H. now rewrite H.
Qed.

Lemma div_int_pos x n : 1 <= n -> div_int x n = Ret (x / INR n)%R.
Proof.
  intros H. unfold div_int. destruct (Nat.eqb_spec n 0); [lia | reflexivity].
Qed.

(** *** Moving average *)

Definition ma_at (prices : list R) (period i : nat) : option R :=
  if i + 1 <? period then None
  else Some (sum (slice (i + 1 - period) (i + 1) prices) / INR period)%R.

Lemma calculate_ma_total prices period :
  1 <= period ->
  calculate_ma prices period
  = Ret (map (ma_at prices period) (seq 0 (List.length prices))).
Proof.
  intros H. unfold calculate_ma. apply for_each_map. intros i _.
  unfold ma_at. destruct (i + 1 <? period); [reflexivity|].
  now rewrite div_int_pos.
Qed.

(** *** EMA and MACD *)

Lemma ema_loop_length m prev rest :
  List.length (ema_loop m prev rest) = List.length rest.
Proof.
  revert prev. induction rest as [|p rest IH]; intros prev; simpl; [reflexivity|].
  now rewrite IH.
Qed.

Lemma calculate_ema_length prices period :
  List.length (calculate_ema prices period) = List.length prices.
Proof.
  destruct prices as [|p0 rest]; simpl; [reflexivity|].
  now rewrite ema_loop_length.
Qed.

Lemma zip_sub_length xs ys :
  List.length (zip_sub xs ys) = Nat.min (List.length xs) (List.length ys).
Proof. unfold zip_sub. now rewrite length_map, length_combine. Qed.

Lemma macd_lengths prices fast slow signal_period :
  slow <= List.length prices ->
  let r := calculate_macd prices fast slow signal_period in
  List.length (macd r) = List.length prices
  /\ List.length (signal r) = List.length prices
  /\ List.length (histogram r) = List.length prices.
Proof.
  intros H. unfold calculate_macd.
  destruct (Nat.ltb_spec (List.length prices) slow); [lia|]. simpl.
  rewrite !zip_sub_length, !calculate_ema_length, !zip_sub_length,
    !calculate_ema_length. lia.
Qed.

Lemma macd_starts_at_zero prices fast slow signal_period :
  slow <= List.length prices -> prices <> [] ->
  nth_error (macd (calculate_macd prices fast slow signal_period)) 0 = Some 0%R
  /\ nth_error (signal (calculate_macd prices fast slow signal_period)) 0 = Some 0%R
  /\ nth_error (histogram (calculate_macd prices fast slow signal_period)) 0 = Some 0%R.
Proof.
  intros H Hne. unfold calculate_macd.
  destruct (Nat.ltb_spec (List.length prices) slow); [lia|].
  destruct prices as [|p0 rest]; [congruence|]. simpl.
  unfold zip_sub. simpl.
  replace (p0 - p0)%R with 0%R by lra. simpl.
  replace (0 - 0)%R with 0%R by lra. auto.
Qed.

(** *** RSI *)

Lemma changes_length prices : List.length (changes prices) = List.length prices - 1.
Proof.
  induction prices as [|a [|b rest] IH]; simpl in *; try reflexivity.
  rewrite IH. lia.
Qed.

Lemma changes_nth prices i :
  i + 1 < List.length prices ->
  nth i (changes prices) 0%R = (nth (S i) prices 0 - nth i prices 0)%R.
Proof.
  revert i. induction prices as [|a [|b rest] IH]; intros i H; simpl in H; try lia.
  destruct i as [|i]; [reflexivity|].
  change (changes (a :: b :: rest)) with ((b - a)%R :: changes (b :: rest)).
  change (nth (S i) ((b - a)%R :: changes (b :: rest)) 0%R)
    with (nth i (changes (b :: rest)) 0%R).
  rewrite IH by (simpl; lia). reflexivity.
Qed.

Lemma rsi_loop_length period g l gl :
  List.length (rsi_loop period g l gl) = List.length gl.
Proof.
  revert g l. induction gl as [|[g' l'] rest IH]; intros g l; simpl; [reflexivity|].
  now rewrite IH.
Qed.

Definition first_rsi (prices : list R) (period : nat) : R :=
  rsi_value (sum (firstn period (map gain_of (changes prices))) / INR period)
            (sum (firstn period (map loss_of (changes prices))) / INR period).

Lemma calculate_rsi_long prices period :
  1 <= period -> period + 1 <= List.length prices ->
  exists tail,
    calculate_rsi prices period
    = Ret (repeat None period ++ [Some (first_rsi prices period)] ++ tail)
    /\ List.length tail = List.length prices - 1 - period.
Proof.
  intros H1 H2. unfold calculate_rsi.
  destruct (Nat.ltb_spec (List.length prices) (period + 1)); [lia|].
  rewrite !div_int_pos by assumption. simpl.
  eexists. split; [reflexivity|].
  rewrite rsi_loop_length, length_combine, !length_skipn, !length_map,
    changes_length. lia.
Qed.

Lemma calculate_rsi_aligned prices period :
  1 <= period ->
  exists l, calculate_rsi prices period = Ret l
    /\ List.length l = List.length prices
    /\ forall i, i < List.length prices -> i < period -> nth_error l i = Some None.
Proof.
  intros H1. destruct (Nat.ltb_spec (List.length prices) (period + 1)) as [Hs|Hl].
  - exists (repeat None (List.length prices)). unfold calculate_rsi.
    apply Nat.ltb_lt in Hs. rewrite Hs. split; [reflexivity|].
    split; [apply repeat_length|]. intros i Hi _. now apply nth_error_repeat.
  - destruct (calculate_rsi_long prices H1 Hl) as [tail [E Ht]].
    eexists. split; [exact E|]. split.
    + rewrite !length_app, repeat_length. simpl. lia.
    + intros i _ Hi. rewrite nth_error_app1 by (rewrite repeat_length; lia).
      now apply nth_error_repeat.
Qed.

Lemma fold_zero l a :
  (forall i, i < List.length l -> nth i l 0%R = 0%R) -> fold_left Rplus l a = a.
Proof.
  revert a. induction l as [|x rest IH]; intros a H; simpl; [reflexivity|].
  rewrite IH.
  - specialize (H 0 (Nat.lt_0_succ _)). simpl in H. lra.
  - intros i Hi. apply (H (S i)). simpl. lia.
Qed.

Lemma loss_of_rise change : (0 < change)%R -> loss_of change = 0%R.
Proof. intros H. unfold loss_of. destruct (Rlt_dec 0 change); [reflexivity | tauto]. Qed.

(** Rising prices over the warm-up window have no loss. *)
Lemma warmup_losses_zero prices period :
  period + 1 <= List.length prices ->
  (forall i, i < period -> (nth i prices 0 < nth (S i) prices 0)%R) ->
  sum (firstn period (map loss_of (changes prices))) = 0%R.
Proof.
  intros Hlen Hrise. unfold sum. apply fold_zero. intros i Hi.
  rewrite length_firstn, length_map, changes_length in Hi.
  rewrite nth_firstn. destruct (Nat.ltb_spec i period); [|lia].
  assert (E : loss_of 0 = 0%R).
  { unfold loss_of. destruct (Rlt_dec 0 0); [reflexivity|]. apply Rabs_R0. }
  rewrite <- E at 1. rewrite map_nth, changes_nth by lia.
  apply loss_of_rise. specialize (Hrise i H). lra.
Qed.

Lemma first_rsi_rising prices period :
  1 <= period -> period + 1 <= List.length prices ->
  (forall i, i < period -> (nth i prices 0 < nth (S i) prices 0)%R) ->
  first_rsi prices period = 100%R.
Proof.
  intros H1 Hlen Hrise. unfold first_rsi, rsi_value.
  rewrite (warmup_losses_zero prices Hlen Hrise).
  destruct (Req_dec_T (0 / INR period) 0) as [_|Hn]; [reflexivity|].
  exfalso. apply Hn. unfold Rdiv. apply Rmult_0_l.
Qed.

(** *** KDJ *)

Lemma slice_nonempty {A} (a b : nat) (xs : list A) :
  a < b -> a < List.length xs -> exists x rest, slice a b xs = x :: rest.
Proof.
  intros Hab Ha. unfold slice.
  destruct (skipn a xs) as [|x rest] eqn:E.
  - apply (f_equal (@List.length A)) in E. rewrite length_skipn in E. simpl in E. lia.
  - destruct (b - a) as [|n] eqn:Eb; [lia|]. simpl. eauto.
Qed.

Definition kdj_inv (period start : nat) (acc : KDJ) : Prop :=
  List.length (k acc) = start /\ List.length (d acc) = start
  /\ List.length (j acc) = start
  /\ (forall i, i < start -> i + 1 < period ->
        nth_error (k acc) i = Some None /\ nth_error (d acc) i = Some None
        /\ nth_error (j acc) i = Some None)
  /\ (period <= start ->
        (exists x, last (k acc) None = Some x)
        /\ (exists y, last (d acc) None = Some y)).

Lemma nth_error_snoc_none (l : list (option R)) x i :
  i < S (List.length l) ->
  (i < List.length l -> nth_error l i = Some None) ->
  (i = List.length l -> x = None) ->
  nth_error (l ++ [x]) i = Some None.
Proof.
  intros Hi Hl Hx. destruct (Nat.lt_ge_cases i (List.length l)) as [H|H].
  - rewrite nth_error_app1 by assumption. auto.
  - rewrite nth_error_app2 by assumption.
    assert (i = List.length l) by lia. subst i.
    rewrite Nat.sub_diag. simpl. now rewrite Hx.
Qed.

Section KdjFacts.
Variables (high low close : list R) (period : nat).
Hypothesis period_pos : 1 <= period.
Hypothesis high_long : List.length close <= List.length high.
Hypothesis low_long : List.length close <= List.length low.

Lemma kdj_step_inv acc start :
  start < List.length close -> kdj_inv period start acc ->
  exists acc', kdj_step high low close period acc start = Ret acc'
               /\ kdj_inv period (S start) acc'.
Proof.
  intros Hs (Lk & Ld & Lj & Hnone & Hlast). unfold kdj_step.
  destruct (Nat.ltb_spec (start + 1) period) as [Hw|Hw].
  - eexists. split; [reflexivity|]. unfold kdj_inv. simpl.
    rewrite !length_app, Lk, Ld, Lj. simpl.
    repeat split; try lia.
    + apply nth_error_snoc_none; rewrite ?Lk; auto.
      intros. now apply Hnone.
    + apply nth_error_snoc_none; rewrite ?Ld; auto.
      intros. now apply Hnone.
    + apply nth_error_snoc_none; rewrite ?Lj; auto.
      intros. now apply Hnone.
  - destruct (@slice_nonempty R (start + 1 - period) (start + 1) high)
      as (h0 & hs & Eh); [lia | lia |].
    destruct (@slice_nonempty R (start + 1 - period) (start + 1) low)
      as (l0 & ls & El); [lia | lia |].
    rewrite Eh, El. simpl.
    set (rsv := if Req_dec_T (fold_left Rmax hs h0) (fold_left Rmin ls l0)
                then 50%R else _).
    assert (Hkd : exists kd,
      (if start + 1 =? period then Ret (rsv, rsv)
       else obind (last_number (k acc)) (fun k_prev =>
            obind (last_number (d acc)) (fun d_prev =>
            Ret (2 / 3 * k_prev + 1 / 3 * rsv,
                 2 / 3 * d_prev + 1 / 3 * (2 / 3 * k_prev + 1 / 3 * rsv))%R)))
      = Ret kd).
    { destruct (Nat.eqb_spec (start + 1) period) as [He|He]; [eauto|].
      destruct Hlast as [[x Hx] [y Hy]]; [lia|].
      unfold last_number. rewrite Hx, Hy. simpl. eauto. }
    destruct Hkd as [kd Hkd]. rewrite Hkd. simpl.
    eexists. split; [reflexivity|]. unfold kdj_inv. simpl.
    rewrite !length_app, Lk, Ld, Lj. simpl.
    split; [lia|]. split; [lia|]. split; [lia|]. split.
    + intros i Hi Hp. assert (i < start) by lia.
      rewrite !nth_error_app1 by lia. now apply Hnone.
    + intros _. rewrite !last_last. eauto.
Qed.

Lemma kdj_loop_inv len start acc :
  start + len <= List.length close -> kdj_inv period start acc ->
  exists acc', kdj_loop high low close period acc (seq start len) = Ret acc'
               /\ kdj_inv period (start + len) acc'.
Proof.
  revert start acc. induction len as [|len IH]; intros start acc Hl Hi; simpl.
  - exists acc. rewrite Nat.add_0_r. auto.
  - destruct (@kdj_step_inv acc start) as (acc1 & E1 & I1); [lia | assumption |].
    rewrite E1. simpl.
    destruct (IH (S start) acc1) as (acc2 & E2 & I2); [lia | assumption |].
    exists acc2. split; [assumption|].
    now replace (start + S len) with (S start + len) by lia.
Qed.

Lemma calculate_kdj_aligned :
  period <= List.length close ->
  exists r, calculate_kdj high low close period = Ret r
    /\ kdj_inv period (List.length close) r.
Proof.
  intros Hp. unfold calculate_kdj.
  destruct (Nat.ltb_spec (List.length close) period); [lia|].
  apply (@kdj_loop_inv (List.length close) 0 {| k := []; d := []; j := [] |});
    [lia|].
  unfold kdj_inv. simpl. repeat split; try lia.
Qed.

End KdjFacts.

(** *** Bollinger bands *)

Definition band_row (prices : list R) (period : nat) (std_dev : R) (i : nat)
  : option R * option R * option R :=
  if i + 1 <? period then (None, None, None)
  else
    let window := slice (i + 1 - period) (i + 1) prices in
    let ma := (sum window / INR period)%R in
    let variance := (sum (map (fun x => (x - ma) ^ 2) window) / INR period)%R in
    let std := sqrt variance in
    (Some (py_round (ma + std_dev * std) 2),
     Some (py_round ma 2),
     Some (py_round (ma - std_dev * std) 2)).

Lemma band_at_total prices period std_dev i :
  1 <= period ->
  band_at prices period std_dev i = Ret (band_row prices period std_dev i).
Proof.
  intros H. unfold band_at, band_row, variance_of.
  destruct (i + 1 <? period); [reflexivity|].
  rewrite div_int_pos by assumption. simpl.
  rewrite div_int_pos by assumption. reflexivity.
Qed.

Lemma calculate_bollinger_long prices period std_dev :
  1 <= period -> period <= List.length prices ->
  calculate_bollinger_bands prices period std_dev
  = Ret (let rows := map (band_row prices period std_dev)
                         (seq 0 (List.length prices)) in
         {| upper := map (fun r => fst (fst r)) rows;
            middle := map (fun r => snd (fst r)) rows;
            lower := map snd rows |}).
Proof.
  intros H1 H2. unfold calculate_bollinger_bands.
  destruct (Nat.ltb_spec (List.length prices) period); [lia|].
  rewrite (for_each_map _ (band_row prices period std_dev)); [reflexivity|].
  intros i _. now apply band_at_total.
Qed.

(** *** Rounding *)

Lemma round_half_even_near (z : Z) (y : R) :
  (IZR z - 1 / 2 < y < IZR z + 1 / 2)%R -> round_half_even y = z.
Proof.
  intros [Hl Hu]. unfold round_half_even.
  destruct (Rle_lt_dec (IZR z) y) as [Hge|Hlt].
  - rewrite (Zfloor_eq z y) by lra.
    destruct (Rlt_dec (y - IZR z) (1 / 2)); [reflexivity | lra].
  - assert (E : Zfloor y = (z - 1)%Z).
    { apply Zfloor_eq. rewrite minus_IZR. lra. }
    rewrite E, minus_IZR.
    destruct (Rlt_dec (y - (IZR z - 1)) (1 / 2)); [lra|].
    destruct (Rlt_dec (1 / 2) (y - (IZR z - 1))); [f_equal; lia | lra].
Qed.

Lemma py_round2_near (z : Z) (x : R) :
  (IZR z - 1 / 2 < x * 100 < IZR z + 1 / 2)%R -> py_round x 2 = (IZR z / 100)%R.
Proof.
  intros H. unfold py_round.
  replace (10 ^ 2)%R with 100%R by (simpl; lra).
  now rewrite (round_half_even_near z).
Qed.

End IndicatorFacts.

(** * The claims *)

Section ManagerClaims.

Import Kline Manager ManagerFacts.

Lemma first_success_head f s l :
  exists rest, snd (first_success f (s :: l)) = s :: rest.
Proof.
  simpl. destruct (f s) as [[|b klines]|e];
    try destruct (first_success f l) as [r tried]; simpl; eauto.
Qed.

Lemma minute_period_resolves default source period :
  In period minute_periods -> resolve_source default source period = EASTMONEY.
Proof.
  intros H. unfold resolve_source.
  assert (E : is_minute_period period = true).
  { unfold is_minute_period. apply existsb_exists. exists period.
    split; [assumption | apply String.eqb_refl]. }
  now rewrite E.
Qed.

(** C1: for every kline request whose period is one of "1", "5", "15", "30"
    and "60", [get_kline] resolves the primary provider to eastmoney whatever
    the requested source and the configured default are: eastmoney is the
    first adapter called, and sina and tushare are left as the fallbacks. *)
Theorem C1_minute_periods_force_eastmoney :
  forall adapters ts_code period start_date end_date source limit w,
    In period minute_periods ->
    resolve_source (_default_source w) source period = EASTMONEY
    /\ _get_fallback_sources (resolve_source (_default_source w) source period)
       = [SINA; TUSHARE]
    /\ exists r rest w',
         get_kline adapters ts_code period start_date end_date source limit w
         = (Ret r, w')
         /\ calls w' = calls w ++ EASTMONEY :: rest.
Proof.
  intros adapters ts_code period start_date end_date source limit w Hp.
  pose proof (minute_period_resolves (_default_source w) source Hp) as E.
  split; [exact E|]. split; [now rewrite E|].
  rewrite get_kline_run. rewrite E.
  destruct (first_success_head
              (fun s => provider_outcome adapters s ts_code period start_date
                          end_date limit)
              EASTMONEY (_get_fallback_sources EASTMONEY)) as [rest Hr].
  eexists _, rest, _. split; [reflexivity|].
  unfold logged. cbn [calls]. now rewrite Hr.
Qed.

(** Adapters that all raise, for the worked instances. *)
Definition down_adapters : Adapters :=
  {| get_kline_eastmoney := fun _ _ _ _ _ => Raise (Exception "timeout");
     get_kline_sina := fun _ _ _ => Raise (Exception "timeout");
     get_daily_kline := fun _ _ _ _ => Ret [] |}.

Definition fresh_world (default : DataSource) : World :=
  {| _default_source := default;
     store := Cache.init 2000;
     clock := 0%Z;
     calls := [] |}.

(** C1 at a five-minute request for tushare while the default is sina. *)
Lemma C1_witness :
  In "5" minute_periods
  /\ resolve_source (_default_source (fresh_world SINA)) (Some TUSHARE) "5"
     = EASTMONEY
  /\ _get_fallback_sources
       (resolve_source (_default_source (fresh_world SINA)) (Some TUSHARE) "5")
     = [SINA; TUSHARE]
  /\ exists r rest w',
       get_kline down_adapters "000001.SZ" "5" None None (Some TUSHARE) 240%Z
         (fresh_world SINA) = (Ret r, w')
       /\ calls w' = calls (fresh_world SINA) ++ EASTMONEY :: rest.
Proof.
  split; [simpl; tauto|].
  apply (@C1_minute_periods_force_eastmoney down_adapters "000001.SZ" "5" None
           None (Some TUSHARE) 240%Z (fresh_world SINA)).
  simpl. tauto.
Defined.

(** C2: when the resolved primary provider and every fallback provider
    raises or returns an empty list, [get_kline] returns (it does not raise) a
    dictionary with the requested [ts_code] and [period], an empty [data]
    list and a non-empty [error] message. *)
Theorem C2_all_providers_failed :
  forall adapters ts_code period start_date end_date source limit w,
    (forall s,
        In s (resolve_source (_default_source w) source period
              :: _get_fallback_sources
                   (resolve_source (_default_source w) source period)) ->
        failed (provider_outcome adapters s ts_code period start_date end_date
                  limit) = true) ->
    exists w' message,
      get_kline adapters ts_code period start_date end_date source limit w
      = (Ret {| r_ts_code := ts_code;
                r_source := value (resolve_source (_default_source w) source period);
                r_period := period;
                r_data := [];
                r_error := Some message;
                r_from_cache := None |}, w')
      /\ PyStr.truthy message = true.
Proof.
  intros adapters ts_code period start_date end_date source limit w H.
  rewrite get_kline_run.
  rewrite (@first_success_all_failed adapters ts_code period start_date
             end_date limit _ H).
  simpl. eexists _, all_failed_message. split; reflexivity.
Qed.

(** C2 at a daily request while eastmoney and sina time out and tushare
    has no bar. *)
Lemma C2_witness :
  (forall s,
      In s (resolve_source (_default_source (fresh_world EASTMONEY)) None "daily"
            :: _get_fallback_sources
                 (resolve_source (_default_source (fresh_world EASTMONEY)) None
                    "daily")) ->
      failed (provider_outcome down_adapters s "000001.SZ" "daily" None None
                500%Z) = true)
  /\ exists w' message,
       get_kline down_adapters "000001.SZ" "daily" None None None 500%Z
         (fresh_world EASTMONEY)
       = (Ret {| r_ts_code := "000001.SZ";
                 r_source := value (resolve_source
                                      (_default_source (fresh_world EASTMONEY))
                                      None "daily");
                 r_period := "daily";
                 r_data := [];
                 r_error := Some message;
                 r_from_cache := None |}, w')
       /\ PyStr.truthy message = true.
Proof.
  assert (H : forall s,
      In s (resolve_source (_default_source (fresh_world EASTMONEY)) None "daily"
            :: _get_fallback_sources
                 (resolve_source (_default_source (fresh_world EASTMONEY)) None
                    "daily")) ->
      failed (provider_outcome down_adapters s "000001.SZ" "daily" None None
                500%Z) = true).
  { intros s _. destruct s; reflexivity. }
  split; [exact H|].
  exact (@C2_all_providers_failed down_adapters "000001.SZ" "daily" None None
           None 500%Z (fresh_world EASTMONEY) H).
Defined.

(** [get_kline] returns for all adapters and requests. *)
Lemma get_kline_never_raises adapters ts_code period start_date end_date source
  limit w :
  exists r w',
    get_kline adapters ts_code period start_date end_date source limit w
    = (Ret r, w').
Proof. rewrite get_kline_run. eauto. Qed.

(** C3: when the resolved primary provider raises or returns an empty list,
    [get_kline] asks the remaining providers in the order eastmoney, sina,
    tushare without the primary, stops at the first one that returns a
    non-empty list, and returns that list with that provider as [source];
    a provider that returns an empty list counts as one that raised. *)
Theorem C3_fallback_in_priority_order :
  forall adapters ts_code period start_date end_date source limit w
         pre s post klines,
    failed (provider_outcome adapters
              (resolve_source (_default_source w) source period)
              ts_code period start_date end_date limit) = true ->
    _get_fallback_sources (resolve_source (_default_source w) source period)
    = pre ++ s :: post ->
    (forall t, In t pre ->
       failed (provider_outcome adapters t ts_code period start_date end_date
                 limit) = true) ->
    provider_outcome adapters s ts_code period start_date end_date limit
    = Ret klines ->
    nonempty klines = true ->
    get_kline adapters ts_code period start_date end_date source limit w
    = (Ret {| r_ts_code := ts_code; r_source := value s; r_period := period;
              r_data := klines; r_error := None; r_from_cache := None |},
       logged w (resolve_source (_default_source w) source period
                 :: pre ++ [s]))
    /\ (_get_fallback_sources EASTMONEY = [SINA; TUSHARE]
        /\ _get_fallback_sources SINA = [EASTMONEY; TUSHARE]
        /\ _get_fallback_sources TUSHARE = [EASTMONEY; SINA])
    /\ get_kline (quiet_adapters adapters) ts_code period start_date end_date
         source limit w
       = get_kline adapters ts_code period start_date end_date source limit w.
Proof.
  intros adapters ts_code period start_date end_date source limit w
         pre s post klines Hprim Hfb Hpre Hs Hne.
  split; [|split; [repeat split|]].
  - rewrite get_kline_run. rewrite Hfb.
    change (?p :: pre ++ s :: post) with ((p :: pre) ++ s :: post).
    rewrite (@first_success_found adapters ts_code period start_date end_date
               limit (_ :: pre) s klines post); try assumption.
    + reflexivity.
    + intros t [<-|Ht]; [exact Hprim | now apply Hpre].
  - rewrite !get_kline_run. f_equal; [f_equal|f_equal];
      rewrite (first_success_ext _
                 (fun t => quiet (provider_outcome adapters t ts_code period
                                    start_date end_date limit)))
        by (intros; apply provider_outcome_quiet);
      now rewrite first_success_quiet.
Qed.

Definition sample_bar (src : string) : Bar :=
  {| trade_date := "20240102"; date := "20240102";
     open := 10; high := 11; low := 9; close := 10;
     vol := 1000; volume := 1000; amount := 10000; pct_chg := 0;
     source := src |}.

(** Eastmoney times out, sina answers, tushare has nothing. *)
Definition sina_only_adapters : Adapters :=
  {| get_kline_eastmoney := fun _ _ _ _ _ => Raise (Exception "timeout");
     get_kline_sina := fun _ _ _ => Ret [sample_bar "sina"];
     get_daily_kline := fun _ _ _ _ => Ret [] |}.

(** C3 at a daily request that eastmoney fails and sina serves. *)
Lemma C3_witness :
  get_kline sina_only_adapters "000001.SZ" "daily" None None None 500%Z
    (fresh_world EASTMONEY)
  = (Ret {| r_ts_code := "000001.SZ"; r_source := value SINA;
            r_period := "daily"; r_data := [sample_bar "sina"];
            r_error := None; r_from_cache := None |},
     logged (fresh_world EASTMONEY)
       (resolve_source (_default_source (fresh_world EASTMONEY)) None "daily"
        :: [] ++ [SINA]))
  /\ (_get_fallback_sources EASTMONEY = [SINA; TUSHARE]
      /\ _get_fallback_sources SINA = [EASTMONEY; TUSHARE]
      /\ _get_fallback_sources TUSHARE = [EASTMONEY; SINA])
  /\ get_kline (quiet_adapters sina_only_adapters) "000001.SZ" "daily" None
       None None 500%Z (fresh_world EASTMONEY)
     = get_kline sina_only_adapters "000001.SZ" "daily" None None None 500%Z
         (fresh_world EASTMONEY).
Proof.
  apply (@C3_fallback_in_priority_order sina_only_adapters "000001.SZ" "daily"
           None None None 500%Z (fresh_world EASTMONEY) [] SINA [TUSHARE]
           [sample_bar "sina"]).
  - reflexivity.
  - reflexivity.
  - intros t [].
  - reflexivity.
  - reflexivity.
Defined.

End ManagerClaims.

Section AkshareClaims.

Import Kline Akshare.

Lemma remove_char_gone c s : PyStr.contains_char c (PyStr.remove_char c s) = false.
Proof.
  induction s as [|a r IH]; simpl; [reflexivity|].
  destruct (Ascii.eqb a c) eqn:E; [assumption|]. simpl. now rewrite E.
Qed.

(** What the normalisation does establish: no hyphen is left in the date,
    and [trade_date] repeats [date]. *)
Lemma normalize_date_no_hyphen kline src :
  PyStr.contains_char "-" (date (normalize_kline_data kline src)) = false
  /\ trade_date (normalize_kline_data kline src)
     = date (normalize_kline_data kline src).
Proof.
  split; [|reflexivity]. unfold normalize_kline_data. cbn [date].
  set (d := str_or (raw_trade_date kline) (str_or (raw_date kline) "")).
  destruct (PyStr.contains_char "-" d) eqn:E; [apply remove_char_gone | exact E].
Qed.

(** A five-minute bar as eastmoney sends it: date and time in one field. *)
Definition intraday_line : string :=
  "2024-01-02 09:35,10.0,10.1,10.2,9.9,1000,10000".

(** C4: every bar of the getBars path should carry a date (and trade_date)
    made of digits only.  For an intraday line the eastmoney path removes the
    hyphens and keeps the blank and the colon of the time: the bar it returns
    has the date "20240102 09:35". *)
Theorem C4_intraday_date_keeps_separators :
  map date (eastmoney_bars PyStr.decimal_float [intraday_line] None None)
  = ["20240102 09:35"]
  /\ map trade_date (eastmoney_bars PyStr.decimal_float [intraday_line] None None)
     = ["20240102 09:35"]
  /\ PyStr.only_digits "20240102 09:35" = false.
Proof. repeat split; vm_compute; reflexivity. Qed.

(** The date filter of the same loop compares these strings with the
    YYYYMMDD bounds of the request: a bar of the last requested day is
    later than the bound and is dropped. *)
Example intraday_bar_after_end_date :
  eastmoney_bars PyStr.decimal_float [intraday_line] None (Some "20240102") = [].
Proof. vm_compute. reflexivity. Qed.

End AkshareClaims.

Section IndicatorClaims.

Import Indicators IndicatorFacts.
Open Scope nat_scope.

(** C5 as stated fails on a one-element series: MACD, KDJ and Bollinger
    return empty lists, not lists of length one. *)
Lemma C5_counterexample_short_series :
  (List.length (macd (calculate_macd [1%R] 12 26 9)) = 0
   /\ List.length [1%R] = 1)
  /\ calculate_kdj [1%R] [1%R] [1%R] 9 = Ret {| k := []; d := []; j := [] |}
  /\ calculate_bollinger_bands [1%R] 20 2
     = Ret {| upper := []; middle := []; lower := [] |}.
Proof. repeat split. Qed.

(** C5 (amended): [calculate_ma] and [calculate_rsi] return, for a period of
    at least one, a list as long as the input whose positions before the
    warm-up (the first [period - 1] for MA, the first [period] for RSI) hold
    [None]; [calculate_kdj] and [calculate_bollinger_bands] do so when the
    input has at least [period] elements and return empty lists for a shorter
    input; [calculate_macd] returns empty lists for an input shorter than
    [slow] and otherwise three lists as long as the input that hold numbers
    from the first position on, each starting at zero. *)
Theorem C5_indicator_alignment :
  (forall prices period, 1 <= period ->
     exists l, calculate_ma prices period = Ret l
       /\ List.length l = List.length prices
       /\ forall i, i < List.length prices -> i + 1 < period ->
            nth_error l i = Some None)
  /\ (forall prices period, 1 <= period ->
        exists l, calculate_rsi prices period = Ret l
          /\ List.length l = List.length prices
          /\ forall i, i < List.length prices -> i < period ->
               nth_error l i = Some None)
  /\ (forall high low close period,
        (List.length close < period ->
           calculate_kdj high low close period
           = Ret {| k := []; d := []; j := [] |})
        /\ (1 <= period -> period <= List.length close ->
            List.length close <= List.length high ->
            List.length close <= List.length low ->
            exists r, calculate_kdj high low close period = Ret r
              /\ List.length (k r) = List.length close
              /\ List.length (d r) = List.length close
              /\ List.length (j r) = List.length close
              /\ forall i, i < List.length close -> i + 1 < period ->
                   nth_error (k r) i = Some None
                   /\ nth_error (d r) i = Some None
                   /\ nth_error (j r) i = Some None))
  /\ (forall prices period std_dev,
        (List.length prices < period ->
           calculate_bollinger_bands prices period std_dev
           = Ret {| upper := []; middle := []; lower := [] |})
        /\ (1 <= period -> period <= List.length prices ->
            exists r, calculate_bollinger_bands prices period std_dev = Ret r
              /\ List.length (upper r) = List.length prices
              /\ List.length (middle r) = List.length prices
              /\ List.length (lower r) = List.length prices
              /\ forall i, i < List.length prices -> i + 1 < period ->
                   nth_error (upper r) i = Some None
                   /\ nth_error (middle r) i = Some None
                   /\ nth_error (lower r) i = Some None))
  /\ (forall prices fast slow signal_period,
        (List.length prices < slow ->
           calculate_macd prices fast slow signal_period
           = {| macd := []; signal := []; histogram := [] |})
        /\ (slow <= List.length prices ->
            let r := calculate_macd prices fast slow signal_period in
            List.length (macd r) = List.length prices
            /\ List.length (signal r) = List.length prices
            /\ List.length (histogram r) = List.length prices
            /\ (prices <> [] ->
                nth_error (macd r) 0 = Some 0%R
                /\ nth_error (signal r) 0 = Some 0%R
                /\ nth_error (histogram r) 0 = Some 0%R))).
Proof.
  split; [|split; [|split; [|split]]].
  - intros prices period H. rewrite calculate_ma_total by assumption.
    eexists. split; [reflexivity|]. split.
    + now rewrite length_map, length_seq.
    + intros i Hi Hw. rewrite nth_error_map_seq by assumption.
      unfold ma_at. apply Nat.ltb_lt in Hw. now rewrite Hw.
  - intros prices period H. now apply calculate_rsi_aligned.
  - intros high low close period. split.
    + intros H. unfold calculate_kdj. apply Nat.ltb_lt in H. now rewrite H.
    + intros H1 H2 Hh Hl.
      destruct (@calculate_kdj_aligned high low close period H1 Hh Hl H2)
        as (r & E & Lk & Ld & Lj & Hnone & _).
      exists r. repeat split; try assumption; now apply Hnone.
  - intros prices period std_dev. split.
    + intros H. unfold calculate_bollinger_bands.
      apply Nat.ltb_lt in H. now rewrite H.
    + intros H1 H2. rewrite calculate_bollinger_long by assumption.
      eexists. split; [reflexivity|]. cbv zeta. cbn [upper middle lower].
      rewrite !length_map, length_seq.
      split; [reflexivity|]. split; [reflexivity|]. split; [reflexivity|].
      intros i Hi Hw. rewrite !map_map, !nth_error_map_seq by assumption.
      unfold band_row. apply Nat.ltb_lt in Hw. now rewrite Hw.
  - intros prices fast slow signal_period. split.
    + intros H. unfold calculate_macd. apply Nat.ltb_lt in H. now rewrite H.
    + intros H. cbv zeta.
      destruct (@macd_lengths prices fast slow signal_period H) as (A & B & C).
      repeat split; try assumption;
        now apply (@macd_starts_at_zero prices fast slow signal_period H).
Qed.

End IndicatorClaims.

Section IndicatorClaimsNumeric.

Import Indicators IndicatorFacts.
Open Scope nat_scope.

(** C5 (amended) at a three-element series for MA and a ten-element
    series for the Bollinger bands. *)
Lemma C5_witness :
  (1 <= 2 /\ 1 <= 9 /\ 9 <= 10)
  /\ (exists l, calculate_ma [1; 2; 3]%R 2 = Ret l
        /\ List.length l = List.length [1; 2; 3]%R
        /\ forall i, i < List.length [1; 2; 3]%R -> i + 1 < 2 ->
             nth_error l i = Some None)
  /\ (exists r, calculate_bollinger_bands (repeat 1%R 10) 9 2 = Ret r
        /\ List.length (upper r) = List.length (repeat 1%R 10)
        /\ List.length (middle r) = List.length (repeat 1%R 10)
        /\ List.length (lower r) = List.length (repeat 1%R 10)
        /\ forall i, i < List.length (repeat 1%R 10) -> i + 1 < 9 ->
             nth_error (upper r) i = Some None
             /\ nth_error (middle r) i = Some None
             /\ nth_error (lower r) i = Some None).
Proof.
  split; [lia|]. split.
  - apply (proj1 C5_indicator_alignment [1; 2; 3]%R 2). lia.
  - apply (proj2 (proj1 (proj2 (proj2 (proj2 C5_indicator_alignment)))
                    (repeat 1%R 10) 9 2%R)).
    + lia.
    + simpl. lia.
Defined.

(** C6: for every price series of at least 15 values whose first 14
    consecutive changes are strictly positive, [calculate_rsi] with period 14
    returns a list whose first 14 positions are [None] and whose first defined
    position, index 14, holds 100: the average loss over the warm-up window
    is exactly 0. *)
Theorem C6_rsi_rising_warmup :
  forall prices : list R,
    15 <= List.length prices ->
    (forall i, i < 14 -> (0 < nth (S i) prices 0 - nth i prices 0)%R) ->
    exists l,
      calculate_rsi prices 14 = Ret l
      /\ (forall i, i < 14 -> nth_error l i = Some None)
      /\ nth_error l 14 = Some (Some 100%R)
      /\ (sum (firstn 14 (map loss_of (changes prices))) / INR 14 = 0)%R.
Proof.
  intros prices Hlen Hrise.
  assert (Hrise' : forall i, i < 14 -> (nth i prices 0 < nth (S i) prices 0)%R).
  { intros i Hi. specialize (Hrise i Hi). lra. }
  destruct (@calculate_rsi_long prices 14) as [tail [E _]]; [lia | lia |].
  eexists. split; [exact E|]. split; [|split].
  - intros i Hi. rewrite nth_error_app1 by (rewrite repeat_length; lia).
    now apply nth_error_repeat.
  - rewrite nth_error_app2 by (rewrite repeat_length; lia).
    rewrite repeat_length. cbn [Nat.sub nth_error app].
    rewrite first_rsi_rising; [reflexivity | lia | lia | assumption].
  - rewrite (@warmup_losses_zero prices 14) by (assumption || lia).
    unfold Rdiv. apply Rmult_0_l.
Qed.

Definition rising_15 : list R :=
  [1; 2; 3; 4; 5; 6; 7; 8; 9; 10; 11; 12; 13; 14; 15]%R.

(** C6 at the prices 1, 2, ..., 15. *)
Lemma C6_witness :
  15 <= List.length rising_15
  /\ (forall i, i < 14 -> (0 < nth (S i) rising_15 0 - nth i rising_15 0)%R)
  /\ exists l,
       calculate_rsi rising_15 14 = Ret l
       /\ (forall i, i < 14 -> nth_error l i = Some None)
       /\ nth_error l 14 = Some (Some 100%R)
       /\ (sum (firstn 14 (map loss_of (changes rising_15))) / INR 14 = 0)%R.
Proof.
  assert (H1 : 15 <= List.length rising_15) by (simpl; lia).
  assert (H2 : forall i, i < 14 ->
                 (0 < nth (S i) rising_15 0 - nth i rising_15 0)%R).
  { intros i Hi. do 14 (destruct i as [|i]; [simpl; lra|]). lia. }
  split; [exact H1|]. split; [exact H2|].
  exact (@C6_rsi_rising_warmup rising_15 H1 H2).
Defined.

End IndicatorClaimsNumeric.

Section BollingerClaim.

Import Indicators IndicatorFacts.
Open Scope nat_scope.

Definition series_1_20 : list R :=
  [1; 2; 3; 4; 5; 6; 7; 8; 9; 10;
   11; 12; 13; 14; 15; 16; 17; 18; 19; 20]%R.

(** The arithmetic mean and the population standard deviation, as the
    specification names them. *)
Definition mean (xs : list R) : R := (sum xs / INR (List.length xs))%R.


Lemma mean_1_20 : mean series_1_20 = (21 / 2)%R.
Proof. unfold mean, sum, series_1_20. simpl. lra. Qed.

Lemma variance_1_20 :
  (sum (map (fun x => (x - 21 / 2) ^ 2) series_1_20) / INR 20 = 133 / 4)%R.
Proof. unfold sum, series_1_20. simpl. lra. Qed.


Lemma sqrt_between (a v b : R) :
  (0 <= a)%R -> (0 <= b)%R -> (a * a < v)%R -> (v < b * b)%R ->
  (a < sqrt v < b)%R.
Proof.
  intros Ha Hb Hl Hu.
  assert (Hv : (0 <= v)%R) by nra.
  split.
  - rewrite <- (sqrt_square a Ha). apply sqrt_lt_1; nra.
  - rewrite <- (sqrt_square b Hb). apply sqrt_lt_1; nra.
Qed.

Lemma std_1_20_bounds : (57662 / 10000 < sqrt (133 / 4) < 57663 / 10000)%R.
Proof. apply sqrt_between; lra. Qed.

Lemma last_row_1_20 :
  band_row series_1_20 20 2 19
  = (Some (2203 / 100)%R, Some (1050 / 100)%R, Some (-103 / 100)%R).
Proof.
  unfold band_row. change (19 + 1 <? 20) with false. cbv zeta.
  change (slice (19 + 1 - 20) (19 + 1) series_1_20) with series_1_20.
  fold (mean series_1_20) in *.
  replace (sum series_1_20 / INR 20)%R with (21 / 2)%R
    by (symmetry; apply mean_1_20).
  rewrite variance_1_20.
  pose proof std_1_20_bounds as Hs.
  rewrite (py_round2_near 2203) by lra.
  rewrite (py_round2_near 1050) by lra.
  rewrite (py_round2_near (-103)) by lra.
  reflexivity.
Qed.

Lemma bands_1_20 :
  exists r,
    calculate_bollinger_bands series_1_20 20 2 = Ret r
    /\ nth_error (upper r) 19 = Some (Some (2203 / 100)%R)
    /\ nth_error (middle r) 19 = Some (Some (1050 / 100)%R)
    /\ nth_error (lower r) 19 = Some (Some (-103 / 100)%R).
Proof.
  rewrite calculate_bollinger_long by (simpl; lia).
  eexists. split; [reflexivity|]. cbv zeta. cbn [upper middle lower].
  change (List.length series_1_20) with 20.
  rewrite !map_map, !nth_error_map_seq by lia.
  rewrite last_row_1_20. repeat split.
Qed.



End BollingerClaim.

Section CacheClaims.

Import Cache.
Open Scope nat_scope.

(** A store of capacity one after two writes of distinct keys. *)
Definition tiny_store : InMemoryCache nat :=
  run (init 1) [(0%Z, OpSet "a" 1 None); (0%Z, OpSet "b" 2 None)].

(** C8 (defect of the code): a store of capacity one holds two entries
    after two writes.  At the second write [_cleanup] runs, nothing has
    expired, and [int(max_size * 0.2)] is 0, so no entry is evicted and the
    size passes the capacity. *)
Lemma C8_counterexample_small_capacity :
  PyDict.len (_cache tiny_store) = 2
  /\ _max_size tiny_store = 1
  /\ (PyDict.len (_cache tiny_store) <=? _max_size tiny_store) = false.
Proof. repeat split. Qed.

(** X26: a write to a store that is at or over its capacity first drops
    every entry whose expiry has passed and, if the store is still at
    capacity, the oldest [int(0.2 * capacity)] entries in insertion order;
    then the entry is written.  For a capacity of at least five (the default
    1000 and the 2000 of the cache service) a store within its capacity stays
    within it, through any sequence of calls from the empty store. *)
Theorem X26_eviction_on_write_from_capacity_five :
  forall (V : Type) (c : InMemoryCache V) now key value ex,
    wf c ->
    _cache (snd (set c now key value ex)) = spec_set c now key value
    /\ PyDict.get (_cache (snd (set c now key value ex))) key = Some value
    /\ (5 <= _max_size c -> PyDict.len (_cache c) <= _max_size c ->
        PyDict.len (_cache (snd (set c now key value ex))) <= _max_size c)
    /\ (forall max_size calls, 5 <= max_size ->
          PyDict.len (_cache (run (@init V max_size) calls)) <= max_size).
Proof.
  intros V c now key value ex Hwf.
  split; [now apply set_cache|]. split; [|split].
  - unfold set. simpl. apply PyDict.get_set_eq.
  - intros H5 Hle. rewrite set_cache by assumption. now apply spec_set_len.
  - intros max_size calls H5.
    destruct (@run_bounded V calls (init max_size)) as [[_ Hb] Hm].
    + exact H5.
    + unfold bounded, wf. simpl. repeat split; try constructor. lia.
    + rewrite Hm in Hb. exact Hb.
Qed.

(** A store of capacity five filled to its capacity; the entry "b" has
    expired by the time 100. *)
Definition full_store : InMemoryCache nat :=
  run (init 5)
    [(0%Z, OpSet "a" 1 None); (0%Z, OpSet "b" 2 (Some 10%Z));
     (0%Z, OpSet "c" 3 None); (0%Z, OpSet "d" 4 None);
     (0%Z, OpSet "e" 5 None)].

Lemma full_store_wf : wf full_store.
Proof.
  unfold wf, PyDict.wf. vm_compute.
  split; repeat (constructor; [simpl; intuition discriminate|]); constructor.
Qed.

(** X26 at a write to a full store of capacity five. *)
Lemma X26_witness :
  wf full_store
  /\ _cache (snd (set full_store 100%Z "f" 6 None))
     = spec_set full_store 100%Z "f" 6
  /\ PyDict.get (_cache (snd (set full_store 100%Z "f" 6 None))) "f" = Some 6
  /\ (5 <= _max_size full_store ->
      PyDict.len (_cache full_store) <= _max_size full_store ->
      PyDict.len (_cache (snd (set full_store 100%Z "f" 6 None)))
      <= _max_size full_store)
  /\ (forall max_size calls, 5 <= max_size ->
        PyDict.len (_cache (run (@init nat max_size) calls)) <= max_size).
Proof.
  split; [exact full_store_wf|].
  exact (@X26_eviction_on_write_from_capacity_five nat full_store 100%Z "f" 6 None full_store_wf).
Defined.

(** The two branches of the policy on small stores: the expired entry goes
    and nothing else; with no expired entry the oldest fifth goes. *)
Example eviction_purges_expired :
  PyDict.keys (_cache (snd (set full_store 100%Z "f" 6 None)))
  = ["a"; "c"; "d"; "e"; "f"].
Proof. reflexivity. Qed.

Example eviction_drops_oldest :
  PyDict.keys (_cache (snd (set full_store 5%Z "f" 6 None)))
  = ["b"; "c"; "d"; "e"; "f"].
Proof. reflexivity. Qed.

End CacheClaims.

Section StorageClaims.

Import Kline Manager ManagerFacts Storage StorageFacts.
Open Scope nat_scope.

(** C9: for any per-symbol fetch and any list of symbols, the batch loop of
    the storage service returns (it does not raise) a dictionary that holds
    each requested symbol once; a symbol whose fetch raised maps to the empty
    list and a symbol whose fetch returned maps to the fetched series (for a
    symbol requested more than once, its last fetch counts).  The route
    passes a request of one to twenty symbols to that loop and rejects a
    request of more than twenty with status 400 before any fetch: the process
    state is returned as it was. *)
Theorem C9_batch_isolates_failures :
  forall fetch period source limit w,
    (forall ts_codes,
       exists results w',
         batch_get_kline_with fetch ts_codes period source limit w
         = (Ret results, w')
         /\ PyDict.wf results
         /\ (forall c, In c (PyDict.keys results) <-> In c ts_codes)
         /\ (forall pre c o post,
               fst (fetch_outcomes fetch ts_codes period source limit w)
               = pre ++ (c, o) :: post ->
               ~ In c (map fst post) ->
               PyDict.get results c
               = Some (match o with
                       | Ret result => r_data result
                       | Raise _ => []
                       end)))
    /\ (forall ts_codes src,
          20 < List.length (parse_codes ts_codes) ->
          batch_get_kline_route fetch ts_codes period src limit w
          = (Raise (HTTPException 400 too_many_detail), w))
    /\ (forall ts_codes src,
          1 <= List.length (parse_codes ts_codes) <= 20 ->
          exists results w',
            batch_get_kline_with fetch (parse_codes ts_codes) period
              (source_or_default src w) limit w = (Ret results, w')
            /\ batch_get_kline_route fetch ts_codes period src limit w
               = (Ret {| b_source := source_or_default src w';
                         b_period := period;
                         b_data := results |}, w')).
Proof.
  intros fetch period source limit w. split; [|split].
  - intros ts_codes. unfold batch_get_kline_with. rewrite batch_loop_run.
    eexists _, _. split; [reflexivity|]. split; [|split].
    + apply fold_store_wf. unfold PyDict.wf. simpl. apply NoDup_nil.
    + intros c. rewrite fold_store_keys, fetch_outcomes_codes. simpl. tauto.
    + intros pre c o post E Hlast. rewrite E.
      rewrite fold_store_last by assumption. now destruct o.
  - intros ts_codes src H. unfold batch_get_kline_route, try_except.
    destruct (parse_codes ts_codes) as [|c0 rest] eqn:E; [simpl in H; lia|].
    cbn [nonempty negb]. apply Nat.ltb_lt in H. rewrite H. reflexivity.
  - intros ts_codes src [H1 H20]. unfold batch_get_kline_route, try_except.
    destruct (parse_codes ts_codes) as [|c0 rest] eqn:E; [simpl in H1; lia|].
    cbn [nonempty negb].
    destruct (Nat.ltb_spec 20 (List.length (c0 :: rest))); [lia|].
    unfold bind, batch_get_kline_with. rewrite batch_loop_run.
    eexists _, _. split; reflexivity.
Qed.

(** The scenario of the specification: B's fetch raises, A and C answer. *)
Definition abc_fetch (ts_code period : string) (start_date end_date : option string)
  (source : string) (limit : Z) : M Result :=
  if String.eqb ts_code "B" then raise (Exception "upstream failure")
  else ret {| r_ts_code := ts_code; r_source := source; r_period := period;
              r_data := [sample_bar ts_code]; r_error := None;
              r_from_cache := Some false |}.

Definition abc_world : World := fresh_world EASTMONEY.

Definition twenty_one_codes : string :=
  "1,2,3,4,5,6,7,8,9,10,11,12,13,14,15,16,17,18,19,20,21".

(** C9 at the batch A, B, C and at a request of twenty-one symbols. *)
Lemma C9_witness :
  (exists results w',
     batch_get_kline_with abc_fetch ["A"; "B"; "C"] "daily" "eastmoney" 100%Z
       abc_world = (Ret results, w')
     /\ PyDict.keys results = ["A"; "B"; "C"]
     /\ PyDict.get results "B" = Some [])
  /\ 20 < List.length (parse_codes twenty_one_codes)
  /\ batch_get_kline_route abc_fetch twenty_one_codes "daily" None 100%Z
       abc_world
     = (Raise (HTTPException 400 too_many_detail), abc_world).
Proof.
  pose proof (@C9_batch_isolates_failures abc_fetch "daily" "eastmoney" 100%Z
                abc_world) as [Hbatch _].
  pose proof (@C9_batch_isolates_failures abc_fetch "daily" "eastmoney" 100%Z
                abc_world) as [_ [Hroute _]].
  split; [|split].
  - destruct (Hbatch ["A"; "B"; "C"]) as (results & w' & E & _ & _ & Hget).
    exists results, w'. split; [exact E|]. split.
    + vm_compute in E. injection E as <- _. reflexivity.
    + apply (Hget [("A", fst (abc_fetch "A" "daily" None None "eastmoney"
                                 100%Z abc_world))]
                  "B" (Raise (Exception "upstream failure"))
                  [("C", fst (abc_fetch "C" "daily" None None "eastmoney"
                                 100%Z abc_world))]).
      * reflexivity.
      * simpl. intros [H|[]]. discriminate.
  - vm_compute. lia.
  - apply Hroute. vm_compute. lia.
Defined.

(** C10: on a cache hit [get_kline_with_storage] returns the source string of
    the request as [source], with the cached bars and [from_cache] set; the
    cache key is built from the requested source.  So after a request for
    eastmoney that sina served, the entry lies under the eastmoney key, and
    the next request returns [source = "eastmoney"] with bars tagged
    "sina". *)
Theorem C10_cache_hit_reports_requested_source :
  (forall adapters ts_code period start_date end_date source limit w cached st,
     Cache.get (store w) (clock w)
       (cache_key ts_code period source start_date end_date limit)
     = (Some cached, st) ->
     nonempty cached = true ->
     get_kline_with_storage adapters ts_code period start_date end_date source
       limit w
     = (Ret {| r_ts_code := ts_code; r_source := source; r_period := period;
               r_data := cached; r_error := None; r_from_cache := Some true |},
        with_store w st))
  /\ (forall ts_code period source start_date end_date limit,
        cache_key ts_code period source start_date end_date limit
        = ("kline_storage:" ++ ts_code ++ ":" ++ period ++ ":" ++ source ++ ":"
           ++ PyStr.or_empty start_date ++ ":" ++ PyStr.or_empty end_date
           ++ ":" ++ PyStr.of_Z limit)%string)
  /\ (exists r1 w1 r2 w2,
        get_kline_with_storage sina_only_adapters "000001.SZ" "daily" None
          None "eastmoney" 500%Z (fresh_world EASTMONEY) = (Ret r1, w1)
        /\ r_source r1 = "sina" /\ r_from_cache r1 = Some false
        /\ PyDict.get (Cache._cache (store w1))
             (cache_key "000001.SZ" "daily" "eastmoney" None None 500%Z)
           = Some [sample_bar "sina"]
        /\ PyDict.get (Cache._cache (store w1))
             (cache_key "000001.SZ" "daily" "sina" None None 500%Z)
           = None
        /\ get_kline_with_storage sina_only_adapters "000001.SZ" "daily" None
             None "eastmoney" 500%Z w1 = (Ret r2, w2)
        /\ r_source r2 = "eastmoney" /\ r_from_cache r2 = Some true
        /\ map Kline.source (r_data r2) = ["sina"]
        /\ calls w2 = calls w1).
Proof.
  split; [|split].
  - intros adapters ts_code period start_date end_date source limit w cached
           st Hget Hne.
    unfold get_kline_with_storage, bind.
    now rewrite (get_from_cache_hit _ _ Hget Hne).
  - reflexivity.
  - eexists _, _, _, _.
    split; [vm_compute; reflexivity|].
    repeat split; vm_compute; reflexivity.
Qed.

Definition served_by_sina : World :=
  snd (get_kline_with_storage sina_only_adapters "000001.SZ" "daily" None None
         "eastmoney" 500%Z (fresh_world EASTMONEY)).

(** C10 at the second request for eastmoney after sina served the first. *)
Lemma C10_witness :
  Cache.get (store served_by_sina) (clock served_by_sina)
    (cache_key "000001.SZ" "daily" "eastmoney" None None 500%Z)
  = (Some [sample_bar "sina"], store served_by_sina)
  /\ nonempty [sample_bar "sina"] = true
  /\ get_kline_with_storage down_adapters "000001.SZ" "daily" None None
       "eastmoney" 500%Z served_by_sina
     = (Ret {| r_ts_code := "000001.SZ"; r_source := "eastmoney";
               r_period := "daily"; r_data := [sample_bar "sina"];
               r_error := None; r_from_cache := Some true |},
        with_store served_by_sina (store served_by_sina)).
Proof.
  assert (H : Cache.get (store served_by_sina) (clock served_by_sina)
                (cache_key "000001.SZ" "daily" "eastmoney" None None 500%Z)
              = (Some [sample_bar "sina"], store served_by_sina))
    by (vm_compute; reflexivity).
  split; [exact H|]. split; [reflexivity|].
  exact (proj1 C10_cache_hit_reports_requested_source down_adapters
           "000001.SZ" "daily" None None "eastmoney" 500%Z served_by_sina
           [sample_bar "sina"] (store served_by_sina) H eq_refl).
Defined.

End StorageClaims.

(** * Further properties of the cache, the manager, the adapters, the
      storage layer and the indicators *)

Module CacheExtra.

Import Cache.
Open Scope nat_scope.

Section StoreFacts.
Context {V : Type}.
Implicit Types (c : InMemoryCache V).

Lemma get_In {A} (d : PyDict.t A) k v : PyDict.get d k = Some v -> In (k, v) d.
Proof.
  induction d as [|[k' v'] r IH]; simpl; [discriminate|].
  destruct (String.eqb k' k) eqn:E.
  - apply String.eqb_eq in E. intros H. injection H as <-. subst. now left.
  - intros H. right. auto.
Qed.

Lemma purge_expiry c ks :
  PyDict.wf (_expiry c) ->
  _expiry (fold_left (@purge_step V) ks c)
  = filter (fun kv => negb (existsb (String.eqb (fst kv)) ks)) (_expiry c).
Proof.
  revert c. induction ks as [|k ks IH]; intros c H; simpl.
  - symmetry. apply forallb_filter_id. now apply forallb_forall.
  - rewrite IH; simpl; rewrite del_as_filter by assumption.
    + rewrite filter_twice. apply filter_ext. intros [k' v']. simpl.
      now destruct (String.eqb k' k).
    + now apply wf_filter.
Qed.

Lemma evict_expiry_incl c ks kv :
  In kv (_expiry (fold_left (@evict_step V) ks c)) -> In kv (_expiry c).
Proof.
  revert c. induction ks as [|k ks IH]; intros c H; simpl in *; [assumption|].
  apply IH in H. simpl in H.
  destruct (PyDict.contains (_expiry c) k); [|assumption].
  clear IH. induction (_expiry c) as [|[k' e'] r IHr]; simpl in *; [assumption|].
  destruct (String.eqb k' k); simpl in *; intuition.
Qed.

Lemma cleanup_expiry_live c now k e :
  wf c -> In (k, e) (_expiry (_cleanup c now)) -> (now <= e)%Z.
Proof.
  intros [Hc He] Hin.
  assert (Hp : In (k, e) (_expiry (purge_expired c now))).
  { unfold _cleanup in Hin. destruct (_ <=? _); [|assumption].
    now apply evict_expiry_incl in Hin. }
  unfold purge_expired in Hp. rewrite purge_expiry in Hp by assumption.
  apply filter_In in Hp. destruct Hp as [Hin' Hk]. simpl in Hk.
  destruct (Z.ltb_spec e now) as [Hlt|Hge]; [|assumption].
  exfalso. apply negb_true_iff in Hk.
  assert (X : existsb (String.eqb k) (expired_keys c now) = true).
  { apply existsb_exists. exists k. split; [|apply String.eqb_refl].
    unfold expired_keys. apply in_map_iff. exists (k, e). split; [reflexivity|].
    apply filter_In. split; [assumption|]. simpl. now apply Z.ltb_lt. }
  congruence.
Qed.

End StoreFacts.

(** X1: a value written with a time to live is read back, unchanged and
    without touching the store, at any instant up to its expiry. *)
Theorem X1_set_get_within_ttl :
  forall (V : Type) (c : InMemoryCache V) now key value ttl t,
    ttl <> 0%Z -> (t <= now + ttl)%Z ->
    get (snd (set c now key value (Some ttl))) t key
    = (Some value, snd (set c now key value (Some ttl))).
Proof.
  intros V c now key value ttl t Hn Ht. unfold set. cbn [snd truthy_ex].
  destruct (Z.eqb_spec ttl 0) as [|_]; [contradiction|].
  unfold get. cbn [_cache _expiry _max_size].
  rewrite !PyDict.get_set_eq.
  destruct (Z.ltb_spec (now + ttl) t); [lia | reflexivity].
Qed.

Lemma X1_witness :
  60%Z <> 0%Z /\ (30 <= 0 + 60)%Z
  /\ get (snd (set (@init nat 5) 0%Z "k" 7 (Some 60%Z))) 30%Z "k"
     = (Some 7, snd (set (@init nat 5) 0%Z "k" 7 (Some 60%Z))).
Proof.
  assert (H1 : 60%Z <> 0%Z) by discriminate.
  assert (H2 : (30 <= 0 + 60)%Z) by (vm_compute; discriminate).
  split; [exact H1|]. split; [exact H2|].
  exact (@X1_set_get_within_ttl nat (init 5) 0%Z "k" 7 60%Z 30%Z H1 H2).
Defined.

(** X2: a write without a time to live ([ex] is [None] or 0) leaves the
    key's earlier expiry in place.  In a store below its capacity, when that
    expiry has passed, the next read drops the value just written. *)
Theorem X2_write_without_ttl_keeps_old_expiry :
  forall (V : Type) (c : InMemoryCache V) now key value ex e t,
    wf c ->
    PyDict.len (_cache c) < _max_size c ->
    truthy_ex ex = None ->
    PyDict.get (_expiry c) key = Some e ->
    (e < t)%Z ->
    PyDict.get (_expiry (snd (set c now key value ex))) key = Some e
    /\ fst (get (snd (set c now key value ex)) t key) = None
    /\ PyDict.get (_cache (snd (get (snd (set c now key value ex)) t key))) key
       = None.
Proof.
  intros V c now key value ex e t [Hc He] Hlen Hex Hold Ht.
  unfold set. cbn [snd]. rewrite Hex.
  destruct (Nat.leb_spec (_max_size c) (PyDict.len (_cache c))); [lia|].
  split; [exact Hold|].
  unfold get. cbn [_cache _expiry _max_size].
  rewrite PyDict.get_set_eq, Hold.
  destruct (Z.ltb_spec e t); [|lia]. cbn [fst snd _cache].
  split; [reflexivity|].
  apply PyDict.get_del_eq. now apply PyDict.wf_set.
Qed.

(** A store of capacity five whose entry "k" expired at 10. *)
Definition stale_store : InMemoryCache nat :=
  snd (set (init 5) 0%Z "k" 1 (Some 10%Z)).

Lemma X2_witness :
  wf stale_store
  /\ PyDict.len (_cache stale_store) < _max_size stale_store
  /\ truthy_ex None = None
  /\ PyDict.get (_expiry stale_store) "k" = Some 10%Z
  /\ (10 < 100)%Z
  /\ PyDict.get (_expiry (snd (set stale_store 100%Z "k" 2 None))) "k"
     = Some 10%Z
  /\ fst (get (snd (set stale_store 100%Z "k" 2 None)) 100%Z "k") = None
  /\ PyDict.get
       (_cache (snd (get (snd (set stale_store 100%Z "k" 2 None)) 100%Z "k")))
       "k" = None.
Proof.
  assert (Hw : wf stale_store).
  { apply set_wf. split; constructor. }
  assert (Hl : PyDict.len (_cache stale_store) < _max_size stale_store)
    by (vm_compute; lia).
  assert (Ht : (10 < 100)%Z) by reflexivity.
  split; [exact Hw|]. split; [exact Hl|]. split; [reflexivity|].
  split; [reflexivity|]. split; [exact Ht|].
  exact (@X2_write_without_ttl_keeps_old_expiry nat stale_store 100%Z "k" 2
           None 10%Z 100%Z Hw Hl eq_refl eq_refl Ht).
Defined.

(** X3: [delete] reports whether the key was stored, also for an entry
    whose expiry has passed; afterwards the key reads as absent and every
    other key reads as before. *)
Theorem X3_delete_removes_only_its_key :
  forall (V : Type) (c : InMemoryCache V) key t,
    wf c ->
    fst (delete c key) = PyDict.contains (_cache c) key
    /\ fst (get (snd (delete c key)) t key) = None
    /\ (forall other, other <> key ->
          fst (get (snd (delete c key)) t other) = fst (get c t other)).
Proof.
  intros V c key t [Hc He]. unfold delete.
  destruct (PyDict.contains (_cache c) key) eqn:E; cbn [fst snd].
  - split; [reflexivity|]. split.
    + unfold get. cbn [_cache]. now rewrite PyDict.get_del_eq.
    + intros other Hne. unfold get. cbn [_cache _expiry _max_size].
      rewrite PyDict.get_del_ne by congruence.
      assert (Hx : PyDict.get
                     (if PyDict.contains (_expiry c) key
                      then PyDict.del (_expiry c) key else _expiry c) other
                   = PyDict.get (_expiry c) other).
      { destruct (PyDict.contains (_expiry c) key); [|reflexivity].
        apply PyDict.get_del_ne. congruence. }
      rewrite Hx.
      destruct (PyDict.get (_cache c) other); [|reflexivity].
      destruct (PyDict.get (_expiry c) other); [|reflexivity].
      now destruct (_ <? _)%Z.
  - split; [reflexivity|]. split; [|reflexivity].
    unfold get. unfold PyDict.contains in E.
    now destruct (PyDict.get (_cache c) key).
Qed.

Lemma X3_witness :
  wf stale_store
  /\ fst (delete stale_store "k") = PyDict.contains (_cache stale_store) "k"
  /\ fst (get (snd (delete stale_store "k")) 100%Z "k") = None
  /\ (forall other, other <> "k" ->
        fst (get (snd (delete stale_store "k")) 100%Z other)
        = fst (get stale_store 100%Z other)).
Proof.
  assert (Hw : wf stale_store).
  { apply set_wf. split; constructor. }
  split; [exact Hw|].
  exact (@X3_delete_removes_only_its_key nat stale_store "k" 100%Z Hw).
Defined.

(** X4: after [_cleanup] no entry of the store has an expiry in the past:
    every expiry that is left lies at or after the clock reading. *)
Theorem X4_cleanup_leaves_no_expired_entry :
  forall (V : Type) (c : InMemoryCache V) now key e,
    wf c ->
    PyDict.get (_expiry (_cleanup c now)) key = Some e ->
    (now <= e)%Z /\ expired (_cleanup c now) now key = false.
Proof.
  intros V c now key e Hw Hget.
  assert (H : (now <= e)%Z).
  { apply (@cleanup_expiry_live V c now key e Hw). now apply get_In. }
  split; [exact H|]. unfold expired. rewrite Hget.
  destruct (Z.ltb_spec e now); [lia | reflexivity].
Qed.

(** A full store of capacity five with one expired and one live expiry. *)
Definition mixed_store : InMemoryCache nat :=
  run (init 5)
    [(0%Z, OpSet "a" 1 (Some 10%Z)); (0%Z, OpSet "b" 2 (Some 500%Z));
     (0%Z, OpSet "c" 3 None); (0%Z, OpSet "d" 4 None);
     (0%Z, OpSet "e" 5 None)].

Lemma X4_witness :
  wf mixed_store
  /\ PyDict.get (_expiry (_cleanup mixed_store 100%Z)) "b" = Some 500%Z
  /\ (100 <= 500)%Z /\ expired (_cleanup mixed_store 100%Z) 100%Z "b" = false.
Proof.
  assert (Hw : wf mixed_store).
  { unfold wf, PyDict.wf. vm_compute.
    split; repeat (constructor; [simpl; intuition discriminate|]); constructor. }
  assert (Hg : PyDict.get (_expiry (_cleanup mixed_store 100%Z)) "b"
               = Some 500%Z) by reflexivity.
  split; [exact Hw|]. split; [exact Hg|].
  exact (@X4_cleanup_leaves_no_expired_entry nat mixed_store 100%Z "b" 500%Z
           Hw Hg).
Defined.

End CacheExtra.

(** ** [CacheService]: the kline entries of [core/cache.py] *)

Module CacheService.

Import Kline Manager Storage.

Definition TTL_KLINE_DAILY : Z := 3600 * 6.
Definition TTL_KLINE_WEEKLY : Z := 3600 * 24.
Definition TTL_KLINE_MONTHLY : Z := 3600 * 24.
Definition PREFIX_KLINE : string := "kline".

(** [def _make_kline_key(self, ts_code, period, start_date="", end_date="")] *)
Definition _make_kline_key (ts_code period start_date end_date : string) : string :=
  String.concat ":"
    ([PREFIX_KLINE; ts_code; period]
     ++ (if PyStr.truthy start_date then [start_date] else [])
     ++ (if PyStr.truthy end_date then [end_date] else [])).

(** [ttl_map.get(period, self.TTL_KLINE_DAILY)] *)
Definition kline_ttl (period : string) : Z :=
  if String.eqb period "daily" then TTL_KLINE_DAILY
  else if String.eqb period "weekly" then TTL_KLINE_WEEKLY
  else if String.eqb period "monthly" then TTL_KLINE_MONTHLY
  else TTL_KLINE_DAILY.

(** [async def set_kline] *)
Definition set_kline (ts_code period : string) (klines : list Bar)
  (start_date end_date : string) : M bool :=
  set_json (_make_kline_key ts_code period start_date end_date) klines
    (kline_ttl period).

(** [async def get_kline] *)
Definition get_kline (ts_code period start_date end_date : string)
  : M (option (list Bar)) :=
  get_json (_make_kline_key ts_code period start_date end_date).

Lemma kline_ttl_pos period : (0 < kline_ttl period)%Z.
Proof.
  unfold kline_ttl.
  destruct (String.eqb period "daily"); [reflexivity|].
  destruct (String.eqb period "weekly"); [reflexivity|].
  destruct (String.eqb period "monthly"); reflexivity.
Qed.

Lemma get_after_set {V} (c : Cache.InMemoryCache V) now key value ttl t :
  ttl <> 0%Z -> (t <= now + ttl)%Z ->
  Cache.get (snd (Cache.set c now key value (Some ttl))) t key
  = (Some value, snd (Cache.set c now key value (Some ttl))).
Proof.
  intros Hn Ht. unfold Cache.set. cbn [snd Cache.truthy_ex].
  destruct (Z.eqb_spec ttl 0) as [|_]; [contradiction|].
  unfold Cache.get. cbn [Cache._cache Cache._expiry Cache._max_size].
  rewrite !PyDict.get_set_eq.
  destruct (Z.ltb_spec (now + ttl) t); [lia | reflexivity].
Qed.

(** X5: the kline key leaves out an empty bound, so a range with only a
    start date and a range with only that end date have the same key: bars
    stored for the one are returned for the other. *)
Theorem X5_kline_key_confuses_start_and_end :
  forall ts_code period d klines w,
    _make_kline_key ts_code period d "" = _make_kline_key ts_code period "" d
    /\ fst (get_kline ts_code period "" d
              (snd (set_kline ts_code period klines d "" w)))
       = Ret (Some klines).
Proof.
  intros ts_code period d klines w.
  assert (E : _make_kline_key ts_code period d ""
              = _make_kline_key ts_code period "" d).
  { unfold _make_kline_key. simpl. now destruct (PyStr.truthy d). }
  split; [exact E|].
  unfold get_kline, set_kline, get_json, set_json. rewrite <- E.
  set (key := _make_kline_key ts_code period d "").
  destruct (Cache.set (store w) (clock w) key klines (Some (kline_ttl period)))
    as [b st] eqn:Es.
  cbn [snd store clock with_store].
  pose proof (kline_ttl_pos period) as Hp.
  pose proof (@get_after_set _ (store w) (clock w) key klines
                (kline_ttl period) (clock w)) as Hg.
  rewrite Es in Hg. cbn [snd] in Hg. rewrite Hg by lia. reflexivity.
Qed.

End CacheService.

(** ** The other read operations of [DataSourceManager] *)

Module ManagerExtra.

Import Kline Manager ManagerFacts.

Section Quotes.
(** A quote is a dictionary; its values play no part here. *)
Variable QV : Type.

Definition Quote : Type := PyDict.t QV.

(** [if quote:] on an optional dictionary *)
Definition quote_truthy (q : option Quote) : bool :=
  match q with
  | Some (_ :: _) => true
  | _ => false
  end.

(** What the three adapter calls of [_fetch_quote_from_source] yield. *)
Record QuoteAdapters : Type := {
  get_realtime_quote_eastmoney : string -> Outcome (option Quote);
  get_realtime_quote_sina : string -> Outcome (option Quote);
  tushare_get_realtime_quote : string -> Outcome (option Quote)
}.

Variable adapters : QuoteAdapters.

Definition quote_outcome (s : DataSource) (ts_code : string)
  : Outcome (option Quote) :=
  match s with
  | EASTMONEY => get_realtime_quote_eastmoney adapters ts_code
  | SINA => get_realtime_quote_sina adapters ts_code
  | TUSHARE => tushare_get_realtime_quote adapters ts_code
  end.

(** [_fetch_quote_from_source] *)
Definition _fetch_quote_from_source (source : DataSource) (ts_code : string)
  : M (option Quote) :=
  _ <- record_call source ;;
  fun w => (quote_outcome source ts_code, w).

(** One guarded attempt: [Some] is the early [return]. *)
Definition quote_attempt (s : DataSource) (ts_code : string) : M (option Quote) :=
  try_except
    (quote <- _fetch_quote_from_source s ts_code ;;
     if quote_truthy quote then ret quote else ret None)
    (fun _ => ret None).

Fixpoint quote_fallbacks (fallback_sources : list DataSource) (ts_code : string)
  : M (option Quote) :=
  match fallback_sources with
  | [] => ret None
  | fallback :: rest =>
      r <- quote_attempt fallback ts_code ;;
      match r with
      | Some q => ret (Some q)
      | None => quote_fallbacks rest ts_code
      end
  end.

(** [async def get_realtime_quote] *)
Definition get_realtime_quote (ts_code : string) (source : option DataSource)
  : M (option Quote) :=
  fun w0 =>
  let source := match source with Some s => s | None => _default_source w0 end in
  let fallback_sources := _get_fallback_sources source in
  (r <- quote_attempt source ts_code ;;
   match r with
   | Some q => ret (Some q)
   | None => quote_fallbacks fallback_sources ts_code
   end) w0.

Definition quote_failed (o : Outcome (option Quote)) : bool :=
  match o with
  | Ret q => negb (quote_truthy q)
  | Raise _ => true
  end.

Lemma quote_attempt_run s ts_code w :
  quote_attempt s ts_code w
  = (Ret (if quote_failed (quote_outcome s ts_code) then None
          else match quote_outcome s ts_code with
               | Ret q => q
               | Raise _ => None
               end), logged w [s]).
Proof.
  unfold quote_attempt, try_except, _fetch_quote_from_source, bind,
    record_call, ret. fold (logged w [s]).
  destruct (quote_outcome s ts_code) as [[[|kv q]|]|e]; reflexivity.
Qed.

Lemma quote_fallbacks_all_failed l ts_code w :
  (forall s, In s l -> quote_failed (quote_outcome s ts_code) = true) ->
  quote_fallbacks l ts_code w = (Ret None, logged w l).
Proof.
  revert w. induction l as [|s rest IH]; intros w H; simpl.
  - unfold ret. now rewrite logged_nil.
  - unfold bind at 1. rewrite quote_attempt_run.
    rewrite (H s (or_introl eq_refl)).
    rewrite IH by (intros; apply H; now right).
    now rewrite logged_app.
Qed.

Lemma quote_fallbacks_found pre s post q ts_code w :
  (forall t, In t pre -> quote_failed (quote_outcome t ts_code) = true) ->
  quote_outcome s ts_code = Ret (Some q) -> quote_truthy (Some q) = true ->
  quote_fallbacks (pre ++ s :: post) ts_code w
  = (Ret (Some q), logged w (pre ++ [s])).
Proof.
  intros Hpre Hs Hq. revert w. induction pre as [|t pre IH]; intros w; simpl.
  - unfold bind. rewrite quote_attempt_run. unfold quote_failed.
    rewrite Hs, Hq. reflexivity.
  - unfold bind at 1. rewrite quote_attempt_run.
    rewrite (Hpre t (or_introl eq_refl)).
    rewrite IH by (intros; apply Hpre; now right).
    now rewrite logged_app.
Qed.

Lemma get_realtime_quote_as_chain ts_code source w :
  get_realtime_quote ts_code source w
  = quote_fallbacks
      (match source with Some s => s | None => _default_source w end
       :: _get_fallback_sources
            (match source with Some s => s | None => _default_source w end))
      ts_code w.
Proof.
  unfold get_realtime_quote. cbn [quote_fallbacks]. unfold bind.
  destruct (quote_attempt _ ts_code w) as [[[q|]|e] w']; reflexivity.
Qed.

End Quotes.

Section StockLists.
(** An entry of a stock list is a dictionary; only the list matters here. *)
Variable Stock : Type.

Record ListAdapters : Type := {
  get_stock_list_eastmoney : string -> Outcome (list Stock);
  tushare_get_stock_list : string -> Outcome (list Stock)
}.

Variable adapters : ListAdapters.

(** The call made for a source: both AKShare sources use the eastmoney
    list. *)
Definition list_outcome (s : DataSource) (keyword : string)
  : Outcome (list Stock) :=
  match s with
  | EASTMONEY | SINA => get_stock_list_eastmoney adapters keyword
  | TUSHARE => tushare_get_stock_list adapters keyword
  end.

Definition list_attempt (s : DataSource) (keyword : string)
  : M (option (list Stock)) :=
  try_except
    (_ <- record_call s ;;
     result <- (fun w => (list_outcome s keyword, w)) ;;
     if nonempty result then ret (Some result) else ret None)
    (fun _ => ret None).

Fixpoint list_fallbacks (fallback_sources : list DataSource) (keyword : string)
  : M (list Stock) :=
  match fallback_sources with
  | [] => ret []
  | fallback :: rest =>
      r <- list_attempt fallback keyword ;;
      match r with
      | Some result => ret result
      | None => list_fallbacks rest keyword
      end
  end.

(** [async def get_stock_list] *)
Definition get_stock_list (keyword : string) (source : option DataSource)
  : M (list Stock) :=
  fun w0 =>
  let source := match source with Some s => s | None => _default_source w0 end in
  let fallback_sources := _get_fallback_sources source in
  (r <- list_attempt source keyword ;;
   match r with
   | Some result => ret result
   | None => list_fallbacks fallback_sources keyword
   end) w0.

Definition good_list (o : Outcome (list Stock)) : list Stock :=
  match o with
  | Ret l => l
  | Raise _ => []
  end.

Lemma list_attempt_run s keyword w :
  list_attempt s keyword w
  = (Ret (match good_list (list_outcome s keyword) with
          | [] => None
          | x :: l => Some (x :: l)
          end), logged w [s]).
Proof.
  unfold list_attempt, try_except, bind, record_call, ret.
  fold (logged w [s]).
  destruct (list_outcome s keyword) as [[|x l]|e]; reflexivity.
Qed.

(** The first non-empty list along a chain of sources. *)
Fixpoint first_list (chain : list DataSource) (keyword : string) : list Stock :=
  match chain with
  | [] => []
  | s :: rest =>
      match good_list (list_outcome s keyword) with
      | [] => first_list rest keyword
      | x :: l => x :: l
      end
  end.

Lemma list_fallbacks_run l keyword w :
  fst (list_fallbacks l keyword w) = Ret (first_list l keyword).
Proof.
  revert w. induction l as [|s rest IH]; intros w; simpl; [reflexivity|].
  unfold bind. rewrite list_attempt_run.
  destruct (good_list (list_outcome s keyword)); [apply IH | reflexivity].
Qed.

Lemma get_stock_list_run keyword source w :
  fst (get_stock_list keyword source w)
  = Ret (first_list
           (match source with Some s => s | None => _default_source w end
            :: _get_fallback_sources
                 (match source with Some s => s | None => _default_source w end))
           keyword).
Proof.
  unfold get_stock_list. cbn [first_list]. unfold bind.
  rewrite list_attempt_run.
  destruct (good_list (list_outcome _ keyword)); [apply list_fallbacks_run|].
  reflexivity.
Qed.

End StockLists.

(** [DataSource(source)]: the member with that value, or [ValueError]. *)
Definition DataSource_of_string (source : string) : option DataSource :=
  if String.eqb source "eastmoney" then Some EASTMONEY
  else if String.eqb source "sina" then Some SINA
  else if String.eqb source "tushare" then Some TUSHARE
  else None.

(** [def get_default_source(self)] *)
Definition get_default_source : M string :=
  fun w => (Ret (value (_default_source w)), w).

Definition invalid_source_detail (source : string) : string :=
  ("无效的数据源: " ++ source)%string.

Definition default_set_message (source : string) : string :=
  ("默认数据源已设置为: " ++ source)%string.

(** [@router.post("/source/default")] of [routers/data_sources.py] *)
Definition set_default_source_route (source : string) : M string :=
  match DataSource_of_string source with
  | Some src =>
      _ <- set_default_source src ;;
      ret (default_set_message source)
  | None => raise (HTTPException 400 (invalid_source_detail source))
  end.

End ManagerExtra.

Section ManagerExtraClaims.

Import Kline Manager ManagerFacts ManagerExtra.

(** X6: [get_realtime_quote] asks the requested (or default) source and then
    the remaining sources in priority order, with no override by period; it
    returns the first quote that is a non-empty dictionary and asks nobody
    after it, and returns [None], without raising, when every source raises
    or gives [None] or an empty dictionary. *)
Theorem X6_quote_failover :
  forall (QV : Type) (adapters : QuoteAdapters QV) ts_code source w,
    (forall pre s post q,
        (match source with Some s0 => s0 | None => _default_source w end)
        :: _get_fallback_sources
             (match source with Some s0 => s0 | None => _default_source w end)
        = pre ++ s :: post ->
        (forall t, In t pre ->
           quote_failed (quote_outcome adapters t ts_code) = true) ->
        quote_outcome adapters s ts_code = Ret (Some q) ->
        quote_truthy (Some q) = true ->
        get_realtime_quote adapters ts_code source w
        = (Ret (Some q), logged w (pre ++ [s])))
    /\ ((forall s, quote_failed (quote_outcome adapters s ts_code) = true) ->
        get_realtime_quote adapters ts_code source w
        = (Ret None,
           logged w
             ((match source with Some s0 => s0 | None => _default_source w end)
              :: _get_fallback_sources
                   (match source with
                    | Some s0 => s0
                    | None => _default_source w
                    end)))).
Proof.
  intros QV adapters ts_code source w. split.
  - intros pre s post q Hc Hpre Hs Hq.
    rewrite get_realtime_quote_as_chain, Hc.
    now apply quote_fallbacks_found.
  - intros H. rewrite get_realtime_quote_as_chain.
    apply quote_fallbacks_all_failed. intros s _. apply H.
Qed.

(** Eastmoney raises, sina has no quote, tushare answers. *)
Definition tushare_quote_adapters : QuoteAdapters string :=
  {| get_realtime_quote_eastmoney := fun _ => Raise (Exception "timeout");
     get_realtime_quote_sina := fun _ => Ret None;
     tushare_get_realtime_quote := fun c => Ret (Some [("ts_code", c)]) |}.

Lemma X6_witness :
  get_realtime_quote tushare_quote_adapters "000001.SZ" None
    (fresh_world EASTMONEY)
  = (Ret (Some [("ts_code", "000001.SZ")]),
     logged (fresh_world EASTMONEY) ([EASTMONEY; SINA] ++ [TUSHARE])).
Proof.
  apply (proj1 (@X6_quote_failover string tushare_quote_adapters "000001.SZ"
                  None (fresh_world EASTMONEY))
           [EASTMONEY; SINA] TUSHARE [] [("ts_code", "000001.SZ")]).
  - reflexivity.
  - intros t [<-|[<-|[]]]; reflexivity.
  - reflexivity.
  - reflexivity.
Defined.

(** X7: [get_stock_list] never raises and returns the first non-empty list
    along its chain of sources.  Both AKShare sources read the eastmoney
    list, so a request for sina gets the same list as one for eastmoney; the
    result is empty exactly when the eastmoney list and the tushare list
    both fail. *)
Theorem X7_stock_list_sources :
  forall (Stock : Type) (adapters : ListAdapters Stock) keyword w,
    let em := good_list (get_stock_list_eastmoney adapters keyword) in
    let ts := good_list (tushare_get_stock_list adapters keyword) in
    fst (get_stock_list adapters keyword (Some SINA) w)
    = fst (get_stock_list adapters keyword (Some EASTMONEY) w)
    /\ fst (get_stock_list adapters keyword (Some EASTMONEY) w)
       = Ret (if nonempty em then em else ts)
    /\ fst (get_stock_list adapters keyword (Some TUSHARE) w)
       = Ret (if nonempty ts then ts else em)
    /\ (forall source,
          exists l, fst (get_stock_list adapters keyword source w) = Ret l
                    /\ (l = [] <-> em = [] /\ ts = [])).
Proof.
  intros Stock adapters keyword w em ts.
  assert (Hem : fst (get_stock_list adapters keyword (Some EASTMONEY) w)
                = Ret (if nonempty em then em else ts)).
  { rewrite get_stock_list_run. unfold first_list, list_outcome.
    simpl. fold em ts. destruct em, ts; reflexivity. }
  assert (Hsi : fst (get_stock_list adapters keyword (Some SINA) w)
                = Ret (if nonempty em then em else ts)).
  { rewrite get_stock_list_run. unfold first_list, list_outcome.
    simpl. fold em ts. destruct em, ts; reflexivity. }
  assert (Hts : fst (get_stock_list adapters keyword (Some TUSHARE) w)
                = Ret (if nonempty ts then ts else em)).
  { rewrite get_stock_list_run. unfold first_list, list_outcome.
    simpl. fold em ts. destruct em, ts; reflexivity. }
  split; [congruence|]. split; [exact Hem|]. split; [exact Hts|].
  intros source.
  assert (Hany : forall s,
             exists l, fst (get_stock_list adapters keyword (Some s) w) = Ret l
                       /\ (l = [] <-> em = [] /\ ts = [])).
  { intros s. destruct s; eexists; (split; [eassumption|]);
      destruct em, ts; simpl; intuition congruence. }
  destruct source as [s|].
  - apply Hany.
  - destruct (Hany (_default_source w)) as [l [E Hl]].
    exists l. split; [|exact Hl].
    rewrite get_stock_list_run in *. exact E.
Qed.

(** X8: the route that sets the default source accepts exactly the three
    source names; after it accepts a name, [get_default_source] returns that
    name and a kline request without a source and with a period that is not a
    minute period goes to that source first.  Any other name is rejected with
    status 400 and the default stays as it was. *)
Theorem X8_default_source_route :
  forall name w,
    (forall s, DataSource_of_string (value s) = Some s)
    /\ (forall s, DataSource_of_string name = Some s ->
          name = value s
          /\ exists w1,
               set_default_source_route name w
               = (Ret (default_set_message name), w1)
               /\ fst (get_default_source w1) = Ret name
               /\ forall adapters ts_code period start_date end_date limit,
                    is_minute_period period = false ->
                    exists r rest w2,
                      get_kline adapters ts_code period start_date end_date
                        None limit w1 = (Ret r, w2)
                      /\ calls w2 = calls w1 ++ s :: rest)
    /\ (DataSource_of_string name = None ->
        set_default_source_route name w
        = (Raise (HTTPException 400 (invalid_source_detail name)), w)).
Proof.
  intros name w. split; [intros s; now destruct s|]. split.
  - intros s Hs.
    assert (Hn : name = value s).
    { unfold DataSource_of_string in Hs.
      destruct (String.eqb_spec name "eastmoney");
        [injection Hs as <-; assumption|].
      destruct (String.eqb_spec name "sina");
        [injection Hs as <-; assumption|].
      destruct (String.eqb_spec name "tushare");
        [injection Hs as <-; assumption | discriminate]. }
    split; [exact Hn|].
    unfold set_default_source_route. rewrite Hs.
    unfold bind, set_default_source, ret. eexists. split; [reflexivity|].
    split; [simpl; now rewrite Hn|].
    intros adapters ts_code period start_date end_date limit Hp.
    rewrite get_kline_run. cbv zeta. unfold resolve_source. rewrite Hp.
    cbn [_default_source].
    destruct (first_success_head
                (fun t => provider_outcome adapters t ts_code period
                            start_date end_date limit)
                s (_get_fallback_sources s)) as [rest Hr].
    eexists _, rest, _. split; [reflexivity|].
    unfold logged. cbn [calls]. now rewrite Hr.
  - intros Hn. unfold set_default_source_route. now rewrite Hn.
Qed.

Lemma X8_witness :
  DataSource_of_string "sina" = Some SINA
  /\ "sina" = value SINA
  /\ exists w1,
       set_default_source_route "sina" (fresh_world EASTMONEY)
       = (Ret (default_set_message "sina"), w1)
       /\ fst (get_default_source w1) = Ret "sina"
       /\ forall adapters ts_code period start_date end_date limit,
            is_minute_period period = false ->
            exists r rest w2,
              get_kline adapters ts_code period start_date end_date None
                limit w1 = (Ret r, w2)
              /\ calls w2 = calls w1 ++ SINA :: rest.
Proof.
  split; [reflexivity|].
  exact (proj1 (proj2 (X8_default_source_route "sina" (fresh_world EASTMONEY)))
           SINA eq_refl).
Defined.

End ManagerExtraClaims.

(** ** More of [services/akshare_service.py] and its route *)

Module AkshareExtra.

Import Kline Akshare.

(** [code, market = ts_code.split(".")]: anything but two parts is a
    [ValueError]. *)
Definition split_ts_code (ts_code : string) : Outcome (string * string) :=
  match PyStr.split "." ts_code with
  | [code; market] => Ret (code, market)
  | _ => Raise (Exception "not enough or too many values to unpack")
  end.

(** [def get_eastmoney_secid(ts_code)] *)
Definition get_eastmoney_secid (ts_code : string) : Outcome string :=
  match split_ts_code ts_code with
  | Ret (code, market) =>
      if String.eqb market "SH" then Ret ("1." ++ code)%string
      else if String.eqb market "SZ" then Ret ("0." ++ code)%string
      else if String.eqb market "BJ" then Ret ("0." ++ code)%string
      else Ret ("0." ++ code)%string
  | Raise e => Raise e
  end.

(** [def get_sina_code(ts_code)] *)
Definition get_sina_code (ts_code : string) : Outcome string :=
  match split_ts_code ts_code with
  | Ret (code, market) =>
      if String.eqb market "SH" then Ret ("sh" ++ code)%string
      else if String.eqb market "SZ" then Ret ("sz" ++ code)%string
      else Ret ("sz" ++ code)%string
  | Raise e => Raise e
  end.

(** The date filter of the route [GET /api/akshare/kline]:
    [[k for k in klines if k["date"] >= start_date]] and the same for the
    end of the range, each under [if start_date:]. *)
Definition route_date_filter (start_date end_date : option string)
  (klines : list Bar) : list Bar :=
  let klines :=
    match start_date with
    | Some s => if PyStr.truthy s
                then filter (fun k => String.leb s (date k)) klines
                else klines
    | None => klines
    end in
  match end_date with
  | Some e => if PyStr.truthy e
              then filter (fun k => String.leb (date k) e) klines
              else klines
  | None => klines
  end.

(** The string has only digits and hyphens. *)
Fixpoint digits_and_hyphens (s : string) : bool :=
  match s with
  | EmptyString => true
  | String a r => (PyStr.is_digit a || Ascii.eqb a "-") && digits_and_hyphens r
  end.

Definition dated (o : option string) : bool :=
  match o with
  | Some s => digits_and_hyphens s
  | None => true
  end.

Lemma split_no_sep sep s :
  PyStr.contains_char sep s = false -> PyStr.split sep s = [s].
Proof.
  induction s as [|a r IH]; simpl; [reflexivity|].
  destruct (Ascii.eqb a sep); simpl; [discriminate|].
  intros H. now rewrite IH.
Qed.

Lemma split_app sep a b :
  PyStr.contains_char sep a = false ->
  PyStr.split sep (a ++ String sep b)%string = a :: PyStr.split sep b.
Proof.
  induction a as [|c r IH]; simpl.
  - intros _. now rewrite Ascii.eqb_refl.
  - destruct (Ascii.eqb c sep); simpl; [discriminate|].
    intros H. now rewrite IH.
Qed.

Lemma remove_hyphens_digits s :
  digits_and_hyphens s = true ->
  PyStr.only_digits (PyStr.remove_char "-" s) = true.
Proof.
  induction s as [|a r IH]; simpl; [reflexivity|].
  intros H. apply andb_true_iff in H. destruct H as [Ha Hr].
  destruct (Ascii.eqb a "-") eqn:E; [auto|].
  simpl. rewrite orb_false_r in Ha. rewrite Ha. simpl. auto.
Qed.

Lemma no_hyphen_digits s :
  digits_and_hyphens s = true -> PyStr.contains_char "-" s = false ->
  PyStr.only_digits s = true.
Proof.
  induction s as [|a r IH]; simpl; [reflexivity|].
  intros H Hc. apply andb_true_iff in H. destruct H as [Ha Hr].
  apply orb_false_iff in Hc. destruct Hc as [Hc1 Hc2].
  rewrite Hc1, orb_false_r in Ha. rewrite Ha. simpl. auto.
Qed.

Lemma str_or_dated a b :
  dated a = true -> digits_and_hyphens b = true ->
  digits_and_hyphens (str_or a b) = true.
Proof.
  intros Ha Hb. unfold str_or. destruct a as [s|]; [|assumption].
  destruct (PyStr.truthy s); assumption.
Qed.

Section EastmoneyFacts.
Variable py_float : string -> option R.

Lemma obind_ret {A B} (o : Outcome A) (k : A -> Outcome B) b :
  obind o k = Ret b -> exists a, o = Ret a /\ k a = Ret b.
Proof. destruct o as [a|e]; simpl; [eauto | discriminate]. Qed.

(** The date of the bar made from a parsed line is the line's first field
    without its hyphens. *)
Lemma raw_of_line_date line raw :
  raw_of_line py_float line = Ret (Some raw) ->
  raw_trade_date raw = None
  /\ raw_date raw = Some (PyStr.remove_char "-" (nth 0 (PyStr.split "," line) "")).
Proof.
  unfold raw_of_line. destruct (7 <=? _)%nat; [|discriminate].
  intros H.
  repeat (apply obind_ret in H; destruct H as [? [_ H]]).
  injection H as <-. split; reflexivity.
Qed.

Lemma normalize_parsed_date line raw :
  raw_of_line py_float line = Ret (Some raw) ->
  date (normalize_kline_data raw "eastmoney") = PyStr.or_empty (raw_date raw).
Proof.
  intros H. destruct (raw_of_line_date _ H) as [Ht Hd].
  unfold normalize_kline_data. cbn [date]. rewrite Ht, Hd. cbn [str_or PyStr.or_empty].
  set (d := PyStr.remove_char "-" _).
  assert (E : (if PyStr.truthy d then d else "") = d) by now destruct d.
  rewrite E. unfold d. now rewrite remove_char_gone.
Qed.

(** A bar is within the requested range as the adapter's loop reads it. *)
Definition in_range (start_date end_date : option string) (k : Bar) : bool :=
  negb (before_start start_date (date k)) && negb (after_end end_date (date k)).

Lemma collect_klines_keeps (P : Bar -> Prop) lines start_date end_date acc out :
  (forall line raw,
      raw_of_line py_float line = Ret (Some raw) ->
      before_start start_date (PyStr.or_empty (raw_date raw)) = false ->
      after_end end_date (PyStr.or_empty (raw_date raw)) = false ->
      P (normalize_kline_data raw "eastmoney")) ->
  Forall P acc ->
  collect_klines py_float lines start_date end_date acc = Ret out ->
  Forall P out
  /\ (List.length out <= List.length acc + List.length lines)%nat.
Proof.
  intros HP. revert acc.
  induction lines as [|line rest IH]; intros acc Hacc H; simpl in H.
  - injection H as <-. split; [assumption | lia].
  - apply obind_ret in H. destruct H as [raw [Hraw H]].
    destruct raw as [raw|].
    + destruct (before_start start_date (PyStr.or_empty (raw_date raw))) eqn:Eb.
      { destruct (IH acc Hacc H). split; [assumption | simpl; lia]. }
      destruct (after_end end_date (PyStr.or_empty (raw_date raw))) eqn:Ea.
      { destruct (IH acc Hacc H). split; [assumption | simpl; lia]. }
      destruct (IH _ (proj2 (Forall_app _ _ _)
                        (conj Hacc (Forall_cons _ (HP _ _ Hraw Eb Ea)
                                      (Forall_nil _)))) H) as [Hf Hl].
      split; [assumption|]. rewrite length_app in Hl. simpl in *. lia.
    + destruct (IH acc Hacc H). split; [assumption | simpl; lia].
Qed.

Lemma collect_klines_raises lines start_date end_date acc line e :
  In line lines -> raw_of_line py_float line = Raise e ->
  exists e', collect_klines py_float lines start_date end_date acc = Raise e'.
Proof.
  revert acc. induction lines as [|l rest IH]; intros acc Hin Hr; [destruct Hin|].
  simpl. destruct Hin as [->|Hin].
  - rewrite Hr. simpl. eauto.
  - destruct (raw_of_line py_float l) as [[raw|]|e0]; simpl; eauto.
    destruct (before_start _ _); [eauto|]. destruct (after_end _ _); eauto.
Qed.

Lemma string_leb_of_not_ltb a b : String.ltb a b = false -> String.leb b a = true.
Proof.
  unfold String.ltb, String.leb. rewrite (String.compare_antisym b a).
  destruct (String.compare a b); simpl; congruence.
Qed.

Lemma in_range_passes_route start_date end_date klines :
  Forall (fun k => in_range start_date end_date k = true) klines ->
  route_date_filter start_date end_date klines = klines.
Proof.
  intros H. unfold route_date_filter.
  assert (H1 : match start_date with
               | Some s => if PyStr.truthy s
                           then filter (fun k => String.leb s (date k)) klines
                           else klines
               | None => klines
               end = klines).
  { destruct start_date as [s|]; [|reflexivity].
    destruct (PyStr.truthy s) eqn:Es; [|reflexivity].
    apply forallb_filter_id, forallb_forall. intros k Hk.
    rewrite Forall_forall in H. specialize (H k Hk).
    unfold in_range, before_start in H. rewrite Es in H.
    apply andb_true_iff in H. destruct H as [H _].
    apply negb_true_iff in H. simpl in H. now apply string_leb_of_not_ltb. }
  rewrite H1.
  destruct end_date as [e|]; [|reflexivity].
  destruct (PyStr.truthy e) eqn:Ee; [|reflexivity].
  apply forallb_filter_id, forallb_forall. intros k Hk.
  rewrite Forall_forall in H. specialize (H k Hk).
  unfold in_range, after_end in H. rewrite Ee in H.
  apply andb_true_iff in H. destruct H as [_ H].
  apply negb_true_iff in H. simpl in H. now apply string_leb_of_not_ltb.
Qed.

End EastmoneyFacts.

End AkshareExtra.

Section AkshareExtraClaims.

Import Kline Akshare AkshareExtra.

(** X9: for a symbol [code.market] with no further dot, the eastmoney
    secid is "1." followed by the code when the market is SH and "0."
    followed by the code for every other market, and the sina code is "sh" or
    "sz" followed by the code in the same way; a symbol without a dot makes
    both functions raise. *)
Theorem X9_symbol_translation :
  (forall code market,
      PyStr.contains_char "." code = false ->
      PyStr.contains_char "." market = false ->
      get_eastmoney_secid (code ++ String "." market)%string
      = Ret ((if String.eqb market "SH" then "1." else "0.") ++ code)%string
      /\ get_sina_code (code ++ String "." market)%string
         = Ret ((if String.eqb market "SH" then "sh" else "sz") ++ code)%string)
  /\ (forall ts_code,
        PyStr.contains_char "." ts_code = false ->
        (exists e, get_eastmoney_secid ts_code = Raise e)
        /\ (exists e, get_sina_code ts_code = Raise e)).
Proof.
  split.
  - intros code market Hc Hm.
    unfold get_eastmoney_secid, get_sina_code, split_ts_code.
    rewrite split_app, split_no_sep by assumption.
    destruct (String.eqb market "SH"); [split; reflexivity|].
    destruct (String.eqb market "SZ"); [split; reflexivity|].
    destruct (String.eqb market "BJ"); split; reflexivity.
  - intros ts_code H.
    unfold get_eastmoney_secid, get_sina_code, split_ts_code.
    rewrite split_no_sep by assumption. split; eauto.
Qed.

Lemma X9_witness :
  (PyStr.contains_char "." "600519" = false
   /\ PyStr.contains_char "." "SH" = false
   /\ PyStr.contains_char "." "000001" = false)
  /\ (get_eastmoney_secid "600519.SH" = Ret "1.600519"
      /\ get_sina_code "600519.SH" = Ret "sh600519")
  /\ (exists e, get_eastmoney_secid "000001" = Raise e)
  /\ (exists e, get_sina_code "000001" = Raise e).
Proof.
  split; [repeat split|]. split.
  - exact (proj1 X9_symbol_translation "600519" "SH" eq_refl eq_refl).
  - exact (proj2 X9_symbol_translation "000001" eq_refl).
Defined.

(** X10: [normalize_kline_data] always gives [trade_date] and [date] the
    same value, [vol] and [volume] the same value and the given source tag;
    when the dates of the raw dictionary are made of digits and hyphens (a
    day written 2024-01-02 or 20240102), the date of the bar has digits
    only. *)
Theorem X10_normalize_daily_dates :
  forall kline src,
    dated (raw_trade_date kline) = true ->
    dated (raw_date kline) = true ->
    PyStr.only_digits (date (normalize_kline_data kline src)) = true
    /\ trade_date (normalize_kline_data kline src)
       = date (normalize_kline_data kline src)
    /\ vol (normalize_kline_data kline src)
       = volume (normalize_kline_data kline src)
    /\ source (normalize_kline_data kline src) = src.
Proof.
  intros kline src Ht Hd. split; [|repeat split].
  unfold normalize_kline_data. cbn [date].
  set (d := str_or (raw_trade_date kline) (str_or (raw_date kline) "")).
  assert (Hdd : digits_and_hyphens d = true).
  { unfold d. apply str_or_dated; [assumption|].
    now apply str_or_dated. }
  destruct (PyStr.contains_char "-" d) eqn:E.
  - now apply remove_hyphens_digits.
  - now apply no_hyphen_digits.
Qed.

Definition hyphen_day : RawKline :=
  {| raw_trade_date := None; raw_date := Some "2024-01-02";
     raw_open := Some 10%R; raw_high := None; raw_low := None;
     raw_close := Some 11%R; raw_vol := None; raw_volume := Some 5%R;
     raw_amount := None; raw_pct_chg := None |}.

Lemma X10_witness :
  dated (raw_trade_date hyphen_day) = true
  /\ dated (raw_date hyphen_day) = true
  /\ PyStr.only_digits (date (normalize_kline_data hyphen_day "sina")) = true
  /\ trade_date (normalize_kline_data hyphen_day "sina")
     = date (normalize_kline_data hyphen_day "sina")
  /\ vol (normalize_kline_data hyphen_day "sina")
     = volume (normalize_kline_data hyphen_day "sina")
  /\ source (normalize_kline_data hyphen_day "sina") = "sina".
Proof.
  split; [reflexivity|]. split; [reflexivity|].
  exact (@X10_normalize_daily_dates hyphen_day "sina" eq_refl eq_refl).
Defined.

(** X11: every bar [get_kline_eastmoney] builds from an upstream response
    is tagged "eastmoney" and has a date that is neither before the requested
    start nor after the requested end (as strings); there are at most as many
    bars as lines; and the date filter that the AKShare kline route applies
    afterwards with the same bounds removes none of them. *)
Theorem X11_eastmoney_bars_in_range :
  forall py_float lines start_date end_date,
    let bars := eastmoney_bars py_float lines start_date end_date in
    Forall (fun k => source k = "eastmoney"
                     /\ before_start start_date (date k) = false
                     /\ after_end end_date (date k) = false) bars
    /\ (List.length bars <= List.length lines)%nat
    /\ route_date_filter start_date end_date bars = bars.
Proof.
  intros py_float lines start_date end_date bars.
  assert (H : Forall (fun k => source k = "eastmoney"
                               /\ in_range start_date end_date k = true) bars
              /\ (List.length bars <= List.length lines)%nat).
  { unfold bars, eastmoney_bars. destruct lines as [|l0 rest]; [split; auto|].
    destruct (collect_klines py_float (l0 :: rest) start_date end_date [])
      as [out|e] eqn:E; [|split; [constructor | simpl; lia]].
    apply (@collect_klines_keeps py_float
             (fun k => source k = "eastmoney"
                       /\ in_range start_date end_date k = true)
             (l0 :: rest) start_date end_date [] out); [|constructor|exact E].
    intros line raw Hraw Hb Ha. split; [reflexivity|].
    unfold in_range. rewrite (normalize_parsed_date _ _ Hraw).
    now rewrite Hb, Ha. }
  destruct H as [Hf Hl]. split; [|split; [exact Hl|]].
  - eapply Forall_impl; [|exact Hf]. intros k [Hs Hr]. split; [exact Hs|].
    unfold in_range in Hr. apply andb_true_iff in Hr. destruct Hr as [H1 H2].
    now rewrite negb_true_iff in H1, H2.
  - apply in_range_passes_route.
    eapply Forall_impl; [|exact Hf]. now intros k [_ Hr].
Qed.

(** X12: the loop of [get_kline_eastmoney] has one [try] around all lines:
    when a single line with at least seven fields has a price, volume or
    amount field that [float] rejects, the adapter returns no bar at all,
    whatever the other lines hold. *)
Theorem X12_one_bad_line_empties_result :
  forall py_float lines start_date end_date line i,
    In line lines ->
    (7 <= List.length (PyStr.split "," line))%nat ->
    (1 <= i <= 6)%nat ->
    py_float (nth i (PyStr.split "," line) "") = None ->
    eastmoney_bars py_float lines start_date end_date = [].
Proof.
  intros py_float lines start_date end_date line i Hin H7 Hi Hbad.
  assert (Hr : exists e, raw_of_line py_float line = Raise e).
  { unfold raw_of_line. apply Nat.leb_le in H7. rewrite H7.
    unfold float_of.
    destruct i as [|[|[|[|[|[|[|i]]]]]]]; try lia;
      repeat match goal with
             | |- context [py_float ?x] =>
                 destruct (py_float x) eqn:?; simpl
             end; eauto; congruence. }
  destruct Hr as [e Hr].
  destruct (@collect_klines_raises py_float lines start_date end_date [] line e
              Hin Hr) as [e' He'].
  unfold eastmoney_bars. rewrite He'. now destruct lines.
Qed.

Lemma X12_witness :
  In "2024-01-03,10.0,oops,10.2,9.9,1000,10000"
     ["2024-01-02,10.0,10.1,10.2,9.9,1000,10000";
      "2024-01-03,10.0,oops,10.2,9.9,1000,10000"]
  /\ (7 <= List.length
             (PyStr.split "," "2024-01-03,10.0,oops,10.2,9.9,1000,10000"))%nat
  /\ (1 <= 2 <= 6)%nat
  /\ PyStr.decimal_float
       (nth 2 (PyStr.split "," "2024-01-03,10.0,oops,10.2,9.9,1000,10000") "")
     = None
  /\ eastmoney_bars PyStr.decimal_float
       ["2024-01-02,10.0,10.1,10.2,9.9,1000,10000";
        "2024-01-03,10.0,oops,10.2,9.9,1000,10000"] None None = [].
Proof.
  assert (H1 : In "2024-01-03,10.0,oops,10.2,9.9,1000,10000"
                 ["2024-01-02,10.0,10.1,10.2,9.9,1000,10000";
                  "2024-01-03,10.0,oops,10.2,9.9,1000,10000"])
    by (right; left; reflexivity).
  assert (H2 : (7 <= List.length
                  (PyStr.split "," "2024-01-03,10.0,oops,10.2,9.9,1000,10000"))%nat)
    by (vm_compute; lia).
  assert (H3 : (1 <= 2 <= 6)%nat) by lia.
  assert (H4 : PyStr.decimal_float
                 (nth 2 (PyStr.split ","
                           "2024-01-03,10.0,oops,10.2,9.9,1000,10000") "")
               = None) by (vm_compute; reflexivity).
  split; [exact H1|]. split; [exact H2|]. split; [exact H3|].
  split; [exact H4|].
  exact (@X12_one_bad_line_empties_result PyStr.decimal_float _ None None _ 2
           H1 H2 H3 H4).
Defined.

End AkshareExtraClaims.


(** ** The order of strings, as [<] and [<=] compare them *)

Module StrOrder.

Lemma leb_trans a b c :
  String.leb a b = true -> String.leb b c = true -> String.leb a c = true.
Proof.
  unfold String.leb. revert b c.
  induction a as [|x a IH]; intros [|y b] [|z c];
    cbn [String.compare]; try easy.
  unfold Ascii.compare.
  destruct (N.compare_spec (N_of_ascii x) (N_of_ascii y));
    destruct (N.compare_spec (N_of_ascii y) (N_of_ascii z));
    destruct (N.compare_spec (N_of_ascii x) (N_of_ascii z));
    try easy; try lia.
  apply IH.
Qed.

Lemma ltb_leb a b : String.ltb a b = true -> String.leb a b = true.
Proof. unfold String.ltb, String.leb. now destruct (String.compare a b). Qed.

Lemma not_ltb_leb a b : String.ltb a b = false -> String.leb b a = true.
Proof.
  unfold String.ltb, String.leb. rewrite (String.compare_antisym b a).
  destruct (String.compare a b); simpl; congruence.
Qed.

End StrOrder.

(** ** More of [services/kline_storage.py] *)

Module StorageExtra.

Import Kline Manager ManagerFacts Storage StorageFacts.
Open Scope nat_scope.

(** The process state at a later clock reading. *)
Definition at_clock (w : World) (t : Z) : World :=
  {| _default_source := _default_source w;
     store := store w;
     clock := t;
     calls := calls w |}.

(** [sorted(data, key=lambda x: x.get("trade_date", ...), reverse=True)]:
    a stable sort, newest first; bars with the same date keep their order. *)
Fixpoint insert_desc (x : Bar) (l : list Bar) : list Bar :=
  match l with
  | [] => [x]
  | y :: r =>
      if String.ltb (trade_date x) (trade_date y)
      then y :: insert_desc x r
      else x :: y :: r
  end.

Definition sorted_desc (data : list Bar) : list Bar :=
  fold_right insert_desc [] data.

(** [xs[:count]] for an integer [count] *)
Definition py_prefix {A} (count : Z) (xs : list A) : list A :=
  if (count <? 0)%Z
  then firstn (List.length xs - Z.to_nat (- count)) xs
  else firstn (Z.to_nat count) xs.

Section WithAdapters.
Variable adapters : Adapters.

(** [async def get_latest_kline] *)
Definition get_latest_kline (ts_code period source : string) (count : Z)
  : M (list Bar) :=
  result <- get_kline_with_storage adapters ts_code period None None source
              count ;;
  let data := r_data result in
  if nonempty data then ret (py_prefix count (sorted_desc data))
  else ret [].

End WithAdapters.

Section OverManager.

(** [data_source_manager.get_kline] as [get_kline_with_storage] meets it:
    a call that may raise and may change the process state.  The providers
    behind it keep entries of their own in the same cache service, which
    they read (a read drops an expired entry) and write. *)
Variable manager_get_kline :
  string -> string -> option string -> option string -> option DataSource -> Z
  -> M Result.

(** [async def get_kline_with_storage], for any such manager. *)
Definition get_kline_with_storage_over (ts_code period : string)
  (start_date end_date : option string) (source : string) (limit : Z)
  : M Result :=
  let key := cache_key ts_code period source start_date end_date limit in
  cached <- _get_from_cache key ;;
  match cached with
  | Some l =>
      ret {| r_ts_code := ts_code; r_source := source; r_period := period;
             r_data := l; r_error := None; r_from_cache := Some true |}
  | None =>
      result <- manager_get_kline ts_code period start_date end_date
                  (source_enum source) limit ;;
      if nonempty (r_data result) then
        _ <- _set_to_cache key (r_data result) (_get_cache_ttl period) ;;
        ret {| r_ts_code := r_ts_code result; r_source := r_source result;
               r_period := r_period result; r_data := r_data result;
               r_error := r_error result; r_from_cache := Some false |}
      else ret result
  end.

End OverManager.

(** The key of the eastmoney provider's own entry for a request. *)
Definition provider_key : string := "akshare_kline_em:000001.SZ:daily:::500".

(** A manager whose provider looks up its own entry in the shared cache
    (which drops the entry when it has expired) and then has no data. *)
Definition reading_manager (ts_code period : string)
  (start_date end_date : option string) (source : option DataSource)
  (limit : Z) : M Result :=
  fun w =>
    (Ret {| r_ts_code := ts_code; r_source := "eastmoney"; r_period := period;
            r_data := []; r_error := Some all_failed_message;
            r_from_cache := None |},
     with_store w (snd (Cache.get (store w) (clock w) provider_key))).

(** A process whose cache holds only the provider's entry, written at time 0
    for 60 seconds and looked at at time 100. *)
Definition stale_world : World :=
  {| _default_source := EASTMONEY;
     store := snd (Cache.set (Cache.init 2000) 0%Z provider_key
                     [sample_bar "eastmoney"] (Some 60%Z));
     clock := 100%Z;
     calls := [] |}.

Definition newer_first (a b : Bar) : Prop :=
  String.leb (trade_date b) (trade_date a) = true.

Lemma insert_desc_perm x l : Permutation (x :: l) (insert_desc x l).
Proof.
  induction l as [|y r IH]; simpl; [apply Permutation_refl|].
  destruct (String.ltb (trade_date x) (trade_date y)).
  - eapply perm_trans; [apply perm_swap|]. now apply perm_skip.
  - apply Permutation_refl.
Qed.

Lemma sorted_desc_perm data : Permutation data (sorted_desc data).
Proof.
  induction data as [|x r IH]; simpl; [constructor|].
  eapply perm_trans; [apply perm_skip, IH | apply insert_desc_perm].
Qed.

Lemma insert_desc_sorted x l :
  StronglySorted newer_first l -> StronglySorted newer_first (insert_desc x l).
Proof.
  induction l as [|y r IH]; intros H; simpl.
  - constructor; constructor.
  - inversion H as [|? ? Hr Hy]; subst.
    destruct (String.ltb (trade_date x) (trade_date y)) eqn:E.
    + constructor; [auto|].
      apply (Permutation_Forall (insert_desc_perm x r)).
      constructor; [|assumption]. unfold newer_first.
      now apply StrOrder.ltb_leb.
    + constructor; [assumption|].
      assert (Hxy : newer_first x y).
      { unfold newer_first. now apply StrOrder.not_ltb_leb. }
      constructor; [assumption|].
      eapply Forall_impl; [|exact Hy]. intros b Hb. unfold newer_first in *.
      eapply StrOrder.leb_trans; eassumption.
Qed.

Lemma sorted_desc_sorted data : StronglySorted newer_first (sorted_desc data).
Proof.
  induction data as [|x r IH]; simpl; [constructor|].
  now apply insert_desc_sorted.
Qed.

Lemma firstn_strongly_sorted {A} (R : A -> A -> Prop) n l :
  StronglySorted R l -> StronglySorted R (firstn n l).
Proof.
  revert l. induction n as [|n IH]; intros l H; simpl; [constructor|].
  destruct l as [|x r]; [constructor|].
  inversion H; subst. constructor; [auto|].
  rewrite Forall_forall in *. intros y Hy. apply H3.
  eapply (In_nth_error) in Hy. destruct Hy as [i Hi].
  rewrite nth_error_firstn in Hi. destruct (i <? n); [|discriminate].
  eapply nth_error_In; eassumption.
Qed.

Lemma firstn_incl {A} n (l : list A) x : In x (firstn n l) -> In x l.
Proof.
  revert l. induction n as [|n IH]; intros l H; simpl in H; [destruct H|].
  destruct l as [|y r]; [destruct H|]. destruct H as [->|H]; [now left|].
  right. auto.
Qed.

Lemma py_prefix_spec {A} (count : Z) (xs : list A) :
  exists n, py_prefix count xs = firstn n xs
            /\ ((0 <= count)%Z -> n = Z.to_nat count).
Proof.
  unfold py_prefix. destruct (Z.ltb_spec count 0); eexists; split;
    try reflexivity; lia.
Qed.

Lemma get_cache_ttl_pos period : (0 < _get_cache_ttl period)%Z.
Proof.
  unfold _get_cache_ttl.
  destruct (is_minute_period period); [reflexivity|].
  destruct (String.eqb period "weekly"); [reflexivity|].
  destruct (String.eqb period "monthly"); reflexivity.
Qed.

Lemma get_from_cache_run key w :
  _get_from_cache key w
  = (Ret (match fst (Cache.get (store w) (clock w) key) with
          | Some l => if nonempty l then Some l else None
          | None => None
          end),
     with_store w (snd (Cache.get (store w) (clock w) key))).
Proof.
  unfold _get_from_cache, try_except, bind, get_json, ret.
  destruct (Cache.get (store w) (clock w) key) as [[l|] st]; simpl;
    [destruct (nonempty l)|]; reflexivity.
Qed.

Lemma cache_get_absent {V} (c : Cache.InMemoryCache V) t key :
  PyDict.get (Cache._cache c) key = None -> Cache.get c t key = (None, c).
Proof. intros H. unfold Cache.get. now rewrite H. Qed.

End StorageExtra.

Section StorageExtraClaims.

Import Kline Manager ManagerFacts Storage StorageFacts StorageExtra.
Open Scope nat_scope.

Lemma first_success_nonempty f l s klines :
  fst (first_success f l) = Some (s, klines) -> exists b ks, klines = b :: ks.
Proof.
  induction l as [|t rest IH]; simpl; [discriminate|].
  destruct (f t) as [[|b ks]|e];
    try (destruct (first_success f rest) as [r tr]; simpl in *; exact IH).
  simpl. intros H. injection H as _ <-. eauto.
Qed.

(** What [get_kline_with_storage] does after a cache miss. *)
Lemma storage_miss_branch adapters ts_code period start_date end_date source
  limit key w :
  let primary := resolve_source (_default_source w) (source_enum source) period in
  let chain := primary :: _get_fallback_sources primary in
  let outcome := fun s => provider_outcome adapters s ts_code period start_date
                            end_date limit in
  (result <- get_kline adapters ts_code period start_date end_date
               (source_enum source) limit ;;
   if nonempty (r_data result) then
     _ <- _set_to_cache key (r_data result) (_get_cache_ttl period) ;;
     ret {| r_ts_code := r_ts_code result; r_source := r_source result;
            r_period := r_period result; r_data := r_data result;
            r_error := r_error result; r_from_cache := Some false |}
   else ret result) w
  = match fst (first_success outcome chain) with
    | Some (s, klines) =>
        (Ret {| r_ts_code := ts_code; r_source := value s; r_period := period;
                r_data := klines; r_error := None;
                r_from_cache := Some false |},
         with_store (logged w (snd (first_success outcome chain)))
           (snd (Cache.set (store w) (clock w) key klines
                   (Some (_get_cache_ttl period)))))
    | None =>
        (Ret {| r_ts_code := ts_code; r_source := value primary;
                r_period := period; r_data := [];
                r_error := Some all_failed_message; r_from_cache := None |},
         logged w (snd (first_success outcome chain)))
    end.
Proof.
  intros primary chain outcome.
  unfold bind at 1. rewrite get_kline_run. cbv zeta.
  fold primary. fold chain. fold outcome.
  destruct (first_success outcome chain) as [[[s klines]|] tried] eqn:Ef;
    cbn [fst snd]; [|reflexivity].
  destruct (@first_success_nonempty outcome chain s klines) as (b & ks & ->);
    [now rewrite Ef|].
  unfold make_result. cbn [r_data nonempty r_ts_code r_source r_period r_error].
  unfold bind, _set_to_cache. cbn [nonempty negb].
  unfold try_except, bind, set_json, ret. cbn [store clock logged].
  destruct (Cache.set (store w) (clock w) key (b :: ks)
              (Some (_get_cache_ttl period))) as [bb st'].
  reflexivity.
Qed.

(** X13: a request that missed the cache and got bars from a provider is
    written through: the same request, at any clock reading up to the time to
    live of its period later, is served from the cache with the same bars,
    [from_cache] set and the requested source name as [source], and no
    provider is asked. *)
Theorem X13_miss_then_hit :
  forall adapters ts_code period start_date end_date source limit w r1 w1 t,
    get_kline_with_storage adapters ts_code period start_date end_date source
      limit w = (Ret r1, w1) ->
    r_from_cache r1 = Some false ->
    (t <= clock w + _get_cache_ttl period)%Z ->
    exists w2,
      get_kline_with_storage adapters ts_code period start_date end_date
        source limit (at_clock w1 t)
      = (Ret {| r_ts_code := ts_code; r_source := source; r_period := period;
                r_data := r_data r1; r_error := None;
                r_from_cache := Some true |}, w2)
      /\ calls w2 = calls w1
      /\ nonempty (r_data r1) = true.
Proof.
  intros adapters ts_code period start_date end_date source limit w r1 w1 t
         Hrun Hmiss Ht.
  unfold get_kline_with_storage in Hrun. unfold bind at 1 in Hrun.
  rewrite get_from_cache_run in Hrun.
  set (key := cache_key ts_code period source start_date end_date limit) in *.
  set (st := snd (Cache.get (store w) (clock w) key)) in *.
  assert (Hcont :
    (result <- get_kline adapters ts_code period start_date end_date
                 (source_enum source) limit ;;
     if nonempty (r_data result) then
       _ <- _set_to_cache key (r_data result) (_get_cache_ttl period) ;;
       ret {| r_ts_code := r_ts_code result; r_source := r_source result;
              r_period := r_period result; r_data := r_data result;
              r_error := r_error result; r_from_cache := Some false |}
     else ret result) (with_store w st) = (Ret r1, w1)).
  { destruct (fst (Cache.get (store w) (clock w) key)) as [l|];
      [destruct (nonempty l)|]; try exact Hrun.
    unfold ret in Hrun. injection Hrun as <- _. discriminate. }
  clear Hrun. rewrite storage_miss_branch in Hcont. cbv zeta in Hcont.
  cbn [_default_source with_store store clock] in Hcont.
  set (fs := first_success _ _) in Hcont.
  destruct (fst fs) as [[s klines]|] eqn:Ef;
    [|injection Hcont as <- _; discriminate].
  destruct (@first_success_nonempty _ _ s klines Ef) as (b & ks & ->).
  pose proof (get_cache_ttl_pos period) as Hpos.
  pose proof (@CacheService.get_after_set _ st (clock w) key (b :: ks)
                (_get_cache_ttl period) t) as Hget.
  remember (snd (Cache.set st (clock w) key (b :: ks)
                   (Some (_get_cache_ttl period)))) as st2 eqn:Est2.
  injection Hcont as <- <-. cbn [r_data].
  unfold get_kline_with_storage. fold key. unfold bind at 1.
  rewrite get_from_cache_run.
  cbn [store clock at_clock with_store].
  rewrite Hget by lia.
  cbn [fst snd nonempty]. unfold ret.
  eexists. split; [reflexivity|]. split; reflexivity.
Qed.

Lemma X13_witness :
  get_kline_with_storage sina_only_adapters "000001.SZ" "daily" None None
    "eastmoney" 500%Z (fresh_world EASTMONEY)
  = (Ret {| r_ts_code := "000001.SZ"; r_source := "sina";
            r_period := "daily"; r_data := [sample_bar "sina"];
            r_error := None; r_from_cache := Some false |}, served_by_sina)
  /\ (3600 <= clock (fresh_world EASTMONEY) + _get_cache_ttl "daily")%Z
  /\ exists w2,
       get_kline_with_storage sina_only_adapters "000001.SZ" "daily" None None
         "eastmoney" 500%Z (at_clock served_by_sina 3600%Z)
       = (Ret {| r_ts_code := "000001.SZ"; r_source := "eastmoney";
                 r_period := "daily"; r_data := [sample_bar "sina"];
                 r_error := None; r_from_cache := Some true |}, w2)
       /\ calls w2 = calls served_by_sina
       /\ nonempty [sample_bar "sina"] = true.
Proof.
  assert (H1 : get_kline_with_storage sina_only_adapters "000001.SZ" "daily"
                 None None "eastmoney" 500%Z (fresh_world EASTMONEY)
               = (Ret {| r_ts_code := "000001.SZ"; r_source := "sina";
                         r_period := "daily"; r_data := [sample_bar "sina"];
                         r_error := None; r_from_cache := Some false |},
                  served_by_sina)) by (vm_compute; reflexivity).
  assert (H2 : (3600 <= clock (fresh_world EASTMONEY) + _get_cache_ttl "daily")%Z)
    by (vm_compute; discriminate).
  split; [exact H1|]. split; [exact H2|].
  exact (@X13_miss_then_hit sina_only_adapters "000001.SZ" "daily" None None
           "eastmoney" 500%Z (fresh_world EASTMONEY) _ served_by_sina 3600%Z
           H1 eq_refl H2).
Defined.

(** X14: a fetch that brings no data is not cached.  For any manager,
    also one whose providers change the shared cache: when the request
    misses the cache and the manager's call returns a result without data,
    [get_kline_with_storage] returns that result as it is (no [from_cache]
    key is added) and leaves the process state exactly as the manager's call
    left it, so it has written nothing itself.  With the manager of this
    program and every provider failing, the result is the empty one with the
    error message, and the primary and both fallbacks have been asked, in
    that order. *)
Theorem X14_failed_fetch_is_not_cached :
  (forall manager ts_code period start_date end_date source limit w w0 result
          w1,
      _get_from_cache
        (cache_key ts_code period source start_date end_date limit) w
      = (Ret None, w0) ->
      manager ts_code period start_date end_date (source_enum source) limit w0
      = (Ret result, w1) ->
      nonempty (r_data result) = false ->
      get_kline_with_storage_over manager ts_code period start_date end_date
        source limit w
      = (Ret result, w1))
  /\ (forall adapters ts_code period start_date end_date source limit w,
        get_kline_with_storage adapters ts_code period start_date end_date
          source limit w
        = get_kline_with_storage_over (get_kline adapters) ts_code period
            start_date end_date source limit w)
  /\ (forall adapters ts_code period start_date end_date source limit w,
        PyDict.get (Cache._cache (store w))
          (cache_key ts_code period source start_date end_date limit) = None ->
        (forall s,
            failed (provider_outcome adapters s ts_code period start_date
                      end_date limit) = true) ->
        exists w1,
          get_kline_with_storage adapters ts_code period start_date end_date
            source limit w
          = (Ret {| r_ts_code := ts_code;
                    r_source :=
                      value (resolve_source (_default_source w)
                               (source_enum source) period);
                    r_period := period; r_data := [];
                    r_error := Some all_failed_message;
                    r_from_cache := None |}, w1)
          /\ calls w1
             = calls w
               ++ resolve_source (_default_source w) (source_enum source)
                    period
                  :: _get_fallback_sources
                       (resolve_source (_default_source w)
                          (source_enum source) period)).
Proof.
  split; [|split].
  - intros manager ts_code period start_date end_date source limit w w0 result
           w1 Hmiss Hrun Hempty.
    unfold get_kline_with_storage_over. unfold bind at 1. rewrite Hmiss.
    unfold bind. rewrite Hrun, Hempty. reflexivity.
  - reflexivity.
  - intros adapters ts_code period start_date end_date source limit w Habs
           Hfail.
    unfold get_kline_with_storage. unfold bind at 1.
    rewrite get_from_cache_run, (cache_get_absent _ _ _ Habs). cbn [fst snd].
    rewrite storage_miss_branch. cbv zeta. cbn [_default_source with_store].
    rewrite (@first_success_all_failed adapters ts_code period start_date
               end_date limit) by (intros; apply Hfail).
    cbn [fst snd]. eexists. split; reflexivity.
Qed.

(** X14 at a manager whose provider dropped its own expired entry before
    it gave up: the state returned is the one the manager left, without
    that entry and with no entry of the storage service. *)
Lemma X14_witness :
  _get_from_cache (cache_key "000001.SZ" "daily" "eastmoney" None None 500%Z)
    stale_world
  = (Ret None, stale_world)
  /\ nonempty (@nil Bar) = false
  /\ get_kline_with_storage_over reading_manager "000001.SZ" "daily" None
       None "eastmoney" 500%Z stale_world
     = reading_manager "000001.SZ" "daily" None None (Some EASTMONEY) 500%Z
         stale_world
  /\ PyDict.keys (Cache._cache (store stale_world)) = [provider_key]
  /\ PyDict.keys
       (Cache._cache
          (store (snd (get_kline_with_storage_over reading_manager
                         "000001.SZ" "daily" None None "eastmoney" 500%Z
                         stale_world))))
     = [].
Proof.
  assert (H1 : _get_from_cache
                 (cache_key "000001.SZ" "daily" "eastmoney" None None 500%Z)
                 stale_world
               = (Ret None, stale_world)) by reflexivity.
  assert (H2 : nonempty (@nil Bar) = false) by reflexivity.
  assert (H3 := proj1 X14_failed_fetch_is_not_cached reading_manager
                  "000001.SZ" "daily" None None "eastmoney" 500%Z
                  stale_world stale_world _ _ H1 eq_refl H2).
  split; [exact H1|]. split; [exact H2|]. split; [exact H3|].
  split; [reflexivity|]. rewrite H3. reflexivity.
Defined.

(** X15: [get_latest_kline] does not raise; the bars it returns are bars
    of the fetched data, ordered from the newest trade date to the oldest,
    and for a count that is not negative there are at most [count] of
    them. *)
Theorem X15_latest_kline_newest_first :
  forall adapters ts_code period source count w,
    exists r l w',
      get_kline_with_storage adapters ts_code period None None source count w
      = (Ret r, w')
      /\ get_latest_kline adapters ts_code period source count w = (Ret l, w')
      /\ StronglySorted newer_first l
      /\ (forall k, In k l -> In k (r_data r))
      /\ ((0 <= count)%Z -> List.length l <= Z.to_nat count).
Proof.
  intros adapters ts_code period source count w.
  unfold get_latest_kline, bind.
  destruct (get_kline_with_storage adapters ts_code period None None source
              count w) as [[r|e] w'] eqn:E.
  - exists r. destruct (nonempty (r_data r)) eqn:Hn.
    + destruct (py_prefix_spec count (sorted_desc (r_data r))) as [n [Hp Hc]].
      eexists _, w'. split; [reflexivity|]. split; [reflexivity|].
      rewrite Hp. split; [|split].
      * apply firstn_strongly_sorted, sorted_desc_sorted.
      * intros k0 Hk. apply firstn_incl in Hk.
        eapply Permutation_in; [|exact Hk].
        apply Permutation_sym, sorted_desc_perm.
      * intros H0. rewrite length_firstn, (Hc H0). lia.
    + exists [], w'. split; [reflexivity|]. split; [reflexivity|].
      split; [constructor|]. split; [intros k0 []|]. simpl. lia.
  - exfalso. unfold get_kline_with_storage in E. unfold bind at 1 in E.
    rewrite get_from_cache_run in E.
    destruct (fst (Cache.get _ _ _)) as [l|]; [destruct (nonempty l)|];
      try (unfold ret in E; discriminate);
      rewrite storage_miss_branch in E; cbv zeta in E;
      destruct (fst (first_success _ _)) as [[s kl]|]; discriminate.
Qed.

End StorageExtraClaims.

(** ** More about the indicator functions *)

Module IndicatorExtra.

Import Indicators IndicatorFacts.
Open Scope nat_scope.

Lemma for_each_nth {A B} (body : A -> Outcome B) xs rows i row :
  for_each body xs = Ret rows -> nth_error rows i = Some row ->
  exists x, nth_error xs i = Some x /\ body x = Ret row.
Proof.
  revert rows i. induction xs as [|x rest IH]; intros rows i H Hi; simpl in H.
  - injection H as <-. destruct i; discriminate.
  - destruct (body x) as [y|e] eqn:Ey; simpl in H; [|discriminate].
    destruct (for_each body rest) as [ys|e] eqn:Er; simpl in H; [|discriminate].
    injection H as <-. destruct i as [|i]; simpl in Hi.
    + injection Hi as <-. exists x. auto.
    + destruct (IH ys i eq_refl Hi) as [x' [Hx Hb]]. exists x'. auto.
Qed.

Lemma div_le_of x y d : (0 < d)%R -> (x <= y * d)%R -> (x / d <= y)%R.
Proof.
  intros Hd H. replace y with (y * d / d)%R by (field; lra).
  unfold Rdiv. apply Rmult_le_compat_r; [|assumption].
  left. now apply Rinv_0_lt_compat.
Qed.

(** *** EMA *)

Lemma multiplier_range period :
  1 <= period -> (0 < 2 / INR (period + 1) <= 1)%R.
Proof.
  intros H. assert (Hp : (2 <= INR (period + 1))%R).
  { change 2%R with (INR 2). apply le_INR. lia. }
  split.
  - apply Rdiv_lt_0_compat; lra.
  - apply div_le_of; lra.
Qed.

Lemma ema_loop_within m lo hi prev rest :
  (0 < m <= 1)%R -> (lo <= prev <= hi)%R ->
  Forall (fun p => (lo <= p <= hi)%R) rest ->
  Forall (fun e => (lo <= e <= hi)%R) (ema_loop m prev rest).
Proof.
  intros Hm. revert prev. induction rest as [|p rest IH]; intros prev Hp H;
    simpl; [constructor|].
  inversion H as [|? ? Hp0 Hrest]; subst.
  assert (He : (lo <= (p - prev) * m + prev <= hi)%R) by nra.
  constructor; [exact He|]. now apply IH.
Qed.

Lemma ema_loop_flat m c n : ema_loop m c (repeat c n) = repeat c n.
Proof.
  induction n as [|n IH]; simpl; [reflexivity|].
  replace ((c - c) * m + c)%R with c by ring. now rewrite IH.
Qed.

Lemma calculate_ema_flat c n period : calculate_ema (repeat c n) period = repeat c n.
Proof. destruct n as [|n]; simpl; [reflexivity|]. now rewrite ema_loop_flat. Qed.

Lemma zip_sub_flat c n : zip_sub (repeat c n) (repeat c n) = repeat 0%R n.
Proof.
  unfold zip_sub. induction n as [|n IH]; simpl; [reflexivity|].
  rewrite IH. f_equal. ring.
Qed.

(** *** RSI *)

Lemma gain_nonneg x : (0 <= gain_of x)%R.
Proof. unfold gain_of. destruct (Rlt_dec 0 x); lra. Qed.

Lemma loss_nonneg x : (0 <= loss_of x)%R.
Proof. unfold loss_of. destruct (Rlt_dec 0 x); [lra | apply Rabs_pos]. Qed.

Lemma fold_nonneg l a :
  (0 <= a)%R -> Forall (fun x => (0 <= x)%R) l -> (0 <= fold_left Rplus l a)%R.
Proof.
  revert a. induction l as [|x r IH]; intros a Ha H; simpl; [assumption|].
  inversion H; subst. apply IH; [lra | assumption].
Qed.

Lemma sum_nonneg l : Forall (fun x => (0 <= x)%R) l -> (0 <= sum l)%R.
Proof. intros H. apply fold_nonneg; [lra | assumption]. Qed.

Lemma Forall_firstn {A} (P : A -> Prop) n l : Forall P l -> Forall P (firstn n l).
Proof.
  revert l. induction n as [|n IH]; intros l H; simpl; [constructor|].
  destruct l; [constructor|]. inversion H; subst. constructor; auto.
Qed.

Lemma Forall_skipn {A} (P : A -> Prop) n l : Forall P l -> Forall P (skipn n l).
Proof.
  revert l. induction n as [|n IH]; intros l H; simpl; [assumption|].
  destruct l; [constructor|]. inversion H; subst. auto.
Qed.

Lemma rsi_value_range g l :
  (0 <= g)%R -> (0 <= l)%R -> (0 <= rsi_value g l <= 100)%R.
Proof.
  intros Hg Hl. unfold rsi_value. destruct (Req_dec_T l 0); [lra|].
  assert (Hlp : (0 < l)%R) by lra.
  assert (Hrs : (0 <= g / l)%R) by (apply Rle_mult_inv_pos; assumption).
  assert (Hd : (0 < 1 + g / l)%R) by lra.
  assert (H1 : (0 < 100 / (1 + g / l))%R) by (apply Rdiv_lt_0_compat; lra).
  assert (H2 : (100 / (1 + g / l) <= 100)%R).
  { apply div_le_of; [assumption | nra]. }
  lra.
Qed.

Lemma rsi_loop_range period g l gl :
  1 <= period -> (0 <= g)%R -> (0 <= l)%R ->
  Forall (fun p => (0 <= fst p)%R /\ (0 <= snd p)%R) gl ->
  Forall (fun o => match o with
                   | Some x => (0 <= x <= 100)%R
                   | None => True
                   end) (rsi_loop period g l gl).
Proof.
  intros Hp. revert g l. induction gl as [|[g' l'] rest IH]; intros g l Hg Hl H;
    simpl; [constructor|].
  inversion H as [|? ? [Hg' Hl'] Hrest]; subst. simpl in Hg', Hl'.
  assert (Hn : (0 < INR period)%R) by (apply lt_0_INR; lia).
  assert (Hn1 : (0 <= INR (period - 1))%R) by apply pos_INR.
  assert (G : (0 <= (g * INR (period - 1) + g') / INR period)%R).
  { apply Rle_mult_inv_pos; [nra | assumption]. }
  assert (L : (0 <= (l * INR (period - 1) + l') / INR period)%R).
  { apply Rle_mult_inv_pos; [nra | assumption]. }
  constructor; [now apply rsi_value_range | now apply IH].
Qed.

Lemma Forall_combine_nonneg xs ys :
  Forall (fun x => (0 <= x)%R) xs -> Forall (fun y => (0 <= y)%R) ys ->
  Forall (fun p => (0 <= fst p)%R /\ (0 <= snd p)%R) (combine xs ys).
Proof.
  intros Hx. revert ys. induction Hx as [|x xs Hx0 Hxs IH]; intros ys Hy;
    simpl; [constructor|].
  destruct ys as [|y ys]; [constructor|]. inversion Hy; subst.
  constructor; [simpl; auto | auto].
Qed.

(** *** Rounding keeps the order *)

Lemma round_half_even_close y :
  (IZR (round_half_even y) - 1 / 2 <= y <= IZR (round_half_even y) + 1 / 2)%R.
Proof.
  unfold round_half_even. pose proof (Zfloor_bound y) as [Hl Hu].
  destruct (Rlt_dec (y - IZR (Zfloor y)) (1 / 2)); [lra|].
  destruct (Rlt_dec (1 / 2) (y - IZR (Zfloor y)));
    [rewrite plus_IZR; lra|].
  destruct (Z.even (Zfloor y)); [lra | rewrite plus_IZR; lra].
Qed.

Lemma round_half_even_mono x y :
  (x <= y)%R -> (round_half_even x <= round_half_even y)%Z.
Proof.
  intros Hxy. destruct (Z_le_gt_dec (round_half_even x) (round_half_even y))
    as [H|H]; [assumption|].
  exfalso. pose proof (round_half_even_close x) as [Hx _].
  pose proof (round_half_even_close y) as [_ Hy].
  assert (Hz : (IZR (round_half_even y) + 1 <= IZR (round_half_even x))%R).
  { rewrite <- plus_IZR. apply IZR_le. lia. }
  assert (E : x = y) by lra. subst. lia.
Qed.

Lemma py_round_mono x y n : (x <= y)%R -> (py_round x n <= py_round y n)%R.
Proof.
  intros H. unfold py_round.
  assert (Hp : (0 < 10 ^ n)%R) by (apply pow_lt; lra).
  apply Rmult_le_compat_r; [left; now apply Rinv_0_lt_compat|].
  apply IZR_le, round_half_even_mono. nra.
Qed.

Lemma py_round_50 : py_round 50 2 = 50%R.
Proof. rewrite (py_round2_near 5000) by lra. lra. Qed.

End IndicatorExtra.

Module KdjFlat.

Import Indicators IndicatorFacts IndicatorExtra.
Open Scope nat_scope.

Lemma skipn_repeat {A} (c : A) a n : skipn a (repeat c n) = repeat c (n - a).
Proof.
  revert n. induction a as [|a IH]; intros n; [now rewrite Nat.sub_0_r|].
  destruct n as [|n]; [reflexivity|]. simpl. apply IH.
Qed.

Lemma firstn_repeat {A} (c : A) m n : firstn m (repeat c n) = repeat c (Nat.min m n).
Proof.
  revert n. induction m as [|m IH]; intros n; [reflexivity|].
  destruct n as [|n]; [reflexivity|]. simpl. now rewrite IH.
Qed.

Lemma slice_repeat {A} (c : A) a b n :
  slice a b (repeat c n) = repeat c (Nat.min (b - a) (n - a)).
Proof. unfold slice. now rewrite skipn_repeat, firstn_repeat. Qed.

Lemma fold_max_flat c m : fold_left Rmax (repeat c m) c = c.
Proof.
  induction m as [|m IH]; simpl; [reflexivity|].
  now rewrite Rmax_left by lra.
Qed.

Lemma fold_min_flat c m : fold_left Rmin (repeat c m) c = c.
Proof.
  induction m as [|m IH]; simpl; [reflexivity|].
  now rewrite Rmin_left by lra.
Qed.

Lemma py_round_is_50 x : x = 50%R -> py_round x 2 = 50%R.
Proof. intros ->. apply py_round_50. Qed.

(** The column a flat market gives: [None] before the warm-up, 50 after. *)
Definition flat_value (period i : nat) : option R :=
  if i + 1 <? period then None else Some 50%R.

Definition flat_column (period n : nat) : list (option R) :=
  map (flat_value period) (seq 0 n).

Lemma flat_column_S period n :
  flat_column period (S n) = flat_column period n ++ [flat_value period n].
Proof. unfold flat_column. now rewrite seq_S, map_app. Qed.

Lemma flat_column_last period n :
  period <= n -> 1 <= period -> last (flat_column period n) None = Some 50%R.
Proof.
  intros H H1. destruct n as [|n]; [lia|].
  rewrite flat_column_S, last_last. unfold flat_value.
  destruct (Nat.ltb_spec (n + 1) period); [lia | reflexivity].
Qed.

Section Flat.
Variables (c : R) (close : list R) (period : nat).
Hypothesis period_pos : 1 <= period.

Let flat := repeat c (List.length close).

Lemma kdj_step_flat start :
  start < List.length close ->
  kdj_step flat flat close period
    {| k := flat_column period start; d := flat_column period start;
       j := flat_column period start |} start
  = Ret {| k := flat_column period (S start);
           d := flat_column period (S start);
           j := flat_column period (S start) |}.
Proof.
  intros Hs. unfold kdj_step. rewrite !flat_column_S. unfold flat_value.
  destruct (Nat.ltb_spec (start + 1) period) as [Hw|Hw]; [reflexivity|].
  cbn [k d j]. unfold flat. rewrite slice_repeat.
  destruct (Nat.min (start + 1 - (start + 1 - period))
              (List.length close - (start + 1 - period))) as [|m] eqn:Em; [lia|].
  cbn [repeat py_max py_min obind]. rewrite fold_max_flat, fold_min_flat.
  destruct (Req_dec_T c c) as [_|Hn]; [|contradiction].
  destruct (Nat.eqb_spec (start + 1) period) as [He|He].
  - cbn [obind fst snd]. rewrite !py_round_is_50 by lra. reflexivity.
  - unfold last_number. rewrite flat_column_last by lia.
    cbn [obind fst snd]. rewrite !py_round_is_50 by lra. reflexivity.
Qed.

Lemma kdj_loop_flat len start :
  start + len <= List.length close ->
  kdj_loop flat flat close period
    {| k := flat_column period start; d := flat_column period start;
       j := flat_column period start |} (seq start len)
  = Ret {| k := flat_column period (start + len);
           d := flat_column period (start + len);
           j := flat_column period (start + len) |}.
Proof.
  revert start. induction len as [|len IH]; intros start H; simpl.
  - now rewrite Nat.add_0_r.
  - rewrite kdj_step_flat by lia. simpl. rewrite IH by lia.
    now replace (S start + len) with (start + S len) by lia.
Qed.

End Flat.

End KdjFlat.

Section IndicatorExtraClaims.

Import Indicators IndicatorFacts IndicatorExtra KdjFlat.
Open Scope nat_scope.

(** X16: for a period of at least two and prices that are not negative,
    [calculate_ema] returns one value per price, and every value lies within
    any bounds that hold all the prices: the average never leaves the range
    of the prices.  (With period 1 the multiplier is 1, and
    [(p - prev) * 1 + prev] is [p] on the reals only: in floating point it
    can round to a neighbour of [p].  From period 2 on the multiplier is at
    most 2/3 and a step stays between [prev] and [p] also after rounding;
    prices that are not negative keep [p - prev] from overflowing.) *)
Theorem X16_ema_within_price_range :
  forall prices period lo hi,
    2 <= period ->
    (0 <= lo)%R ->
    Forall (fun p => (lo <= p <= hi)%R) prices ->
    List.length (calculate_ema prices period) = List.length prices
    /\ Forall (fun e => (lo <= e <= hi)%R) (calculate_ema prices period).
Proof.
  intros prices period lo hi Hp _ H. split; [apply calculate_ema_length|].
  destruct prices as [|p0 rest]; simpl; [constructor|].
  inversion H; subst. constructor; [assumption|].
  apply ema_loop_within; try assumption. apply multiplier_range. lia.
Qed.

Lemma X16_witness :
  2 <= 12
  /\ (0 <= 1)%R
  /\ Forall (fun p => (1 <= p <= 3)%R) [1; 3; 2]%R
  /\ List.length (calculate_ema [1; 3; 2]%R 12) = List.length [1; 3; 2]%R
  /\ Forall (fun e => (1 <= e <= 3)%R) (calculate_ema [1; 3; 2]%R 12).
Proof.
  assert (H1 : 2 <= 12) by lia.
  assert (H0 : (0 <= 1)%R) by lra.
  assert (H2 : Forall (fun p => (1 <= p <= 3)%R) [1; 3; 2]%R)
    by (repeat constructor; lra).
  split; [exact H1|]. split; [exact H0|]. split; [exact H2|].
  exact (@X16_ema_within_price_range [1; 3; 2]%R 12 1%R 3%R H1 H0 H2).
Defined.

(** X17: on a flat series (every price the same) that is at least [slow]
    long, the MACD line, the signal line and the histogram are zero at every
    position. *)
Theorem X17_macd_of_flat_series_is_zero :
  forall c n fast slow signal_period,
    slow <= n ->
    calculate_macd (repeat c n) fast slow signal_period
    = {| macd := repeat 0%R n; signal := repeat 0%R n;
         histogram := repeat 0%R n |}.
Proof.
  intros c n fast slow signal_period H. unfold calculate_macd.
  rewrite repeat_length. destruct (Nat.ltb_spec n slow); [lia|].
  rewrite !calculate_ema_flat, zip_sub_flat, calculate_ema_flat, zip_sub_flat.
  reflexivity.
Qed.

Lemma X17_witness :
  26 <= 30
  /\ calculate_macd (repeat 10%R 30) 12 26 9
     = {| macd := repeat 0%R 30; signal := repeat 0%R 30;
          histogram := repeat 0%R 30 |}.
Proof.
  assert (H : 26 <= 30) by lia. split; [exact H|].
  exact (@X17_macd_of_flat_series_is_zero 10%R 30 12 26 9 H).
Defined.

(** X18: every value [calculate_rsi] returns lies between 0 and 100. *)
Theorem X18_rsi_between_0_and_100 :
  forall prices period l i x,
    calculate_rsi prices period = Ret l ->
    nth_error l i = Some (Some x) ->
    (0 <= x <= 100)%R.
Proof.
  intros prices period l i x Hrun Hi.
  assert (HF : Forall (fun o => match o with
                                | Some y => (0 <= y <= 100)%R
                                | None => True
                                end) l).
  { unfold calculate_rsi in Hrun.
    destruct (List.length prices <? period + 1).
    - injection Hrun as <-. apply Forall_forall. intros o Ho.
      apply repeat_spec in Ho. now subst.
    - unfold div_int in Hrun. destruct (Nat.eqb_spec period 0) as [|Hp];
        [discriminate|]. simpl in Hrun. injection Hrun as <-.
      assert (Hg : Forall (fun y => (0 <= y)%R) (map gain_of (changes prices))).
      { apply Forall_forall. intros y Hy. apply in_map_iff in Hy.
        destruct Hy as [z [<- _]]. apply gain_nonneg. }
      assert (Hl : Forall (fun y => (0 <= y)%R) (map loss_of (changes prices))).
      { apply Forall_forall. intros y Hy. apply in_map_iff in Hy.
        destruct Hy as [z [<- _]]. apply loss_nonneg. }
      assert (Hn : (0 < INR period)%R) by (apply lt_0_INR; lia).
      assert (G : (0 <= sum (firstn period (map gain_of (changes prices)))
                        / INR period)%R).
      { apply Rle_mult_inv_pos; [|assumption].
        now apply sum_nonneg, Forall_firstn. }
      assert (L : (0 <= sum (firstn period (map loss_of (changes prices)))
                        / INR period)%R).
      { apply Rle_mult_inv_pos; [|assumption].
        now apply sum_nonneg, Forall_firstn. }
      apply Forall_app. split.
      + apply Forall_forall. intros o Ho. apply repeat_spec in Ho. now subst.
      + constructor; [now apply rsi_value_range|].
        apply rsi_loop_range; try assumption; try lia.
        apply Forall_combine_nonneg; now apply Forall_skipn. }
  rewrite Forall_forall in HF. apply (HF (Some x)).
  eapply nth_error_In; eassumption.
Qed.

Lemma X18_witness :
  calculate_rsi [3; 2; 1]%R 2
  = Ret [None; None; Some (rsi_value (sum [gain_of (2 - 3); gain_of (1 - 2)]
                                        / INR 2)
                                     (sum [loss_of (2 - 3); loss_of (1 - 2)]
                                        / INR 2))]
  /\ (0 <= rsi_value (sum [gain_of (2 - 3); gain_of (1 - 2)] / INR 2)
                     (sum [loss_of (2 - 3); loss_of (1 - 2)] / INR 2)
      <= 100)%R.
Proof.
  assert (H : calculate_rsi [3; 2; 1]%R 2
              = Ret [None; None;
                     Some (rsi_value
                             (sum [gain_of (2 - 3); gain_of (1 - 2)] / INR 2)
                             (sum [loss_of (2 - 3); loss_of (1 - 2)] / INR 2))])
    by reflexivity.
  split; [exact H|].
  exact (@X18_rsi_between_0_and_100 [3; 2; 1]%R 2 _ 2 _ H eq_refl).
Defined.

(** X19: in a flat market, where every high and every low is the same
    value, the raw stochastic value is 50 in every window, so K, D and J are
    [None] before the warm-up and exactly 50 at every later position,
    whatever the closes are. *)
Theorem X19_kdj_of_flat_market_is_50 :
  forall c close period,
    1 <= period -> period <= List.length close ->
    calculate_kdj (repeat c (List.length close)) (repeat c (List.length close))
      close period
    = Ret {| k := flat_column period (List.length close);
             d := flat_column period (List.length close);
             j := flat_column period (List.length close) |}
    /\ forall i, i < List.length close ->
         nth_error (flat_column period (List.length close)) i
         = Some (if i + 1 <? period then None else Some 50%R).
Proof.
  intros c close period H1 H2. split.
  - unfold calculate_kdj. destruct (Nat.ltb_spec (List.length close) period);
      [lia|].
    apply (@kdj_loop_flat c close period H1 (List.length close) 0). lia.
  - intros i Hi. unfold flat_column. now rewrite nth_error_map_seq.
Qed.

Lemma X19_witness :
  1 <= 2 /\ 2 <= List.length [1; 2; 3]%R
  /\ calculate_kdj (repeat 7%R (List.length [1; 2; 3]%R))
       (repeat 7%R (List.length [1; 2; 3]%R)) [1; 2; 3]%R 2
     = Ret {| k := flat_column 2 (List.length [1; 2; 3]%R);
              d := flat_column 2 (List.length [1; 2; 3]%R);
              j := flat_column 2 (List.length [1; 2; 3]%R) |}
  /\ forall i, i < List.length [1; 2; 3]%R ->
       nth_error (flat_column 2 (List.length [1; 2; 3]%R)) i
       = Some (if i + 1 <? 2 then None else Some 50%R).
Proof.
  assert (H1 : 1 <= 2) by lia.
  assert (H2 : 2 <= List.length [1; 2; 3]%R) by (simpl; lia).
  split; [exact H1|]. split; [exact H2|].
  exact (@X19_kdj_of_flat_market_is_50 7%R [1; 2; 3]%R 2 H1 H2).
Defined.

(** X20: with a band width factor that is not negative, the bands
    [calculate_bollinger_bands] returns are ordered at every position where
    they are defined: lower <= middle <= upper, also after the rounding to
    two decimals. *)
Theorem X20_bollinger_bands_are_ordered :
  forall prices period std_dev r i u m l,
    (0 <= std_dev)%R ->
    calculate_bollinger_bands prices period std_dev = Ret r ->
    nth_error (upper r) i = Some (Some u) ->
    nth_error (middle r) i = Some (Some m) ->
    nth_error (lower r) i = Some (Some l) ->
    (l <= m <= u)%R.
Proof.
  intros prices period std_dev r i u m l Hk Hrun Hu Hm Hl.
  unfold calculate_bollinger_bands in Hrun.
  destruct (List.length prices <? period).
  { injection Hrun as <-. destruct i; discriminate. }
  destruct (for_each (band_at prices period std_dev)
              (seq 0 (List.length prices))) as [rows|e] eqn:Er;
    simpl in Hrun; [|discriminate].
  injection Hrun as <-. cbn [upper middle lower] in *.
  rewrite nth_error_map in Hu, Hm, Hl.
  destruct (nth_error rows i) as [[[u0 m0] l0]|] eqn:Ei; [|discriminate].
  simpl in Hu, Hm, Hl. injection Hu as ->. injection Hm as ->.
  injection Hl as ->.
  destruct (for_each_nth _ _ _ Er Ei) as [x [_ Hb]].
  unfold band_at in Hb. destruct (x + 1 <? period); [discriminate|].
  destruct (div_int _ period) as [ma|e]; [|discriminate]. simpl in Hb.
  destruct (variance_of _ ma period) as [variance|e]; [|discriminate].
  simpl in Hb. injection Hb as <- <- <-.
  pose proof (sqrt_pos variance) as Hs.
  split; apply py_round_mono; nra.
Qed.

Lemma X20_witness :
  (0 <= 2)%R
  /\ (exists r,
        calculate_bollinger_bands series_1_20 20 2 = Ret r
        /\ nth_error (upper r) 19 = Some (Some (2203 / 100)%R)
        /\ nth_error (middle r) 19 = Some (Some (1050 / 100)%R)
        /\ nth_error (lower r) 19 = Some (Some (-103 / 100)%R))
  /\ (-103 / 100 <= 1050 / 100 <= 2203 / 100)%R.
Proof.
  assert (H0 : (0 <= 2)%R) by lra.
  split; [exact H0|]. split; [exact bands_1_20|].
  destruct bands_1_20 as (r & E & Hu & Hm & Hl).
  exact (@X20_bollinger_bands_are_ordered series_1_20 20 2%R r 19 _ _ _ H0 E
           Hu Hm Hl).
Defined.

End IndicatorExtraClaims.


(** ** [FinAgentService._generate_signals] *)

Module Signals.

Import Indicators.
Open Scope nat_scope.

Inductive SignalType : Type := bullish | bearish.

(** The ["message"] of a signal.  The two RSI messages are f-strings that
    print the RSI value ([f"RSI={rsi[-1]:.1f}..."]); they carry it. *)
Inductive Message : Type :=
| ma_golden_cross
| ma_death_cross
| macd_golden_cross
| macd_death_cross
| rsi_oversold (value : R)
| rsi_overbought (value : R)
| kdj_oversold
| kdj_overbought
| boll_lower_touch
| boll_upper_touch.

Record Signal : Type := {
  type : SignalType;
  indicator : string;
  message : Message
}.

Definition Rltb (x y : R) : bool := if Rlt_dec x y then true else false.
Definition Rleb (x y : R) : bool := if Rle_dec x y then true else false.

(** The truth value of a list element: [None] and [0.0] are false.  The
    result is the number when it is true. *)
Definition truthy_value (o : option R) : option R :=
  match o with
  | Some x => if Req_dec_T x 0 then None else Some x
  | None => None
  end.

(** [xs[-1]] and [xs[-2]] *)
Definition item_last {A} (xs : list A) : Outcome A :=
  match rev xs with
  | x :: _ => Ret x
  | [] => Raise (Exception "list index out of range")
  end.

Definition item_second_last {A} (xs : list A) : Outcome A :=
  match rev xs with
  | _ :: y :: _ => Ret y
  | _ => Raise (Exception "list index out of range")
  end.

(** [ma5[-2] and ma10[-2] and cmp(ma5[-2], ma10[-2])] *)
Definition crossing (ma5 ma10 : list (option R)) (cmp : R -> R -> bool)
  : Outcome bool :=
  obind (item_second_last ma5) (fun a2 =>
  match truthy_value a2 with
  | None => Ret false
  | Some x2 =>
      obind (item_second_last ma10) (fun b2 =>
      match truthy_value b2 with
      | None => Ret false
      | Some y2 => Ret (cmp x2 y2)
      end)
  end).

(** The moving-average block. *)
Definition ma_signal (ma5 ma10 : list (option R)) : Outcome (list Signal) :=
  obind (item_last ma5) (fun a1 =>
  match truthy_value a1 with
  | None => Ret []
  | Some x1 =>
      obind (item_last ma10) (fun b1 =>
      match truthy_value b1 with
      | None => Ret []
      | Some y1 =>
          obind (if Rltb y1 x1 then crossing ma5 ma10 Rleb else Ret false)
            (fun golden =>
          if golden then
            Ret [{| type := bullish; indicator := "MA";
                    message := ma_golden_cross |}]
          else
            obind (if Rltb x1 y1
                   then crossing ma5 ma10 (fun x2 y2 => Rleb y2 x2)
                   else Ret false)
              (fun death =>
            if death then
              Ret [{| type := bearish; indicator := "MA";
                      message := ma_death_cross |}]
            else Ret []))
      end)
  end).

(** [macd["macd"][-2] cmp macd["signal"][-2]] *)
Definition macd_crossing (m : MACD) (cmp : R -> R -> bool) : Outcome bool :=
  obind (item_second_last (macd m)) (fun m2 =>
  obind (item_second_last (signal m)) (fun s2 =>
  Ret (cmp m2 s2))).

(** The MACD block. *)
Definition macd_signal (m : MACD) : Outcome (list Signal) :=
  match macd m, signal m with
  | [], _ => Ret []
  | _, [] => Ret []
  | _, _ =>
      if 2 <=? List.length (macd m) then
        obind (item_last (macd m)) (fun m1 =>
        obind (item_last (signal m)) (fun s1 =>
        obind (if Rltb s1 m1 then macd_crossing m Rleb else Ret false)
          (fun golden =>
        if golden then
          Ret [{| type := bullish; indicator := "MACD";
                  message := macd_golden_cross |}]
        else
          obind (obind (item_last (macd m)) (fun m1' =>
                 obind (item_last (signal m)) (fun s1' =>
                 if Rltb m1' s1'
                 then macd_crossing m (fun m2 s2 => Rleb s2 m2)
                 else Ret false)))
            (fun death =>
          if death then
            Ret [{| type := bearish; indicator := "MACD";
                    message := macd_death_cross |}]
          else Ret []))))
      else Ret []
  end.

(** The RSI block: [if rsi and rsi[-1]: ...] *)
Definition rsi_signal (rsi : list (option R)) : list Signal :=
  match truthy_value (last rsi None) with
  | None => []
  | Some v =>
      if Rltb v 30 then
        [{| type := bullish; indicator := "RSI"; message := rsi_oversold v |}]
      else if Rltb 70 v then
        [{| type := bearish; indicator := "RSI"; message := rsi_overbought v |}]
      else []
  end.

(** The KDJ block. *)
Definition kdj_signal (kdj : KDJ) : list Signal :=
  match truthy_value (last (k kdj) None), truthy_value (last (d kdj) None) with
  | Some kv, Some dv =>
      if Rltb kv 20 && Rltb dv 20 then
        [{| type := bullish; indicator := "KDJ"; message := kdj_oversold |}]
      else if Rltb 80 kv && Rltb 80 dv then
        [{| type := bearish; indicator := "KDJ"; message := kdj_overbought |}]
      else []
  | _, _ => []
  end.

(** The Bollinger block. *)
Definition boll_signal (price : R) (boll : Bands) : list Signal :=
  match truthy_value (last (upper boll) None),
        truthy_value (last (lower boll) None) with
  | Some u, Some l =>
      if Rleb price l then
        [{| type := bullish; indicator := "BOLL"; message := boll_lower_touch |}]
      else if Rleb u price then
        [{| type := bearish; indicator := "BOLL"; message := boll_upper_touch |}]
      else []
  | _, _ => []
  end.

(** [def _generate_signals(self, price, ma5, ma10, ma20, macd, rsi, kdj, boll)]
    ([ma20] is not read.) *)
Definition _generate_signals (price : R) (ma5 ma10 ma20 : list (option R))
  (m : MACD) (rsi : list (option R)) (kdj : KDJ) (boll : Bands)
  : Outcome (list Signal) :=
  obind (ma_signal ma5 ma10) (fun s_ma =>
  obind (macd_signal m) (fun s_macd =>
  Ret (s_ma ++ s_macd ++ rsi_signal rsi ++ kdj_signal kdj
       ++ boll_signal price boll))).

(** [xs] is [ys] with some elements left out. *)
Fixpoint subsequence (xs ys : list string) : bool :=
  match xs, ys with
  | [], _ => true
  | _ :: _, [] => false
  | x :: xs', y :: ys' =>
      if String.eqb x y then subsequence xs' ys' else subsequence xs ys'
  end.

(** At most one signal, of the block's own indicator. *)
Definition block_of (name : string) (l : list Signal) : Prop :=
  l = [] \/ exists s, l = [s] /\ indicator s = name.

Lemma crossing_cases ma5 ma10 cmp b :
  crossing ma5 ma10 cmp = Ret b -> b = true \/ b = false.
Proof. destruct b; auto. Qed.

Lemma ma_signal_block ma5 ma10 l :
  ma_signal ma5 ma10 = Ret l -> block_of "MA" l.
Proof.
  unfold ma_signal, block_of.
  destruct (item_last ma5) as [a1|]; simpl; [|discriminate].
  destruct (truthy_value a1) as [x1|]; [|intros [= <-]; now left].
  destruct (item_last ma10) as [b1|]; simpl; [|discriminate].
  destruct (truthy_value b1) as [y1|]; [|intros [= <-]; now left].
  destruct (if Rltb y1 x1 then _ else _) as [[|]|]; simpl; [| |discriminate].
  - intros [= <-]. right. eauto.
  - destruct (if Rltb x1 y1 then _ else _) as [[|]|]; simpl;
      [| |discriminate]; intros [= <-]; [right; eauto | now left].
Qed.

Lemma macd_signal_block m l :
  macd_signal m = Ret l -> block_of "MACD" l.
Proof.
  unfold macd_signal, block_of.
  destruct (macd m) as [|m0 ms] eqn:Em; [intros [= <-]; now left|].
  destruct (signal m) as [|s0 ss] eqn:Es; [intros [= <-]; now left|].
  destruct (2 <=? _); [|intros [= <-]; now left].
  destruct (item_last (m0 :: ms)) as [m1|]; simpl; [|discriminate].
  destruct (item_last (s0 :: ss)) as [s1|]; simpl; [|discriminate].
  destruct (if Rltb s1 m1 then _ else _) as [[|]|]; simpl; [| |discriminate].
  - intros [= <-]. right. eauto.
  - destruct (if Rltb m1 s1 then _ else _) as [[|]|]; simpl;
      [| |discriminate]; intros [= <-]; [right; eauto | now left].
Qed.

Lemma rsi_signal_block rsi : block_of "RSI" (rsi_signal rsi).
Proof.
  unfold rsi_signal, block_of.
  destruct (truthy_value _) as [v|]; [|now left].
  destruct (Rltb v 30); [right; eauto|].
  destruct (Rltb 70 v); [right; eauto | now left].
Qed.

Lemma kdj_signal_block kdj : block_of "KDJ" (kdj_signal kdj).
Proof.
  unfold kdj_signal, block_of.
  destruct (truthy_value (last (k kdj) None)) as [kv|]; [|now left].
  destruct (truthy_value (last (d kdj) None)) as [dv|]; [|now left].
  destruct (Rltb kv 20 && Rltb dv 20); [right; eauto|].
  destruct (Rltb 80 kv && Rltb 80 dv); [right; eauto | now left].
Qed.

Lemma boll_signal_block price boll : block_of "BOLL" (boll_signal price boll).
Proof.
  unfold boll_signal, block_of.
  destruct (truthy_value (last (upper boll) None)) as [u|]; [|now left].
  destruct (truthy_value (last (lower boll) None)) as [l|]; [|now left].
  destruct (Rleb price l); [right; eauto|].
  destruct (Rleb u price); [right; eauto | now left].
Qed.

Lemma generate_signals_blocks price ma5 ma10 ma20 m rsi kdj boll sigs :
  _generate_signals price ma5 ma10 ma20 m rsi kdj boll = Ret sigs ->
  exists s_ma s_macd,
    block_of "MA" s_ma /\ block_of "MACD" s_macd
    /\ sigs = s_ma ++ s_macd ++ rsi_signal rsi ++ kdj_signal kdj
              ++ boll_signal price boll.
Proof.
  unfold _generate_signals.
  destruct (ma_signal ma5 ma10) as [s_ma|] eqn:E1; simpl; [|discriminate].
  destruct (macd_signal m) as [s_macd|] eqn:E2; simpl; [|discriminate].
  intros [= <-]. exists s_ma, s_macd.
  split; [exact (ma_signal_block _ _ E1)|].
  split; [exact (macd_signal_block _ E2)|reflexivity].
Qed.

(** A series that falls at every step has an RSI of exactly 0. *)
Lemma rsi_value_no_gain L : (0 < L)%R -> rsi_value 0 L = 0%R.
Proof.
  intros H. unfold rsi_value. destruct (Req_dec_T L 0); [lra|].
  unfold Rdiv. rewrite Rmult_0_l, Rplus_0_r, Rinv_1. lra.
Qed.

Lemma rsi_loop_falling period G L gl :
  1 <= period -> G = 0%R -> (0 < L)%R ->
  Forall (fun p => fst p = 0%R /\ (0 < snd p)%R) gl ->
  Forall (fun o => o = Some 0%R) (rsi_loop period G L gl).
Proof.
  intros Hp. revert G L. induction gl as [|[g l] rest IH]; intros G L HG HL H;
    simpl; [constructor|].
  inversion H as [|? ? [Hg Hl] Hrest]; subst. simpl in Hg, Hl. subst g.
  assert (Hn : (0 < INR period)%R) by (apply lt_0_INR; lia).
  assert (Hm : (0 <= INR (period - 1))%R) by apply pos_INR.
  assert (G' : ((0 * INR (period - 1) + 0) / INR period = 0)%R)
    by (unfold Rdiv; lra).
  assert (L' : (0 < (L * INR (period - 1) + l) / INR period)%R).
  { apply Rdiv_lt_0_compat; [nra | assumption]. }
  constructor.
  - rewrite G'. now rewrite rsi_value_no_gain.
  - apply IH; assumption.
Qed.

Lemma fold_plus_shift l a : fold_left Rplus l a = (a + sum l)%R.
Proof.
  unfold sum. revert a. induction l as [|x r IH]; intros a; simpl; [lra|].
  rewrite IH, (IH (0 + x)%R). lra.
Qed.

Lemma sum_cons x l : sum (x :: l) = (x + sum l)%R.
Proof. unfold sum at 1. simpl. rewrite fold_plus_shift. lra. Qed.

Lemma sum_all_zero l : Forall (fun x => x = 0%R) l -> sum l = 0%R.
Proof.
  induction 1 as [|x r Hx _ IH]; [reflexivity|]. rewrite sum_cons. lra.
Qed.

Lemma sum_all_pos l :
  l <> [] -> Forall (fun x => (0 < x)%R) l -> (0 < sum l)%R.
Proof.
  intros Hne H. destruct l as [|x r]; [congruence|].
  inversion H; subst. rewrite sum_cons.
  assert (0 <= sum r)%R.
  { apply IndicatorExtra.sum_nonneg. eapply Forall_impl; [|eassumption].
    simpl. intros; lra. }
  lra.
Qed.

Lemma last_app_nonempty {A} (pre l : list A) dflt :
  l <> [] -> last (pre ++ l) dflt = last l dflt.
Proof.
  intros Hne. destruct (@exists_last _ l Hne) as [l' [z ->]].
  now rewrite app_assoc, !last_last.
Qed.

Lemma last_all {A} (P : A -> Prop) l dflt :
  l <> [] -> Forall P l -> P (last l dflt).
Proof.
  intros Hne H. rewrite Forall_forall in H. apply H.
  destruct (@exists_last _ l Hne) as [pre [z ->]].
  rewrite last_last. apply in_or_app. right. now left.
Qed.

Lemma rsi_of_falling prices period :
  1 <= period -> period + 1 <= List.length prices ->
  Forall (fun c => (c < 0)%R) (changes prices) ->
  exists rsi, calculate_rsi prices period = Ret rsi
              /\ List.length rsi = List.length prices
              /\ last rsi None = Some 0%R.
Proof.
  intros Hp Hlen Hfall.
  pose proof (IndicatorFacts.changes_length prices) as Hcl.
  assert (Hg : Forall (fun x => x = 0%R) (map gain_of (changes prices))).
  { apply Forall_forall. intros x Hx. apply in_map_iff in Hx.
    destruct Hx as [c [<- Hc]]. rewrite Forall_forall in Hfall.
    specialize (Hfall _ Hc). unfold gain_of. destruct (Rlt_dec 0 c); lra. }
  assert (Hl : Forall (fun x => (0 < x)%R) (map loss_of (changes prices))).
  { apply Forall_forall. intros x Hx. apply in_map_iff in Hx.
    destruct Hx as [c [<- Hc]]. rewrite Forall_forall in Hfall.
    specialize (Hfall _ Hc). unfold loss_of. destruct (Rlt_dec 0 c); [lra|].
    apply Rabs_pos_lt. lra. }
  assert (Hn : (0 < INR period)%R) by (apply lt_0_INR; lia).
  unfold calculate_rsi. destruct (Nat.ltb_spec (List.length prices) (period + 1));
    [lia|].
  unfold div_int. destruct (Nat.eqb_spec period 0); [lia|]. cbn [obind].
  eexists. split; [reflexivity|].
  set (G := (sum (firstn period (map gain_of (changes prices))) / INR period)%R).
  set (L := (sum (firstn period (map loss_of (changes prices))) / INR period)%R).
  set (gl := combine (skipn period (map gain_of (changes prices)))
               (skipn period (map loss_of (changes prices)))).
  assert (HG : G = 0%R).
  { unfold G. rewrite sum_all_zero; [unfold Rdiv; lra|].
    now apply IndicatorExtra.Forall_firstn. }
  assert (HL : (0 < L)%R).
  { unfold L. apply Rdiv_lt_0_compat; [|assumption]. apply sum_all_pos.
    - intros E. apply (f_equal (@List.length R)) in E.
      rewrite length_firstn, length_map in E. simpl in E. lia.
    - now apply IndicatorExtra.Forall_firstn. }
  assert (Hgl : Forall (fun p => fst p = 0%R /\ (0 < snd p)%R) gl).
  { apply Forall_forall. intros [g l] Hin. unfold gl in Hin.
    pose proof (in_combine_l _ _ _ _ Hin) as H1.
    pose proof (in_combine_r _ _ _ _ Hin) as H2.
    apply IndicatorExtra.Forall_skipn with (n := period) in Hg, Hl.
    rewrite Forall_forall in Hg, Hl. simpl. split; [now apply Hg | now apply Hl]. }
  split.
  - rewrite !length_app, repeat_length, IndicatorFacts.rsi_loop_length.
    unfold gl. rewrite length_combine, !length_skipn, !length_map.
    simpl. lia.
  - rewrite last_app_nonempty by discriminate.
    apply (@last_all _ (fun o => o = Some 0%R)); [discriminate|].
    constructor.
    + f_equal. rewrite HG. now apply rsi_value_no_gain.
    + now apply rsi_loop_falling.
Qed.

Lemma rsi_signal_of_zero rsi : last rsi None = Some 0%R -> rsi_signal rsi = [].
Proof.
  intros H. unfold rsi_signal. rewrite H. simpl.
  destruct (Req_dec_T 0 0); [reflexivity | contradiction].
Qed.

Lemma block_indicators name l :
  block_of name l -> map indicator l = [] \/ map indicator l = [name].
Proof. intros [->|[s [-> <-]]]; [now left | now right]. Qed.

End Signals.

Section SignalClaims.

Import Indicators Signals.
Open Scope nat_scope.

(** X21: when every price of the series is lower than the one before it
    (and the series is longer than [period]), [calculate_rsi] ends with an
    RSI of exactly 0, which [_generate_signals] reads as "no value": the
    RSI block adds nothing, and no signal of the result has the indicator
    RSI, although 0 is the deepest oversold reading. *)
Theorem X21_steady_fall_gives_no_rsi_signal :
  forall prices period price ma5 ma10 ma20 m kdj boll,
    1 <= period -> period + 1 <= List.length prices ->
    Forall (fun c => (c < 0)%R) (changes prices) ->
    exists rsi,
      calculate_rsi prices period = Ret rsi
      /\ last rsi None = Some 0%R
      /\ rsi_signal rsi = []
      /\ forall sigs,
           _generate_signals price ma5 ma10 ma20 m rsi kdj boll = Ret sigs ->
           ~ In "RSI" (map indicator sigs).
Proof.
  intros prices period price ma5 ma10 ma20 m kdj boll Hp Hlen Hfall.
  destruct (@rsi_of_falling _ _ Hp Hlen Hfall) as [rsi [Hrun [_ Hlast]]].
  exists rsi. split; [assumption|]. split; [assumption|].
  pose proof (@rsi_signal_of_zero _ Hlast) as Hnone.
  split; [assumption|].
  intros sigs Hs.
  destruct (@generate_signals_blocks _ _ _ _ _ _ _ _ _ Hs)
    as [s_ma [s_macd [Hma [Hmacd ->]]]].
  rewrite Hnone. rewrite !map_app. simpl.
  intros Hin. rewrite !in_app_iff in Hin.
  destruct (@block_indicators _ _ Hma) as [E1|E1];
    destruct (@block_indicators _ _ Hmacd) as [E2|E2];
    destruct (@block_indicators _ _ (kdj_signal_block kdj)) as [E3|E3];
    destruct (@block_indicators _ _ (boll_signal_block price boll)) as [E4|E4];
    rewrite E1, E2, E3, E4 in Hin; simpl in Hin;
    intuition discriminate.
Qed.

Definition no_macd : MACD := {| macd := []; signal := []; histogram := [] |}.
Definition no_kdj : KDJ := {| k := []; d := []; j := [] |}.
Definition no_bands : Bands := {| upper := []; middle := []; lower := [] |}.

Lemma X21_witness :
  1 <= 2 /\ 2 + 1 <= List.length [3; 2; 1]%R
  /\ Forall (fun c => (c < 0)%R) (changes [3; 2; 1]%R)
  /\ exists rsi,
       calculate_rsi [3; 2; 1]%R 2 = Ret rsi
       /\ last rsi None = Some 0%R
       /\ rsi_signal rsi = []
       /\ forall sigs,
            _generate_signals 1%R [None] [None] [None] no_macd rsi no_kdj
              no_bands = Ret sigs ->
            ~ In "RSI" (map indicator sigs).
Proof.
  assert (H1 : 1 <= 2) by lia.
  assert (H2 : 2 + 1 <= List.length [3; 2; 1]%R) by (simpl; lia).
  assert (H3 : Forall (fun c => (c < 0)%R) (changes [3; 2; 1]%R))
    by (simpl; repeat constructor; lra).
  split; [exact H1|]. split; [exact H2|]. split; [exact H3|].
  exact (@X21_steady_fall_gives_no_rsi_signal [3; 2; 1]%R 2 1%R [None] [None]
           [None] no_macd no_kdj no_bands H1 H2 H3).
Defined.

(** X22: whenever [_generate_signals] returns, its list holds at most one
    signal per indicator, in the fixed order MA, MACD, RSI, KDJ, BOLL: the
    indicators of the result are a subsequence of that list (so there are
    at most five signals). *)
Theorem X22_signals_one_per_indicator_in_order :
  forall price ma5 ma10 ma20 m rsi kdj boll sigs,
    _generate_signals price ma5 ma10 ma20 m rsi kdj boll = Ret sigs ->
    subsequence (map indicator sigs) ["MA"; "MACD"; "RSI"; "KDJ"; "BOLL"] = true
    /\ List.length sigs <= 5.
Proof.
  intros price ma5 ma10 ma20 m rsi kdj boll sigs Hs.
  destruct (@generate_signals_blocks _ _ _ _ _ _ _ _ _ Hs)
    as [s_ma [s_macd [Hma [Hmacd ->]]]].
  rewrite <- (length_map indicator). rewrite !map_app.
  destruct (@block_indicators _ _ Hma) as [E1|E1];
    destruct (@block_indicators _ _ Hmacd) as [E2|E2];
    destruct (@block_indicators _ _ (rsi_signal_block rsi)) as [E3|E3];
    destruct (@block_indicators _ _ (kdj_signal_block kdj)) as [E4|E4];
    destruct (@block_indicators _ _ (boll_signal_block price boll)) as [E5|E5];
    rewrite E1, E2, E3, E4, E5; split; try reflexivity; simpl; lia.
Qed.

Lemma overbought_run :
  _generate_signals 1%R [None] [None] [None] no_macd [Some 100%R] no_kdj
    no_bands
  = Ret [{| type := bearish; indicator := "RSI";
            message := rsi_overbought 100%R |}].
Proof.
  unfold _generate_signals. simpl. unfold rsi_signal. simpl.
  destruct (Req_dec_T 100 0); [lra|].
  unfold Rltb. destruct (Rlt_dec 100 30); [lra|].
  destruct (Rlt_dec 70 100); [reflexivity | lra].
Qed.

Lemma X22_witness :
  _generate_signals 1%R [None] [None] [None] no_macd [Some 100%R] no_kdj
    no_bands
  = Ret [{| type := bearish; indicator := "RSI";
            message := rsi_overbought 100%R |}]
  /\ subsequence
       (map indicator [{| type := bearish; indicator := "RSI";
                          message := rsi_overbought 100%R |}])
       ["MA"; "MACD"; "RSI"; "KDJ"; "BOLL"] = true
  /\ List.length [{| type := bearish; indicator := "RSI";
                     message := rsi_overbought 100%R |}] <= 5.
Proof.
  split; [exact overbought_run|].
  exact (@X22_signals_one_per_indicator_in_order 1%R [None] [None] [None]
           no_macd [Some 100%R] no_kdj no_bands _ overbought_run).
Defined.

End SignalClaims.


(** ** [TushareService]: joining daily bars into weekly and monthly bars *)

Module Tushare.

Import Kline Indicators.
Open Scope nat_scope.

(** [def _aggregate_klines(self, klines)]; [None] is the empty dict the
    function returns for an empty list. *)
Definition _aggregate_klines (klines : list Bar) : option Bar :=
  match klines with
  | [] => None
  | first :: rest =>
      let final := last klines first in
      let date_value := trade_date final in
      let vol_value := sum (map vol klines) in
      Some {| trade_date := date_value;
              date := date_value;
              open := open first;
              high := fold_left Rmax (map high rest) (high first);
              low := fold_left Rmin (map low rest) (low first);
              close := close final;
              vol := vol_value;
              volume := vol_value;
              amount := sum (map amount klines);
              pct_chg := if Rlt_dec 0 (open first)
                         then py_round ((close final - open first)
                                        / open first * 100) 2
                         else 0%R;
              source := "tushare" |}
  end.

(** What the aggregators read of [datetime.strptime(s, "%Y%m%d")]. *)
Record Date : Type := {
  month : nat;
  weekday : nat
}.

Section Calendar.

(** [datetime.strptime(s, "%Y%m%d")]; [None] where it raises. *)
Variable strptime : string -> option Date.

Definition parse (s : string) : Outcome Date :=
  match strptime s with
  | Some date => Ret date
  | None => Raise (Exception "time data does not match format '%Y%m%d'")
  end.

Record MonthState : Type := {
  monthly : list (option Bar);
  current_month : list Bar;
  current_month_num : option nat
}.

(** One round of the loop of [_aggregate_to_monthly]. *)
Definition monthly_step (st : MonthState) (kline : Bar) : Outcome MonthState :=
  obind (parse (trade_date kline)) (fun date =>
  match current_month_num st with
  | None =>
      Ret {| monthly := monthly st;
             current_month := current_month st ++ [kline];
             current_month_num := Some (month date) |}
  | Some num =>
      if negb (month date =? num) then
        Ret {| monthly := monthly st ++ [_aggregate_klines (current_month st)];
               current_month := [kline];
               current_month_num := Some (month date) |}
      else
        Ret {| monthly := monthly st;
               current_month := current_month st ++ [kline];
               current_month_num := Some num |}
  end).

Fixpoint monthly_loop (st : MonthState) (klines : list Bar) : Outcome MonthState :=
  match klines with
  | [] => Ret st
  | kline :: rest => obind (monthly_step st kline) (fun st' => monthly_loop st' rest)
  end.

(** [def _aggregate_to_monthly(self, daily_klines)] *)
Definition _aggregate_to_monthly (daily_klines : list Bar)
  : Outcome (list (option Bar)) :=
  match daily_klines with
  | [] => Ret []
  | _ =>
      obind (monthly_loop {| monthly := []; current_month := [];
                             current_month_num := None |} daily_klines)
        (fun st =>
           match current_month st with
           | [] => Ret (monthly st)
           | _ => Ret (monthly st ++ [_aggregate_klines (current_month st)])
           end)
  end.

Record WeekState : Type := {
  weekly : list (option Bar);
  current_week : list Bar
}.

(** One round of the loop of [_aggregate_to_weekly]. *)
Definition weekly_step (st : WeekState) (kline : Bar) : Outcome WeekState :=
  obind (parse (trade_date kline)) (fun date =>
  match current_week st with
  | [] =>
      Ret {| weekly := weekly st; current_week := current_week st ++ [kline] |}
  | first :: _ =>
      obind (parse (trade_date (last (current_week st) first))) (fun previous =>
      if weekday date <? weekday previous then
        Ret {| weekly := weekly st ++ [_aggregate_klines (current_week st)];
               current_week := [kline] |}
      else
        Ret {| weekly := weekly st;
               current_week := current_week st ++ [kline] |})
  end).

Fixpoint weekly_loop (st : WeekState) (klines : list Bar) : Outcome WeekState :=
  match klines with
  | [] => Ret st
  | kline :: rest => obind (weekly_step st kline) (fun st' => weekly_loop st' rest)
  end.

(** [def _aggregate_to_weekly(self, daily_klines)] *)
Definition _aggregate_to_weekly (daily_klines : list Bar)
  : Outcome (list (option Bar)) :=
  match daily_klines with
  | [] => Ret []
  | _ =>
      obind (weekly_loop {| weekly := []; current_week := [] |} daily_klines)
        (fun st =>
           match current_week st with
           | [] => Ret (weekly st)
           | _ => Ret (weekly st ++ [_aggregate_klines (current_week st)])
           end)
  end.

(** Every date of the list is one [strptime] reads. *)
Definition dated (klines : list Bar) : Prop :=
  Forall (fun kline => exists date, strptime (trade_date kline) = Some date) klines.

(** The bars of one group are of one month. *)
Definition one_month (group : list Bar) : Prop :=
  exists num,
    Forall (fun kline => exists date,
                strptime (trade_date kline) = Some date /\ month date = num)
      group.

(** The groups already closed and the open one make up the bars read so far. *)
Definition month_inv (seen : list Bar) (st : MonthState) : Prop :=
  exists groups,
    monthly st = map _aggregate_klines groups
    /\ concat groups ++ current_month st = seen
    /\ Forall (fun g => g <> [] /\ one_month g) groups
    /\ match current_month_num st with
       | None => current_month st = []
       | Some num =>
           current_month st <> []
           /\ Forall (fun kline => exists date,
                          strptime (trade_date kline) = Some date
                          /\ month date = num)
                (current_month st)
       end.

Lemma concat_snoc {A} (groups : list (list A)) g :
  concat (groups ++ [g]) = concat groups ++ g.
Proof. now rewrite concat_app; simpl; rewrite app_nil_r. Qed.

Lemma monthly_step_inv seen st kline :
  month_inv seen st ->
  (exists date, strptime (trade_date kline) = Some date) ->
  exists st', monthly_step st kline = Ret st' /\ month_inv (seen ++ [kline]) st'.
Proof.
  intros [groups [Hm [Hc [Hg Hcur]]]] [date Hd].
  unfold monthly_step, parse. rewrite Hd. cbn [obind].
  destruct (current_month_num st) as [num|] eqn:En.
  - destruct Hcur as [Hne Hall].
    destruct (Nat.eqb_spec (month date) num) as [He|He]; cbn [negb].
    + eexists. split; [reflexivity|]. exists groups. cbn [weekly current_week monthly current_month current_month_num].
      split; [assumption|]. split; [now rewrite app_assoc, Hc|].
      split; [assumption|]. split.
      * intros E. now apply app_eq_nil in E as [_ E].
      * apply Forall_app. split; [assumption|]. constructor; [|constructor].
        now exists date.
    + eexists. split; [reflexivity|]. exists (groups ++ [current_month st]). cbn [weekly current_week monthly current_month current_month_num].
      split; [now rewrite map_app, Hm|].
      split; [now rewrite concat_snoc, Hc|].
      split.
      * apply Forall_app. split; [assumption|]. constructor; [|constructor].
        split; [assumption|]. now exists num.
      * split; [discriminate|]. constructor; [|constructor]. now exists date.
  - eexists. split; [reflexivity|]. exists groups. cbn [weekly current_week monthly current_month current_month_num].
    split; [assumption|]. split; [now rewrite app_assoc, Hc|].
    split; [assumption|]. split.
    + intros E. now apply app_eq_nil in E as [_ E].
    + rewrite Hcur. simpl. constructor; [|constructor]. now exists date.
Qed.

Lemma monthly_loop_inv klines : forall seen st,
  month_inv seen st -> dated klines ->
  exists st', monthly_loop st klines = Ret st' /\ month_inv (seen ++ klines) st'.
Proof.
  induction klines as [|kline rest IH]; intros seen st Hinv Hd; simpl.
  - exists st. now rewrite app_nil_r.
  - inversion Hd as [|? ? Hk Hrest]; subst.
    destruct (monthly_step_inv kline Hinv Hk) as [st1 [E1 Hinv1]].
    rewrite E1. cbn [obind].
    destruct (IH _ _ Hinv1 Hrest) as [st' [E' Hinv']].
    exists st'. split; [assumption|]. now rewrite <- app_assoc in Hinv'.
Qed.

Lemma aggregate_to_monthly_groups daily :
  dated daily ->
  exists groups,
    _aggregate_to_monthly daily = Ret (map _aggregate_klines groups)
    /\ concat groups = daily
    /\ Forall (fun g => g <> [] /\ one_month g) groups.
Proof.
  intros Hd. destruct daily as [|k0 rest].
  { exists []. repeat split; constructor. }
  unfold _aggregate_to_monthly. cbv beta iota.
  remember (k0 :: rest) as daily eqn:Ed.
  assert (H0 : month_inv [] {| monthly := []; current_month := [];
                               current_month_num := None |}).
  { exists []. cbn. repeat split; constructor. }
  destruct (monthly_loop_inv H0 Hd) as [st [E [groups [Hm [Hc [Hg Hcur]]]]]].
  rewrite E. cbn [obind]. simpl in Hc.
  destruct (current_month st) as [|c cs] eqn:Ec.
  - exists groups. rewrite Hm. rewrite app_nil_r in Hc. now repeat split.
  - exists (groups ++ [c :: cs]). rewrite map_app, Hm. simpl map.
    split; [reflexivity|]. split; [now rewrite concat_snoc|].
    apply Forall_app. split; [assumption|]. constructor; [|constructor].
    split; [discriminate|].
    destruct (current_month_num st) as [num|]; [|discriminate].
    exists num. apply Hcur.
Qed.

(** The weekday [strptime] reads from the date of a bar. *)
Definition weekday_of (kline : Bar) : option nat :=
  option_map weekday (strptime (trade_date kline)).

(** From [a] to [b] the weekday does not fall; it falls. *)
Definition steady (a b : Bar) : Prop :=
  exists x y, weekday_of a = Some x /\ weekday_of b = Some y /\ x <= y.

Definition falls (a b : Bar) : Prop :=
  exists x y, weekday_of a = Some x /\ weekday_of b = Some y /\ y < x.

(** Within the group the weekday never falls from a bar to the next. *)
Fixpoint one_week (group : list Bar) : Prop :=
  match group with
  | a :: (b :: _) as rest => steady a b /\ one_week rest
  | _ => True
  end.

(** The weekday falls from the last bar of [g1] to the first bar of [g2]. *)
Definition boundary (g1 g2 : list Bar) : Prop :=
  exists pre a b post, g1 = pre ++ [a] /\ g2 = b :: post /\ falls a b.

(** The weekday falls from every group to the next. *)
Fixpoint week_breaks (groups : list (list Bar)) : Prop :=
  match groups with
  | g1 :: (g2 :: _) as rest => boundary g1 g2 /\ week_breaks rest
  | _ => True
  end.

Lemma one_week_snoc group kline :
  one_week group ->
  (forall pre a, group = pre ++ [a] -> steady a kline) ->
  one_week (group ++ [kline]).
Proof.
  induction group as [|a [|b r] IH]; intros Hg Hlast.
  - exact I.
  - split; [|exact I]. now apply (Hlast []).
  - destruct Hg as [Hab Hr]. split; [assumption|].
    apply IH; [assumption|]. intros pre c E. apply (Hlast (a :: pre)).
    simpl. now rewrite <- E.
Qed.

Lemma week_breaks_replace groups g g' :
  week_breaks (groups ++ [g]) ->
  (forall g0, boundary g0 g -> boundary g0 g') ->
  week_breaks (groups ++ [g']).
Proof.
  induction groups as [|g0 [|g1 r] IH]; intros H Hb.
  - exact I.
  - destruct H as [H0 _]. split; [now apply Hb | exact I].
  - destruct H as [H0 H1]. split; [assumption|]. now apply IH.
Qed.

Lemma week_breaks_snoc groups g g' :
  week_breaks (groups ++ [g]) -> boundary g g' ->
  week_breaks ((groups ++ [g]) ++ [g']).
Proof.
  induction groups as [|g0 [|g1 r] IH]; intros H Hb.
  - split; [assumption | exact I].
  - destruct H as [H0 _]. split; [assumption|]. split; [assumption | exact I].
  - destruct H as [H0 H1]. split; [assumption|]. now apply IH.
Qed.

Lemma week_breaks_prefix groups g :
  week_breaks (groups ++ [g]) -> week_breaks groups.
Proof.
  induction groups as [|g0 [|g1 r] IH]; intros H.
  - exact I.
  - exact I.
  - destruct H as [H0 H1]. split; [assumption|]. now apply IH.
Qed.

Definition week_inv (seen : list Bar) (st : WeekState) : Prop :=
  exists groups,
    weekly st = map _aggregate_klines groups
    /\ concat groups ++ current_week st = seen
    /\ Forall (fun g => g <> []) groups
    /\ Forall one_week (groups ++ [current_week st])
    /\ week_breaks (groups ++ [current_week st])
    /\ dated (current_week st).

Lemma dated_last g first : dated g -> g <> [] ->
  exists date, strptime (trade_date (last g first)) = Some date.
Proof.
  intros H Hne. destruct (@exists_last _ g Hne) as [pre [z ->]].
  rewrite last_last. apply Forall_app in H as [_ H]. now inversion H.
Qed.

Lemma weekly_step_inv seen st kline :
  week_inv seen st ->
  (exists date, strptime (trade_date kline) = Some date) ->
  exists st', weekly_step st kline = Ret st' /\ week_inv (seen ++ [kline]) st'.
Proof.
  intros [groups [Hm [Hc [Hg [Hw [Hb Hcur]]]]]] [date Hd].
  unfold weekly_step, parse. rewrite Hd. cbn [obind].
  assert (Hk : weekday_of kline = Some (weekday date))
    by (unfold weekday_of; now rewrite Hd).
  apply Forall_app in Hw as [Hwg Hwc].
  destruct (current_week st) as [|first others] eqn:Ec.
  - eexists. split; [reflexivity|]. exists groups.
    cbn [weekly current_week].
    split; [assumption|]. split; [now rewrite <- Hc, app_nil_r|].
    split; [assumption|]. split; [|split].
    + apply Forall_app. split; [assumption|]. constructor; [exact I|constructor].
    + apply (@week_breaks_replace _ _ _ Hb).
      intros g0 (pre & a & b & post & _ & E & _). discriminate.
    + constructor; [|constructor]. now exists date.
  - destruct (@dated_last (first :: others) first Hcur) as [prev Hp];
      [discriminate|].
    rewrite Hp. cbn [obind].
    assert (Hlast : forall pre a, first :: others = pre ++ [a] ->
                                  weekday_of a = Some (weekday prev)).
    { intros pre a E. unfold weekday_of. rewrite E, last_last in Hp.
      now rewrite Hp. }
    destruct (Nat.ltb_spec (weekday date) (weekday prev)) as [Hlt|Hge].
    + eexists. split; [reflexivity|]. exists (groups ++ [first :: others]).
      cbn [weekly current_week].
      split; [now rewrite map_app, Hm|].
      split; [now rewrite concat_snoc, Hc|].
      split; [|split; [|split]].
      * apply Forall_app. split; [assumption|]. constructor; [|constructor].
        discriminate.
      * apply Forall_app. split; [now apply Forall_app|].
        constructor; [exact I|constructor].
      * apply week_breaks_snoc; [assumption|].
        destruct (@exists_last _ (first :: others)) as [pre [a E]];
          [discriminate|].
        exists pre, a, kline, []. split; [assumption|].
        split; [reflexivity|].
        exists (weekday prev), (weekday date).
        split; [now apply (Hlast pre)|]. now split.
      * constructor; [|constructor]. now exists date.
    + eexists. split; [reflexivity|]. exists groups.
      cbn [weekly current_week].
      split; [assumption|]. split; [now rewrite app_assoc, Hc|].
      split; [assumption|]. split; [|split].
      * apply Forall_app. split; [assumption|]. constructor; [|constructor].
        inversion Hwc; subst. apply one_week_snoc; [assumption|].
        intros pre a E. exists (weekday prev), (weekday date).
        split; [now apply (Hlast pre)|]. now split.
      * apply (@week_breaks_replace _ _ _ Hb).
        intros g0 (pre & a & b & post & E1 & E2 & Hf).
        exists pre, a, b, (post ++ [kline]). split; [assumption|].
        split; [now rewrite E2|assumption].
      * apply Forall_app. split; [assumption|]. constructor; [|constructor].
        now exists date.
Qed.

Lemma weekly_loop_inv klines : forall seen st,
  week_inv seen st -> dated klines ->
  exists st', weekly_loop st klines = Ret st' /\ week_inv (seen ++ klines) st'.
Proof.
  induction klines as [|kline rest IH]; intros seen st Hinv Hd; simpl.
  - exists st. now rewrite app_nil_r.
  - inversion Hd as [|? ? Hk Hrest]; subst.
    destruct (weekly_step_inv kline Hinv Hk) as [st1 [E1 Hinv1]].
    rewrite E1. cbn [obind].
    destruct (IH _ _ Hinv1 Hrest) as [st' [E' Hinv']].
    exists st'. split; [assumption|]. now rewrite <- app_assoc in Hinv'.
Qed.

Lemma aggregate_to_weekly_groups daily :
  dated daily ->
  exists groups,
    _aggregate_to_weekly daily = Ret (map _aggregate_klines groups)
    /\ concat groups = daily
    /\ Forall (fun g => g <> [] /\ one_week g) groups
    /\ week_breaks groups.
Proof.
  intros Hd. destruct daily as [|k0 rest].
  { exists []. repeat split; constructor. }
  unfold _aggregate_to_weekly. cbv beta iota.
  remember (k0 :: rest) as daily eqn:Ed.
  assert (H0 : week_inv [] {| weekly := []; current_week := [] |}).
  { exists []. cbn. repeat split; repeat constructor. }
  destruct (weekly_loop_inv H0 Hd)
    as [st [E [groups [Hm [Hc [Hg [Hw [Hb Hcur]]]]]]]].
  rewrite E. cbn [obind]. simpl in Hc.
  destruct (current_week st) as [|c cs] eqn:Ec.
  - exists groups. rewrite Hm. rewrite app_nil_r in Hc.
    split; [reflexivity|]. split; [assumption|].
    apply Forall_app in Hw as [Hw _]. split.
    + rewrite Forall_forall in *. intros g Hin. split; auto.
    + now apply week_breaks_prefix in Hb.
  - exists (groups ++ [c :: cs]). rewrite map_app, Hm. simpl map.
    split; [reflexivity|]. split; [now rewrite concat_snoc|].
    split; [|assumption].
    apply Forall_app in Hw as [Hw Hwc]. apply Forall_app. split.
    + rewrite Forall_forall in *. intros g Hin. split; auto.
    + inversion Hwc; subst. constructor; [|constructor].
      split; [discriminate | assumption].
Qed.

End Calendar.

Lemma fold_max_ge l a : (a <= fold_left Rmax l a)%R.
Proof.
  revert a. induction l as [|x r IH]; intros a; simpl; [lra|].
  eapply Rle_trans; [apply (Rmax_l a x) | apply IH].
Qed.

Lemma fold_max_upper l a x : In x l -> (x <= fold_left Rmax l a)%R.
Proof.
  revert a. induction l as [|y r IH]; intros a Hin; simpl; [contradiction|].
  destruct Hin as [->|Hin]; [|now apply IH].
  eapply Rle_trans; [apply (Rmax_r a x) | apply fold_max_ge].
Qed.

Lemma fold_min_le l a : (fold_left Rmin l a <= a)%R.
Proof.
  revert a. induction l as [|x r IH]; intros a; simpl; [lra|].
  eapply Rle_trans; [apply IH | apply Rmin_l].
Qed.

Lemma fold_min_lower l a x : In x l -> (fold_left Rmin l a <= x)%R.
Proof.
  revert a. induction l as [|y r IH]; intros a Hin; simpl; [contradiction|].
  destruct Hin as [->|Hin]; [|now apply IH].
  eapply Rle_trans; [apply fold_min_le | apply Rmin_r].
Qed.

Lemma fold_max_attained l a : fold_left Rmax l a = a \/ In (fold_left Rmax l a) l.
Proof.
  revert a. induction l as [|x r IH]; intros a; simpl; [now left|].
  destruct (IH (Rmax a x)) as [E|Hin]; [|now right; right].
  rewrite E. unfold Rmax. destruct (Rle_dec a x); [right; now left | now left].
Qed.

Lemma fold_min_attained l a : fold_left Rmin l a = a \/ In (fold_left Rmin l a) l.
Proof.
  revert a. induction l as [|x r IH]; intros a; simpl; [now left|].
  destruct (IH (Rmin a x)) as [E|Hin]; [|now right; right].
  rewrite E. unfold Rmin. destruct (Rle_dec a x); [now left | right; now left].
Qed.

End Tushare.

Section TushareClaims.

Import Kline Indicators Tushare.
Open Scope nat_scope.

(** Three trading days around the end of January 2024. *)
Definition day (d : string) (o h l c v a : R) : Bar :=
  {| trade_date := d; date := d; open := o; high := h; low := l; close := c;
     vol := v; volume := v; amount := a; pct_chg := 0%R; source := "tushare" |}.

Definition jan30 : Bar := day "20240130" 10 12 9 11 100 1000.
Definition jan31 : Bar := day "20240131" 11 13 10 12 200 2000.
Definition feb01 : Bar := day "20240201" 12 14 11 13 300 3000.

Definition calendar_2024 (s : string) : option Date :=
  if String.eqb s "20240130" then Some {| month := 1; weekday := 1 |}
  else if String.eqb s "20240131" then Some {| month := 1; weekday := 2 |}
  else if String.eqb s "20240201" then Some {| month := 2; weekday := 3 |}
  else None.

Lemma three_days_dated : dated calendar_2024 [jan30; jan31; feb01].
Proof. repeat constructor; eexists; reflexivity. Qed.

(** X23: when every [trade_date] of the daily bars is a date [strptime]
    reads, [_aggregate_to_monthly] returns, and its bars are those of a
    partition of the daily list into consecutive groups, none of them
    empty, each of one month: no day is lost, repeated or moved. *)
Theorem X23_monthly_bars_partition_the_days :
  forall strptime daily,
    dated strptime daily ->
    exists groups,
      _aggregate_to_monthly strptime daily = Ret (map _aggregate_klines groups)
      /\ concat groups = daily
      /\ Forall (fun g => g <> [] /\ one_month strptime g) groups.
Proof. intros strptime daily H. now apply aggregate_to_monthly_groups. Qed.

Lemma X23_witness :
  dated calendar_2024 [jan30; jan31; feb01]
  /\ exists groups,
       _aggregate_to_monthly calendar_2024 [jan30; jan31; feb01]
       = Ret (map _aggregate_klines groups)
       /\ concat groups = [jan30; jan31; feb01]
       /\ Forall (fun g => g <> [] /\ one_month calendar_2024 g) groups.
Proof.
  split; [exact three_days_dated|].
  exact (@X23_monthly_bars_partition_the_days calendar_2024
           [jan30; jan31; feb01] three_days_dated).
Defined.

(** The Monday after those three days. *)
Definition feb05 : Bar := day "20240205" 13 15 12 14 400 4000.

Definition calendar_feb (s : string) : option Date :=
  if String.eqb s "20240205" then Some {| month := 2; weekday := 0 |}
  else calendar_2024 s.

Lemma four_days_dated : dated calendar_feb [jan30; jan31; feb01; feb05].
Proof. repeat constructor; eexists; reflexivity. Qed.

(** X24: when every [trade_date] of the daily bars is a date [strptime]
    reads, [_aggregate_to_weekly] returns, and its bars are those of a
    partition of the daily list into consecutive groups, none of them empty:
    within a group the weekday never falls from one day to the next, and from
    the last day of a group to the first day of the next it falls.  A week
    of the result is a longest run of days whose weekday does not fall; the
    dates themselves are not compared. *)
Theorem X24_weekly_bars_are_runs_of_weekdays :
  forall strptime daily,
    dated strptime daily ->
    exists groups,
      _aggregate_to_weekly strptime daily = Ret (map _aggregate_klines groups)
      /\ concat groups = daily
      /\ Forall (fun g => g <> [] /\ one_week strptime g) groups
      /\ week_breaks strptime groups.
Proof. intros strptime daily H. now apply aggregate_to_weekly_groups. Qed.

Lemma X24_witness :
  dated calendar_feb [jan30; jan31; feb01; feb05]
  /\ exists groups,
       _aggregate_to_weekly calendar_feb [jan30; jan31; feb01; feb05]
       = Ret (map _aggregate_klines groups)
       /\ concat groups = [jan30; jan31; feb01; feb05]
       /\ Forall (fun g => g <> [] /\ one_week calendar_feb g) groups
       /\ week_breaks calendar_feb groups.
Proof.
  split; [exact four_days_dated|].
  exact (@X24_weekly_bars_are_runs_of_weekdays calendar_feb
           [jan30; jan31; feb01; feb05] four_days_dated).
Defined.

(** X25: the bar [_aggregate_klines] makes of a group spans the group: its
    high is the high of one of the group's bars and no bar's high is above
    it, its low is the low of one of them and no bar's low is below it. *)
Theorem X25_aggregated_bar_spans_its_group :
  forall group bar,
    _aggregate_klines group = Some bar ->
    (forall kline, In kline group ->
                   (low bar <= low kline)%R /\ (high kline <= high bar)%R)
    /\ (exists kline, In kline group /\ high kline = high bar)
    /\ (exists kline, In kline group /\ low kline = low bar).
Proof.
  intros [|first rest] bar; [discriminate|]. intros [= <-]. cbn [high low].
  split; [|split].
  - intros kline [<-|Hin].
    + split; [apply fold_min_le | apply fold_max_ge].
    + split; [apply fold_min_lower | apply fold_max_upper]; now apply in_map.
  - destruct (fold_max_attained (map high rest) (high first)) as [E|Hin].
    + exists first. split; [now left | now rewrite E].
    + apply in_map_iff in Hin as [kline [E Hin]]. exists kline.
      split; [now right | assumption].
  - destruct (fold_min_attained (map low rest) (low first)) as [E|Hin].
    + exists first. split; [now left | now rewrite E].
    + apply in_map_iff in Hin as [kline [E Hin]]. exists kline.
      split; [now right | assumption].
Qed.

Lemma X25_witness :
  exists bar,
    _aggregate_klines [jan30; jan31] = Some bar
    /\ (forall kline, In kline [jan30; jan31] ->
                      (low bar <= low kline)%R /\ (high kline <= high bar)%R)
    /\ (exists kline, In kline [jan30; jan31] /\ high kline = high bar)
    /\ (exists kline, In kline [jan30; jan31] /\ low kline = low bar).
Proof.
  eexists. split; [reflexivity|].
  exact (@X25_aggregated_bar_spans_its_group [jan30; jan31] _ eq_refl).
Defined.

End TushareClaims.
